(** * Shopify data explorer: proxy function, store manager and row normalizer

    A shallow embedding of
    - [supabase/functions/fetch-shopify-data/index.ts]: its first handler
      (module [Proxy]) and its second (module [Proxy2]),
    - the store manager component: the domain [handleSubmit] stores
      (module [StoreManager]), and its state with [fetchStores] and the
      whole of [handleSubmit] (module [StoreList]),
    - [src/components/DataViewer.tsx]: [processData] (module
      [DataViewer]), and [fetchData], [getColumns] and [renderContent]
      (module [Viewer]),
    - [src/components/DataTable.tsx] (module [DataTable]),
    over a small model of the JavaScript values and builtins they use
    (modules [JS] and [Runtime]): binary64 numbers with [parseFloat],
    [toFixed] and Number::toString, strings, JSON values, property access
    that throws on [undefined] and [null], and the conversion to a string,
    which throws on an object with a member named [toString].

    The handlers of the proxy run in a monad that logs its effects
    (reading the request body, the store lookup, the outbound call) and
    may throw; the Supabase client and the network are a [Backend] they
    are given. The host's [toLocaleDateString] and [toLocaleString], and
    the text of [JSON.stringify], are parameters. Module [RowSpec] words
    the rows as the specification does; the properties follow the
    definitions. *)

From Stdlib Require Import ZArith List Bool Ascii Lia.
From Stdlib Require Import Floats.SpecFloat.
From stdpp Require Import base option list gmap strings pretty.

#[local] Set Warnings "-register-all".

(** ** JavaScript values and the builtins the program calls *)

Module JS.

(** *** Numbers: IEEE 754 binary64

    A JavaScript number is a binary64 value; [spec_float] is the Standard
    Library's sign / mantissa / exponent view of one. *)

Abbreviation number := spec_float.

Definition prec : Z := 53.
Definition emax : Z := 1024.

(** The number nearest to [m * 2^e] (ties to even). *)
Definition round_number (m e : Z) : number := binary_normalize prec emax m e false.

(** The number nearest to the decimal [(-1)^neg * mant * 10^exp10]. *)
Definition decimal_to_number (neg : bool) (mant : N) (exp10 : Z) : number :=
  match mant with
  | N0 => S754_zero neg
  | Npos m =>
      if (0 <=? exp10)%Z
      then binary_normalize prec emax
             (if neg then Z.neg m * 10 ^ exp10 else Z.pos m * 10 ^ exp10)%Z 0 neg
      else SFdiv prec emax (S754_finite neg m 0)
                           (S754_finite false (Z.to_pos (10 ^ (- exp10))) 0)
  end.

(** [m * 2^e] as a fraction of two positive integers. *)
Definition fraction (m : positive) (e : Z) : Z * Z :=
  if (0 <=? e)%Z then (Z.pos m * 2 ^ e, 1)%Z else (Z.pos m, 2 ^ (- e))%Z.

(** [p / q] scaled by [10^k]. *)
Definition scale10 (pq : Z * Z) (k : Z) : Z * Z :=
  let '(p, q) := pq in
  if (0 <=? k)%Z then (p * 10 ^ k, q)%Z else (p, q * 10 ^ (- k))%Z.

(** [p / q < 10^k] *)
Definition below_pow10 (pq : Z * Z) (k : Z) : bool :=
  let '(p, q) := scale10 pq (- k) in (p <? q)%Z.

(** *** Strings

    A [string] is a sequence of code units below 256. *)

Definition is_digit (c : ascii) : bool :=
  let n := nat_of_ascii c in (48 <=? n)%nat && (n <=? 57)%nat.

Definition digit_value (c : ascii) : N := N.of_nat (nat_of_ascii c - 48).

(** White space and line terminators, as [trim] and [parseFloat] skip them:
    TAB, LF, VT, FF, CR, SP and NBSP. *)
Definition is_white (c : ascii) : bool :=
  let n := nat_of_ascii c in
  (n =? 9)%nat || (n =? 10)%nat || (n =? 11)%nat || (n =? 12)%nat
  || (n =? 13)%nat || (n =? 32)%nat || (n =? 160)%nat.

Fixpoint trimStart (s : string) : string :=
  match s with
  | String c s' => if is_white c then trimStart s' else s
  | EmptyString => EmptyString
  end.

Fixpoint trimEnd (s : string) : string :=
  match s with
  | String c s' =>
      match trimEnd s' with
      | EmptyString => if is_white c then EmptyString else String c EmptyString
      | t => String c t
      end
  | EmptyString => EmptyString
  end.

(** [s.trim()] *)
Definition trim (s : string) : string := trimEnd (trimStart s).

(** [s.startsWith(p)] *)
Fixpoint startsWith (s p : string) : bool :=
  match p, s with
  | EmptyString, _ => true
  | String a p', String b s' => if Ascii.eqb a b then startsWith s' p' else false
  | String _ _, EmptyString => false
  end.

(** [s.includes(p)] *)
Fixpoint includes (s p : string) : bool :=
  startsWith s p ||
  match s with
  | String _ s' => includes s' p
  | EmptyString => false
  end.

(** [s.endsWith(p)] *)
Fixpoint endsWith (s p : string) : bool :=
  String.eqb s p ||
  match s with
  | String _ s' => endsWith s' p
  | EmptyString => false
  end.

(** [s.slice(n)] for [0 <= n] *)
Fixpoint drop_chars (n : nat) (s : string) : string :=
  match n, s with
  | S n', String _ s' => drop_chars n' s'
  | _, _ => s
  end.

(** [n] copies of the code unit [c] *)
Fixpoint repeat_char (c : ascii) (n : nat) : string :=
  match n with
  | O => EmptyString
  | S n' => String c (repeat_char c n')
  end.

(** [s.padStart(n, "0")] *)
Definition pad_zeros (n : nat) (s : string) : string :=
  repeat_char "0" (n - String.length s) +:+ s.

(** *** Numbers to strings and back *)

Definition number_eqb (x y : number) : bool :=
  match x, y with
  | S754_zero a, S754_zero b => Bool.eqb a b
  | S754_infinity a, S754_infinity b => Bool.eqb a b
  | S754_nan, S754_nan => true
  | S754_finite a m e, S754_finite b m' e' =>
      Bool.eqb a b && (m =? m')%positive && (e =? e')%Z
  | _, _ => false
  end.

(** The binary64 representation of a finite number (mantissa of 53 bits, or
    fewer at the smallest exponent). *)
Definition canonical (x : number) : number :=
  match x with
  | S754_finite s m e =>
      binary_normalize prec emax (if s then Z.neg m else Z.pos m) e s
  | _ => x
  end.

(** The [n] with [10^(n-1) <= p/q < 10^n]: an estimate from the binary
    logarithm, then the first power of ten above the value. *)
Definition decimal_exponent (pq : Z * Z) : Z :=
  let '(p, q) := pq in
  let n0 := ((Z.log2 p - Z.log2 q) * 30103 / 100000)%Z in
  default (n0 + 3)%Z
    (find (below_pow10 pq) [n0 - 1; n0; n0 + 1; n0 + 2]%Z).

(** Number::toString, the digits: the least [k] and the [s] of [k] digits
    with [s * 10^(n-k)] rounding to [x]; of two such [s] the one nearer to
    [x], the even one on a tie. *)
Fixpoint shortest_digits (fuel : nat) (x : number) (pq : Z * Z) (n k : Z)
  : Z * Z :=
  let '(p, q) := scale10 pq (k - n) in
  let lo := (p / q)%Z in
  let hi := (lo + 1)%Z in
  let back s := number_eqb (decimal_to_number false (Z.to_N s) (n - k)) x in
  let pick s := if (s =? 10 ^ k)%Z then (10 ^ (k - 1), n + 1)%Z else (s, n) in
  match fuel with
  | O => pick lo
  | S fuel' =>
      match back lo, back hi with
      | true, true =>
          match (2 * p ?= (2 * lo + 1) * q)%Z with
          | Lt => pick lo
          | Gt => pick hi
          | Eq => if Z.even lo then pick lo else pick hi
          end
      | true, false => pick lo
      | false, true => pick hi
      | false, false => shortest_digits fuel' x pq n (k + 1)
      end
  end.

Definition take_chars (n : nat) (s : string) : string := String.substring 0 n s.

(** Number::toString, the layout of the digits [ds] with decimal exponent [n]. *)
Definition layout_digits (ds : string) (n : Z) : string :=
  let k := Z.of_nat (String.length ds) in
  if (k <=? n)%Z && (n <=? 21)%Z then
    ds +:+ repeat_char "0" (Z.to_nat (n - k))
  else if (0 <? n)%Z && (n <=? 21)%Z then
    take_chars (Z.to_nat n) ds +:+ "." +:+ drop_chars (Z.to_nat n) ds
  else if (-6 <? n)%Z && (n <=? 0)%Z then
    "0." +:+ repeat_char "0" (Z.to_nat (- n)) +:+ ds
  else
    let e := (n - 1)%Z in
    let exponent := (if (e <? 0)%Z then "-" else "+") +:+ pretty (Z.abs e) in
    if (k =? 1)%Z then ds +:+ "e" +:+ exponent
    else take_chars 1 ds +:+ "." +:+ drop_chars 1 ds +:+ "e" +:+ exponent.

(** Number::toString(x), radix 10 *)
Definition Number_toString (x : number) : string :=
  match canonical x with
  | S754_nan => "NaN"
  | S754_zero _ => "0"
  | S754_infinity s => if s then "-Infinity" else "Infinity"
  | S754_finite s m e =>
      let pq := fraction m e in
      let '(d, n) :=
        shortest_digits 17 (S754_finite false m e) pq (decimal_exponent pq) 1 in
      (if s then "-" else "") +:+ layout_digits (pretty d) n
  end.

(** The digits at the head of [s], and what follows them. *)
Fixpoint span_digits (s : string) : string * string :=
  match s with
  | String c s' =>
      if is_digit c
      then let '(ds, rest) := span_digits s' in (String c ds, rest)
      else (EmptyString, s)
  | EmptyString => (EmptyString, EmptyString)
  end.

Fixpoint digits_to_N (acc : N) (ds : string) : N :=
  match ds with
  | String c ds' => digits_to_N (10 * acc + digit_value c)%N ds'
  | EmptyString => acc
  end.

Definition split_sign (s : string) : bool * string :=
  match s with
  | String "-" r => (true, r)
  | String "+" r => (false, r)
  | _ => (false, s)
  end.

(** ExponentPart, when one stands at the head of [s]: [e] or [E], a sign,
    digits. An incomplete one is no part of the literal. *)
Definition exponent_part (s : string) : Z :=
  match s with
  | String c r =>
      if Ascii.eqb c "e" || Ascii.eqb c "E" then
        let '(neg, r1) := split_sign r in
        let '(ds, _) := span_digits r1 in
        match ds with
        | EmptyString => 0%Z
        | _ => let v := Z.of_N (digits_to_N 0 ds) in if neg then (- v)%Z else v
        end
      else 0%Z
  | EmptyString => 0%Z
  end.

(** The value of the longest prefix of [s] that is a StrDecimalLiteral;
    NaN when there is none. *)
Definition StrDecimalLiteral_prefix (s : string) : number :=
  let '(neg, s1) := split_sign s in
  if startsWith s1 "Infinity" then S754_infinity neg else
  let '(int_part, s2) := span_digits s1 in
  let '(frac_part, s3) :=
    match s2 with
    | String "." r => span_digits r
    | _ => (EmptyString, s2)
    end in
  match int_part +:+ frac_part with
  | EmptyString => S754_nan
  | ds =>
      decimal_to_number neg (digits_to_N 0 ds)
        (exponent_part s3 - Z.of_nat (String.length frac_part))
  end.

(** The digits of [n / 10^f] with [f] digits after the point. *)
Definition fixed_digits (n : Z) (f : nat) : string :=
  match f with
  | O => pretty n
  | _ => pretty (n / 10 ^ Z.of_nat f)%Z +:+ "." +:+
         pad_zeros f (pretty (n mod 10 ^ Z.of_nat f)%Z)
  end.

(** [x.toFixed(f)] for [0 <= f <= 100] *)
Definition toFixed (x : number) (f : nat) : string :=
  match x with
  | S754_nan => "NaN"
  | S754_infinity _ => Number_toString x
  | S754_zero _ => fixed_digits 0 f
  | S754_finite s m e =>
      let pq := fraction m e in
      if below_pow10 pq 21 then
        let '(p, q) := scale10 pq (Z.of_nat f) in
        (if s then "-" else "") +:+ fixed_digits ((2 * p + q) / (2 * q))%Z f
      else Number_toString x
  end.

(** *** Values

    What [JSON.parse] yields, and [undefined]. An object is a finite map
    from its own property names to their values. *)

Inductive value :=
| VUndefined
| VNull
| VBool (b : bool)
| VNum (x : number)
| VStr (s : string)
| VArr (items : list value)
| VObj (fields : gmap string value).

(** The object literal [{ k1: v1, ... }], its keys distinct *)
Definition object (fields : list (string * value)) : value :=
  VObj (list_to_map fields).

(** ToBoolean *)
Definition truthy (v : value) : bool :=
  match v with
  | VUndefined | VNull => false
  | VBool b => b
  | VNum (S754_zero _) | VNum S754_nan => false
  | VNum _ => true
  | VStr EmptyString => false
  | VStr _ => true
  | VArr _ | VObj _ => true
  end.

(** *** Completions: a value, or a thrown error with its message *)

Inductive result (A : Type) :=
| Ok (a : A)
| Throw (message : string).
Arguments Ok {A} a.
Arguments Throw {A} message.

Definition bind {A B : Type} (r : result A) (k : A -> result B) : result B :=
  match r with
  | Ok a => k a
  | Throw message => Throw message
  end.

Notation "x <- r ;; k" := (bind r (fun x => k))
  (at level 100, r at next level, right associativity) : stdpp_scope.

(** [items.join(sep)] on strings *)
Fixpoint join (sep : string) (items : list string) : string :=
  match items with
  | [] => EmptyString
  | [s] => s
  | s :: rest => s +:+ sep +:+ join sep rest
  end.

(** ToString. A primitive has a string. An array joins the strings of its
    elements with commas, [null] and [undefined] elements as empty
    strings. An object that [JSON.parse] yields is converted by the
    [toString] it inherits, unless it has a member of that name of its
    own: that member is no function, [valueOf] gives the object back, and
    the conversion throws a TypeError. *)
Fixpoint ToString (v : value) : result string :=
  match v with
  | VUndefined => Ok "undefined"
  | VNull => Ok "null"
  | VBool b => Ok (if b then "true" else "false")
  | VNum x => Ok (Number_toString x)
  | VStr s => Ok s
  | VArr items =>
      parts <-
        (fix each (items : list value) : result (list string) :=
           match items with
           | [] => Ok []
           | item :: items' =>
               part <- match item with
                       | VUndefined | VNull => Ok EmptyString
                       | _ => ToString item
                       end ;;
               parts <- each items' ;;
               Ok (part :: parts)
           end) items ;;
      Ok (join "," parts)
  | VObj fields =>
      match fields !! "toString" with
      | Some _ => Throw "Cannot convert object to primitive value"
      | None => Ok "[object Object]"
      end
  end.

(** [parseFloat(v)] *)
Definition parseFloat (v : value) : result number :=
  text <- ToString v ;;
  Ok (StrDecimalLiteral_prefix (trimStart text)).

(** [v.key], for the field names the program reads: none of them names a
    member of a builtin prototype, an index or [length], so an object
    answers with its own property and every other value with [undefined].
    Reading a property of [undefined] or [null] throws a TypeError. *)
Definition get (v : value) (key : string) : result value :=
  match v with
  | VUndefined =>
      Throw ("Cannot read properties of undefined (reading '" +:+ key +:+ "')")
  | VNull =>
      Throw ("Cannot read properties of null (reading '" +:+ key +:+ "')")
  | VObj fields => Ok (default VUndefined (fields !! key))
  | _ => Ok VUndefined
  end.

(** [v?.key] *)
Definition get_optional (v : value) (key : string) : result value :=
  match v with
  | VUndefined | VNull => Ok VUndefined
  | _ => get v key
  end.

(** [a || b], the second operand evaluated on demand *)
Definition or_else (a : value) (b : result value) : result value :=
  if truthy a then Ok a else b.

End JS.

(** ** More of the language and of the libraries

    Arrays, lower case, the spread of a value, [JSON.stringify] and the
    toasts of [useToast]. *)

Module Runtime.
Import JS.

(** [items.map(f)] for a callback that may throw *)
Fixpoint Array_map {A B : Type} (f : A -> result B) (items : list A)
  : result (list B) :=
  match items with
  | [] => Ok []
  | item :: items' =>
      b <- f item ;;
      bs <- Array_map f items' ;;
      Ok (b :: bs)
  end.

(** The lower case of a code unit below 256: the letters A to Z, and the
    Latin-1 capitals from 192 to 222, the multiplication sign apart. *)
Definition lower (c : ascii) : ascii :=
  let n := nat_of_ascii c in
  if (65 <=? n)%nat && (n <=? 90)%nat
     || (192 <=? n)%nat && (n <=? 222)%nat && negb (n =? 215)%nat
  then ascii_of_nat (n + 32) else c.

(** [s.toLowerCase()] *)
Fixpoint toLowerCase (s : string) : string :=
  match s with
  | String c s' => String (lower c) (toLowerCase s')
  | EmptyString => EmptyString
  end.

(** The elements of an array under their indices. *)
Definition indexed (items : list value) : gmap string value :=
  list_to_map (imap (fun i v => (pretty i, v)) items).

Fixpoint code_units (s : string) : list value :=
  match s with
  | String c s' => VStr (String c EmptyString) :: code_units s'
  | EmptyString => []
  end.

(** [{ ...v }]: the own enumerable properties of [v]. An array and a
    string have their elements under the indices, the other primitives
    have none. *)
Definition spread (v : value) : gmap string value :=
  match v with
  | VObj fields => fields
  | VArr items => indexed items
  | VStr s => indexed (code_units s)
  | _ => ∅
  end.

(** [JSON.stringify(v)], the text. The members of an object stand in it in
    the order they were inserted, which a finite map does not keep, so the
    text is not computed here: it is the host's, and each function below
    asks for it at most once. *)
Class Serializer := JSON_stringify : value -> string.

(** [toast({ title, description, variant })] *)
Record Toast := {
  title : string;
  description : string;
  variant : option string;
}.

End Runtime.

(** ** The proxy function: [supabase/functions/fetch-shopify-data/index.ts]

    The file holds two handlers. This is the first (lines 1 to 210), the
    one passed to [serve]; the second, passed to [Deno.serve], is [Proxy2]
    below. *)

Module Proxy.
Import JS Runtime.

Definition corsHeaders : gmap string string :=
  <["Access-Control-Allow-Origin" := "*"]>
  (<["Access-Control-Allow-Headers" :=
       "authorization, x-client-info, apikey, content-type"]> ∅).

(** GraphQL queries for different data types *)
Definition QUERIES : gmap string string :=
  <["orders" := "
    query getOrders {
      orders(first: 20, sortKey: PROCESSED_AT, reverse: true) {
        edges {
          node {
            id
            name
            processedAt
            displayFinancialStatus
            displayFulfillmentStatus
            totalPriceSet {
              shopMoney {
                amount
                currencyCode
              }
            }
            customer {
              firstName
              lastName
              email
            }
          }
        }
      }
    }
  "]>
  (<["products" := "
    query getProducts {
      products(first: 20, sortKey: UPDATED_AT, reverse: true) {
        edges {
          node {
            id
            title
            handle
            status
            totalInventory
            updatedAt
            featuredImage {
              url
            }
            priceRangeV2 {
              minVariantPrice {
                amount
                currencyCode
              }
            }
          }
        }
      }
    }
  "]>
  (<["customers" := "
    query getCustomers {
      customers(first: 20, sortKey: UPDATED_AT, reverse: true) {
        edges {
          node {
            id
            displayName
            email
            numberOfOrders
            amountSpent {
              amount
              currencyCode
            }
          }
        }
      }
    }
  "]> ∅)).

(** The property names every object literal inherits from
    [Object.prototype] in Deno, which removes [__proto__] from it. *)
Definition Object_prototype : list string :=
  [ "constructor"; "__defineGetter__"; "__defineSetter__"; "hasOwnProperty";
    "__lookupGetter__"; "__lookupSetter__"; "isPrototypeOf";
    "propertyIsEnumerable"; "toString"; "valueOf"; "toLocaleString" ].

(** What [QUERIES[key]] evaluates to: an own property (a query text), a
    member inherited from [Object.prototype], or [undefined]. *)
Inductive member :=
| Own (query : string)
| Inherited (name : string)
| Missing.

(** [QUERIES[k]]; the key is [ToPropertyKey(k)], which throws where
    [ToString] does. *)
Definition QUERIES_get (k : value) : result member :=
  key <- ToString k ;;
  Ok match QUERIES !! key with
     | Some query => Own query
     | None =>
         if bool_decide (key ∈ Object_prototype) then Inherited key else Missing
     end.

(** ToBoolean of a member: the inherited ones are functions and objects. *)
Definition member_truthy (m : member) : bool :=
  match m with
  | Own query => truthy (VStr query)
  | Inherited _ => true
  | Missing => false
  end.

(** *** Requests, responses and the outside world *)

Record Request := {
  method : string;
  (** what [req.json()] resolves to, or the error it rejects with *)
  json : result value;
}.

(** A [Response]: its body is the value whose JSON text was passed, or
    [None] for a null body. *)
Record Response := {
  status : Z;
  headers : gmap string string;
  body : option value;
}.

Record ResponseInit := {
  init_status : option Z;
  init_headers : gmap string string;
}.

Definition null_body_status (s : Z) : bool :=
  (s =? 101)%Z || (s =? 204)%Z || (s =? 205)%Z || (s =? 304)%Z.

(** Whether the headers [h] name [name], which is in lower case: header
    names are matched without regard to case. *)
Definition has_header (h : gmap string string) (name : string) : bool :=
  existsb (fun entry => String.eqb (toLowerCase entry.1) name) (map_to_list h).

(** The headers of a response built from [init] headers [h]: a body that
    is a text brings its content type, unless [h] names one. *)
Definition response_headers {B : Type} (b : option B) (h : gmap string string)
  : gmap string string :=
  match b with
  | Some _ =>
      if has_header h "content-type" then h
      else <["content-type" := "text/plain;charset=UTF-8"]> h
  | None => h
  end.

(** [new Response(body, init)]: a RangeError for a status outside 200..599
    (101 apart), a TypeError for a body with a null body status. *)
Definition new_Response (b : option value) (init : ResponseInit)
  : result Response :=
  let s := default 200%Z (init_status init) in
  if negb ((200 <=? s)%Z && (s <=? 599)%Z) && negb (s =? 101)%Z then
    Throw ("The status provided (" +:+ pretty s +:+
           ") is not equal to 101 and outside the range [200, 599]")
  else if match b with Some _ => null_body_status s | None => false end then
    Throw "Response with null body status cannot have body"
  else
    Ok {| status := s; headers := response_headers b (init_headers init);
          body := b |}.

(** A row of the [stores] table, as selected:
    [shopify_domain, api_access_token]. *)
Record Store := {
  shopify_domain : string;
  api_access_token : string;
}.

(** The outbound call: [fetch(url, { method, headers, body })], the body
    being the JSON text of [{ query }]. *)
Record FetchRequest := {
  url : string;
  fetch_method : string;
  fetch_headers : gmap string string;
  query : member;
}.

(** The upstream's answer: the status line, and what [text()] and [json()]
    resolve to or reject with. *)
Record FetchResponse := {
  up_status : Z;
  up_statusText : string;
  up_text : result string;
  up_json : result value;
}.

(** [shopifyResponse.ok] *)
Definition ok (r : FetchResponse) : bool :=
  (200 <=? up_status r)%Z && (up_status r <=? 299)%Z.

(** What the handler does not decide: the Supabase client and the network. *)
Record Backend := {
  (** [createClient(url, key)] returns, or throws *)
  createClient : result unit;
  (** [from('stores').select(...).eq('id', store_id).single()]:
      [{ data, error }] *)
  single : value -> result (option Store * option string);
  (** [fetch(...)] resolves to a response, or rejects *)
  fetch : FetchRequest -> result FetchResponse;
}.

(** The effects of one invocation, in order. *)
Inductive event :=
| ReadBody
| StoreLookup (store_id : value)
| Outbound (request : FetchRequest).

(** A computation with a log of events, which may throw. *)
Definition M (A : Type) : Type := list event -> result A * list event.

Definition pure {A : Type} (r : result A) : M A := fun log => (r, log).

Definition perform {A : Type} (e : event) (r : result A) : M A :=
  fun log => (r, log ++ [e]).

Definition then_ {A B : Type} (m : M A) (k : A -> M B) : M B :=
  fun log =>
    match m log with
    | (Ok a, log') => k a log'
    | (Throw message, log') => (Throw message, log')
    end.

(** [try { m } catch (error) { handler(error.message) }] *)
Definition try_catch {A : Type} (m : M A) (handler : string -> M A) : M A :=
  fun log =>
    match m log with
    | (Throw message, log') => handler message log'
    | done => done
    end.

Notation "'let*' x := m 'in' k" := (then_ m (fun x => k))
  (at level 10, x name, m at level 100, k at level 200) : stdpp_scope.

(** [{ ...corsHeaders, 'Content-Type': 'application/json' }] *)
Definition json_headers : gmap string string :=
  <["Content-Type" := "application/json"]> corsHeaders.

(** [const { store_id, data_type } = body]: destructuring [null] or
    [undefined] throws a TypeError. *)
Definition destructure (v : value) (key : string) : result value :=
  match v with
  | VUndefined =>
      Throw ("Cannot destructure property '" +:+ key +:+
             "' of '(intermediate value)' as it is undefined.")
  | VNull =>
      Throw ("Cannot destructure property '" +:+ key +:+
             "' of '(intermediate value)' as it is null.")
  | _ => get v key
  end.

(** The handler passed to [serve]. Console output is not modelled. *)
Definition serve (be : Backend) (req : Request) : M Response :=
  (* Handle CORS preflight requests *)
  if bool_decide (method req = "OPTIONS") then
    pure (new_Response None
            {| init_status := None; init_headers := corsHeaders |})
  else
  try_catch
    (let* parsed := perform ReadBody (json req) in
     let* store_id := pure (destructure parsed "store_id") in
     let* data_type := pure (destructure parsed "data_type") in
     if negb (truthy store_id) || negb (truthy data_type) then
       pure (new_Response
               (Some (object [("error", VStr "Missing store_id or data_type")]))
               {| init_status := Some 400%Z; init_headers := json_headers |})
     else
     let* listed := pure (QUERIES_get data_type) in
     if negb (member_truthy listed) then
       pure (new_Response
               (Some (object [("error", VStr
                  "Invalid data_type. Must be: orders, products, or customers")]))
               {| init_status := Some 400%Z; init_headers := json_headers |})
     else
     (* Initialize Supabase client *)
     let* supabase := pure (createClient be) in
     (* Get store details from database *)
     let* reply := perform (StoreLookup store_id) (single be store_id) in
     match reply with
     | (Some store, None) =>
         (* Construct Shopify GraphQL endpoint *)
         let shopifyUrl :=
           "https://" +:+ shopify_domain store +:+
           "/admin/api/2024-07/graphql.json" in
         (* Make GraphQL request to Shopify *)
         let* query := pure (QUERIES_get data_type) in
         let request :=
           {| url := shopifyUrl;
              fetch_method := "POST";
              fetch_headers :=
                <["Content-Type" := "application/json"]>
                (<["X-Shopify-Access-Token" := api_access_token store]> ∅);
              query := query |} in
         let* shopifyResponse := perform (Outbound request) (fetch be request) in
         if negb (ok shopifyResponse) then
           let* errorText := pure (up_text shopifyResponse) in
           pure (new_Response
                   (Some (object
                      [("error", VStr "Shopify API request failed");
                       ("details", VStr (pretty (up_status shopifyResponse) +:+
                                         ": " +:+ up_statusText shopifyResponse));
                       ("shopifyError", VStr errorText)]))
                   {| init_status := Some (up_status shopifyResponse);
                      init_headers := json_headers |})
         else
         let* shopifyData := pure (up_json shopifyResponse) in
         let* errors := pure (get shopifyData "errors") in
         if truthy errors then
           pure (new_Response
                   (Some (object [("error", VStr "Shopify GraphQL errors");
                                  ("details", errors)]))
                   {| init_status := Some 400%Z; init_headers := json_headers |})
         else
           pure (new_Response (Some shopifyData)
                   {| init_status := None; init_headers := json_headers |})
     | _ =>
         (* storeError || !store *)
         pure (new_Response
                 (Some (object [("error", VStr "Store not found")]))
                 {| init_status := Some 404%Z; init_headers := json_headers |})
     end)
    (fun message =>
       pure (new_Response
               (Some (object [("error", VStr "Internal server error");
                              ("details", VStr message)]))
               {| init_status := Some 500%Z; init_headers := json_headers |})).

(** One invocation from an empty log: the response, or the error the
    handler lets escape, and the events performed. *)
Definition invoke (be : Backend) (req : Request) : result Response * list event :=
  serve be req [].

End Proxy.

(** ** The store manager: [handleSubmit] *)

Module StoreManager.
Import JS.

(** [domain.replace(/^https?:\/\//, '')] *)
Definition strip_protocol (domain : string) : string :=
  if startsWith domain "https://" then drop_chars 8 domain
  else if startsWith domain "http://" then drop_chars 7 domain
  else domain.

(** [domain.replace(/\/$/, '')] *)
Fixpoint strip_trailing_slash (domain : string) : string :=
  match domain with
  | String c EmptyString =>
      if Ascii.eqb c "/" then EmptyString else domain
  | String c rest => String c (strip_trailing_slash rest)
  | EmptyString => EmptyString
  end.

Record FormData := {
  store_name : string;
  shopify_domain : string;
  api_access_token : string;
}.

(** Ensure domain format is correct: the value of [domain] after the
    first block of [handleSubmit]. *)
Definition domain_of (formData : FormData) : string :=
  let domain := shopify_domain formData in
  if negb (includes domain ".myshopify.com") then
    let domain := strip_trailing_slash (strip_protocol domain) in
    if negb (endsWith domain ".myshopify.com") then
      domain +:+ ".myshopify.com"
    else domain
  else domain.

(** The row [handleSubmit] inserts into [stores]. *)
Definition handleSubmit (formData : FormData) : FormData :=
  {| store_name := store_name formData;
     shopify_domain := domain_of formData;
     api_access_token := api_access_token formData |}.

End StoreManager.

(** ** The row normalizer: [processData] of [DataViewer.tsx] *)

Module DataViewer.
Import JS Runtime.

Inductive DataType := orders | products | customers.

(** [new Date(v).toLocaleDateString()] is the host's: it depends on its
    locale and time zone. *)
Class Host := toLocaleDateString : value -> string.

(** [v.k1.k2...] *)
Fixpoint path (v : value) (keys : list string) : result value :=
  match keys with
  | [] => Ok v
  | key :: keys' => x <- get v key ;; path x keys'
  end.

(** [`${pair.currencyCode} ${parseFloat(pair.amount).toFixed(2)}`], the
    pair read again from the node at [keys]. A template literal converts
    each value to a string as it comes. *)
Definition money (node : value) (keys : list string) : result value :=
  currencyCode <- path node (keys ++ ["currencyCode"]) ;;
  currency <- ToString currencyCode ;;
  amount <- path node (keys ++ ["amount"]) ;;
  parsed <- parseFloat amount ;;
  Ok (VStr (currency +:+ " " +:+ toFixed parsed 2)).

(** [new Date(v)]: a value that is no primitive is converted to one
    first, which throws where [ToString] does. The date is given by the
    value it was made from. *)
Definition new_Date (v : value) : result value :=
  _ <- ToString v ;; Ok v.

(** [v ? new Date(v).toLocaleDateString() : 'N/A'] for [v = node[key]] *)
Definition date_or_NA `{Host} (node : value) (key : string) : result value :=
  v <- get node key ;;
  if truthy v then
    v' <- get node key ;;
    date <- new_Date v' ;;
    Ok (VStr (toLocaleDateString date))
  else Ok (VStr "N/A").

(** The callback of [nodes.map]. The members it reads are no indices, so
    a node that is no object answers them with [undefined]; on [null] and
    [undefined] the first read throws. The [default] case of the [switch]
    is outside [DataType]. *)
Definition processNode `{Host} (node : value) (dataType : DataType)
  : result (gmap string value) :=
  match dataType with
  | orders =>
      totalPriceSet <- get node "totalPriceSet" ;;
      shopMoney <- get_optional totalPriceSet "shopMoney" ;;
      totalPrice <-
        (if truthy shopMoney
         then money node ["totalPriceSet"; "shopMoney"]
         else Ok (VStr "N/A")) ;;
      customer <- get node "customer" ;;
      customerName <-
        (if truthy customer then
           firstName <- path node ["customer"; "firstName"] ;;
           firstName' <- or_else firstName (Ok (VStr "")) ;;
           first <- ToString firstName' ;;
           lastName <- path node ["customer"; "lastName"] ;;
           lastName' <- or_else lastName (Ok (VStr "")) ;;
           last <- ToString lastName' ;;
           or_else
             (VStr (trim (first +:+ " " +:+ last)))
             (email <- path node ["customer"; "email"] ;;
              or_else email (Ok (VStr "Guest")))
         else Ok (VStr "Guest")) ;;
      processedAt <- date_or_NA node "processedAt" ;;
      Ok (<["processedAt" := processedAt]>
          (<["customerName" := customerName]>
           (<["totalPrice" := totalPrice]> (spread node))))
  | products =>
      priceRangeV2 <- get node "priceRangeV2" ;;
      minVariantPrice <- get_optional priceRangeV2 "minVariantPrice" ;;
      price <-
        (if truthy minVariantPrice
         then money node ["priceRangeV2"; "minVariantPrice"]
         else Ok (VStr "N/A")) ;;
      updatedAt <- date_or_NA node "updatedAt" ;;
      Ok (<["updatedAt" := updatedAt]> (<["price" := price]> (spread node)))
  | customers =>
      amountSpent <- get node "amountSpent" ;;
      amountSpent' <-
        (if truthy amountSpent
         then money node ["amountSpent"]
         else Ok (VStr "N/A")) ;;
      Ok (<["amountSpent" := amountSpent']> (spread node))
  end.

(** [processData(nodes, dataType)] *)
Definition processData `{Host} (nodes : list value) (dataType : DataType)
  : result (list (gmap string value)) :=
  Array_map (fun node => processNode node dataType) nodes.

End DataViewer.

(** ** The rows, as the specification words them

    A second description of the normalized rows, written from the
    specification's sentences and not from [processData], against which
    [processData] is compared below. A member is absent when it is missing
    or falsy, which is how the code tests for it. *)

Module RowSpec.
Import JS Runtime DataViewer.

(** The member [key] of [v]; [undefined] when [v] has none. *)
Definition prop (v : value) (key : string) : value :=
  match v with
  | VObj fields => default VUndefined (fields !! key)
  | _ => VUndefined
  end.

Definition present (v : value) : option value :=
  if truthy v then Some v else None.

(** The text of a value, for a value that has one. *)
Definition text (v : value) : string :=
  match ToString v with
  | Ok s => s
  | Throw _ => EmptyString
  end.

(** The number a value reads as. *)
Definition amount (v : value) : number :=
  StrDecimalLiteral_prefix (trimStart (text v)).

(** "{currency} {amount with 2 decimal places}" *)
Definition money_text (pair : value) : string :=
  text (prop pair "currencyCode") +:+ " " +:+
  toFixed (amount (prop pair "amount")) 2.

(** The formatted money pair, or the fallback when the pair is absent. *)
Definition money_or_NA (pair : value) : value :=
  match present pair with
  | Some p => VStr (money_text p)
  | None => VStr "N/A"
  end.

(** The localized date of a timestamp, or "N/A" when it is absent. *)
Definition date_or_NA `{Host} (timestamp : value) : value :=
  match present timestamp with
  | Some t => VStr (toLocaleDateString t)
  | None => VStr "N/A"
  end.

(** A name part, empty when absent. *)
Definition name_part (v : value) : string :=
  match present v with
  | Some n => text n
  | None => EmptyString
  end.

(** First and last name, falling back to the email, falling back to
    "Guest"; "Guest" also when there is no customer. *)
Definition customer_name (customer : value) : value :=
  match present customer with
  | Some c =>
      match trim (name_part (prop c "firstName") +:+ " " +:+
                  name_part (prop c "lastName")) with
      | EmptyString =>
          match present (prop c "email") with
          | Some email => email
          | None => VStr "Guest"
          end
      | full => VStr full
      end
  | None => VStr "Guest"
  end.

(** The row of a node: its own members, and the derived ones. *)
Definition row `{Host} (node : value) (dataType : DataType)
  : gmap string value :=
  match dataType with
  | orders =>
      <["processedAt" := date_or_NA (prop node "processedAt")]>
      (<["customerName" := customer_name (prop node "customer")]>
       (<["totalPrice" :=
            money_or_NA (prop (prop node "totalPriceSet") "shopMoney")]>
        (spread node)))
  | products =>
      <["updatedAt" := date_or_NA (prop node "updatedAt")]>
      (<["price" :=
           money_or_NA (prop (prop node "priceRangeV2") "minVariantPrice")]>
       (spread node))
  | customers =>
      <["amountSpent" := money_or_NA (prop node "amountSpent")]> (spread node)
  end.

(** "A number with exactly 2 decimals": an optional sign, digits, a
    point, two digits. *)
Definition two_decimals (s : string) : bool :=
  let unsigned :=
    match s with
    | String c r => if Ascii.eqb c "-" then r else s
    | EmptyString => s
    end in
  let '(int_part, rest) := span_digits unsigned in
  match int_part, rest with
  | String _ _, String "." (String a (String b EmptyString)) =>
      is_digit a && is_digit b
  | _, _ => false
  end.

(** The numbers [toFixed] prints in fixed notation: zero, and the finite
    ones of magnitude below [10^21]. *)
Definition renders_fixed (x : number) : bool :=
  match x with
  | S754_zero _ => true
  | S754_finite _ m e => below_pow10 (fraction m e) 21
  | _ => false
  end.

End RowSpec.

(** ** The second handler of [index.ts] (lines 210 to 362)

    The handler passed to [Deno.serve]. It takes the requests, the backend
    and the events of the first one. Its catalog asks for fewer fields, it
    throws on every failure but an unknown store, and it answers with the
    [data] member of the upstream payload. *)

Module Proxy2.
Import JS Runtime Proxy.

(** GraphQL queries - removed restricted customer fields to avoid access
    issues *)
Definition QUERIES : gmap string string :=
  <["orders" := "
    query getOrders {
      orders(first: 20, sortKey: PROCESSED_AT, reverse: true) {
        edges {
          node {
            id
            name
            processedAt
            displayFinancialStatus
            displayFulfillmentStatus
            totalPriceSet { shopMoney { amount currencyCode } }
          }
        }
      }
    }
  "]>
  (<["products" := "
    query getProducts {
      products(first: 20, sortKey: UPDATED_AT, reverse: true) {
        edges {
          node {
            id
            title
            handle
            status
            totalInventory
            updatedAt
            featuredImage { url }
            priceRangeV2 { minVariantPrice { amount currencyCode } }
          }
        }
      }
    }
  "]>
  (<["customers" := "
    query getCustomers {
      customers(first: 20, sortKey: UPDATED_AT, reverse: true) {
        edges {
          node {
            id
            numberOfOrders
            amountSpent { amount currencyCode }
          }
        }
      }
    }
  "]> ∅)).

(** [QUERIES[k]] *)
Definition QUERIES_get (k : value) : result member :=
  key <- ToString k ;;
  Ok match QUERIES !! key with
     | Some query => Own query
     | None =>
         if bool_decide (key ∈ Object_prototype) then Inherited key else Missing
     end.

(** The body of a response: a text as it is, or the JSON text of a value. *)
Inductive Body :=
| Text (text : string)
| Json (v : value).

Record Response := {
  status : Z;
  headers : gmap string string;
  body : option Body;
}.

(** [new Response(body, init)], as in the first handler *)
Definition new_Response (b : option Body) (init : ResponseInit)
  : result Response :=
  let s := default 200%Z (init_status init) in
  if negb ((200 <=? s)%Z && (s <=? 599)%Z) && negb (s =? 101)%Z then
    Throw ("The status provided (" +:+ pretty s +:+
           ") is not equal to 101 and outside the range [200, 599]")
  else if match b with Some _ => null_body_status s | None => false end then
    Throw "Response with null body status cannot have body"
  else
    Ok {| status := s; headers := response_headers b (init_headers init);
          body := b |}.

(** [JSON.stringify(v)] as the body of a response: of [undefined] it is
    [undefined], and the response has a null body. *)
Definition stringified (v : value) : option Body :=
  match v with
  | VUndefined => None
  | _ => Some (Json v)
  end.

(** The handler passed to [Deno.serve]. Of the console output only the
    conversions of its template literals are modelled, which may throw. *)
Definition serve `{Serializer} (be : Backend) (req : Request) : M Response :=
  (* Immediately handle OPTIONS requests for CORS preflight. *)
  if bool_decide (method req = "OPTIONS") then
    pure (new_Response (Some (Text "ok"))
            {| init_status := None; init_headers := corsHeaders |})
  else
  try_catch
    ((* 1. Validate and Parse Incoming Request *)
     let* parsed := perform ReadBody (json req) in
     let* store_id := pure (destructure parsed "store_id") in
     let* data_type := pure (destructure parsed "data_type") in
     if negb (truthy store_id) || negb (truthy data_type) then
       pure (Throw "Missing required fields: store_id and data_type.")
     else
     let* listed := pure (QUERIES_get data_type) in
     if negb (member_truthy listed) then
       let* shown := pure (ToString data_type) in
       pure (Throw ("Invalid data_type specified: " +:+ shown))
     else
     (* 2. Initialize Supabase Admin Client *)
     let* supabaseAdmin := pure (createClient be) in
     (* 3. Fetch Store Credentials from Database *)
     (* console.log(`Fetching store details for ID: ${store_id}`) *)
     let* logged := pure (ToString store_id) in
     let* reply := perform (StoreLookup store_id) (single be store_id) in
     match reply with
     | (Some store, None) =>
         (* 4. Make Request to Shopify GraphQL API *)
         let shopifyApiUrl :=
           "https://" +:+ shopify_domain store +:+
           "/admin/api/2024-07/graphql.json" in
         let* query := pure (QUERIES_get data_type) in
         (* console.log(`Making request to Shopify for ${data_type}...`) *)
         let* logged := pure (ToString data_type) in
         let request :=
           {| url := shopifyApiUrl;
              fetch_method := "POST";
              fetch_headers :=
                <["Content-Type" := "application/json"]>
                (<["X-Shopify-Access-Token" := api_access_token store]> ∅);
              query := query |} in
         let* shopifyResponse := perform (Outbound request) (fetch be request) in
         (* 5. Handle Shopify's Response *)
         if negb (ok shopifyResponse) then
           let* errorBody := pure (up_text shopifyResponse) in
           pure (Throw ("Shopify API failed with status " +:+
                        pretty (up_status shopifyResponse) +:+ ": " +:+ errorBody))
         else
         let* responseData := pure (up_json shopifyResponse) in
         (* Check for errors within the GraphQL response body itself *)
         let* errors := pure (get responseData "errors") in
         if truthy errors then
           pure (Throw ("GraphQL error: " +:+ JSON_stringify errors))
         else
           (* 6. Return Successful Data to Client *)
           let* data := pure (get responseData "data") in
           pure (new_Response (stringified data)
                   {| init_status := Some 200%Z; init_headers := json_headers |})
     | _ =>
         (* storeError || !store *)
         let* shown := pure (ToString store_id) in
         pure (new_Response
                 (Some (Json (object [("error", VStr
                    ("Store with ID " +:+ shown +:+ " not found."))])))
                 {| init_status := Some 404%Z; init_headers := json_headers |})
     end)
    (* Generic catch-all for any other errors. *)
    (fun message =>
       pure (new_Response
               (Some (Json (object [("error", VStr message)])))
               {| init_status := Some 500%Z; init_headers := json_headers |})).

(** One invocation from an empty log. *)
Definition invoke `{Serializer} (be : Backend) (req : Request)
  : result Response * list event :=
  serve be req [].

End Proxy2.

(** ** The table: [DataTable.tsx] *)

Module DataTable.
Import JS Runtime.

Record Column := {
  key : string;
  label : string;
}.

(** [x.toLocaleString()] of a number is the host's: it depends on its
    locale. *)
Class NumberFormat := Number_toLocaleString : number -> string.

Definition getStatusVariant (status : string) : string :=
  let statusLower := toLowerCase status in
  if includes statusLower "paid" || includes statusLower "fulfilled"
     || String.eqb statusLower "active" then
    "default"
  else if includes statusLower "pending" || includes statusLower "unfulfilled" then
    "secondary"
  else if includes statusLower "cancelled" || includes statusLower "archived" then
    "destructive"
  else "outline".

(** What a cell shows: a text, or a badge around the value. *)
Inductive Cell :=
| Plain (text : string)
| Badge (badge_variant : string) (children : string).

(** [formatCellValue(value, key)]. Under a status key a value that is not
    a string has no [toLowerCase], and calling it throws a TypeError. *)
Definition formatCellValue `{NumberFormat} (value : value) (key : string)
  : result Cell :=
  match value with
  | VNull | VUndefined => Ok (Plain "-")
  | _ =>
      (* Format status badges *)
      if includes key "Status" || String.eqb key "status" then
        match value with
        | VStr status => Ok (Badge (getStatusVariant status) status)
        | _ => Throw "status.toLowerCase is not a function"
        end
      else
        match value with
        (* Format numbers *)
        | VNum x => Ok (Plain (Number_toLocaleString x))
        (* Format strings, truncate long strings *)
        | VStr s =>
            if (50 <? String.length s)%nat
            then Ok (Plain (take_chars 47 s +:+ "..."))
            else Ok (Plain s)
        | _ => shown <- ToString value ;; Ok (Plain shown)
        end
  end.

(** What the component renders: the notice for no rows, or the labels of
    the columns and a line of cells for each row. *)
Inductive Rendered :=
| NoDataAvailable
| Table (head : list string) (lines : list (list Cell)).

Definition DataTable `{NumberFormat} (columns : list Column)
    (data : list (gmap string value)) : result Rendered :=
  match data with
  | [] => Ok NoDataAvailable
  | _ =>
      lines <-
        Array_map (fun row =>
          Array_map (fun column =>
            formatCellValue (default VUndefined (row !! key column)) (key column))
            columns)
          data ;;
      Ok (Table (List.map label columns) lines)
  end.

End DataTable.

(** ** The viewer: the rest of [DataViewer.tsx] *)

Module Viewer.
Import JS Runtime DataViewer DataTable.

(** A selector as the string it is. *)
Definition name (dataType : DataType) : string :=
  match dataType with
  | orders => "orders"
  | products => "products"
  | customers => "customers"
  end.

(** The state of the component; [data] holds what [fetchData] found under
    [node], whatever it is. *)
Record State := {
  activeTab : DataType;
  loading : bool;
  data : list value;
  error : option string;
}.

(** What [supabase.functions.invoke] resolves to: [{ data, error }], the
    error [null] or an object with a message. *)
Record Invocation := {
  responseData : value;
  functionError : option string;
}.

(** Extract the nodes from the response: lines 77 to 79. A truthy [edges]
    that is no array has no [map], and calling it throws a TypeError. *)
Definition extract_nodes (shopifyResponse : value) (dataType : DataType)
  : result (list value) :=
  let dataKey := name dataType in
  data <- get shopifyResponse "data" ;;
  selected <- get_optional data dataKey ;;
  edges <- get_optional selected "edges" ;;
  edges' <- or_else edges (Ok (VArr [])) ;;
  match edges' with
  | VArr items => Array_map (fun edge => get edge "node") items
  | _ => Throw "edges.map is not a function"
  end.

(** The [try] block of [fetchData]. *)
Definition fetch_nodes `{Serializer} (store_id : value)
    (functions_invoke : value -> result Invocation) (dataType : DataType)
  : result (list value) :=
  reply <- functions_invoke
             (object [("store_id", store_id);
                      ("data_type", VStr (name dataType))]) ;;
  match functionError reply with
  | Some message => Throw message
  | None =>
      let shopifyResponse := responseData reply in
      errors <- get shopifyResponse "errors" ;;
      if truthy errors then
        Throw ("Shopify API Error: " +:+ JSON_stringify errors)
      else extract_nodes shopifyResponse dataType
  end.

(** [fetchData(dataType)] for the store with id [store_id], the function
    [fetch-shopify-data] being invoked through [functions_invoke]: the
    state once it has settled, and the toasts shown. *)
Definition fetchData `{Serializer} (store_id : value)
    (functions_invoke : value -> result Invocation)
    (st : State) (dataType : DataType) : State * list Toast :=
  match fetch_nodes store_id functions_invoke dataType with
  | Ok nodes =>
      ({| activeTab := activeTab st; loading := false;
          data := nodes; error := None |},
       match nodes with
       | [] => [ {| title := "No data found";
                    description := "No " +:+ name dataType +:+
                                   " found for this store.";
                    variant := None |} ]
       | _ => []
       end)
  | Throw message =>
      ({| activeTab := activeTab st; loading := false;
          data := data st;
          error := Some (match message with
                         | EmptyString => "Failed to fetch data"
                         | _ => message
                         end) |},
       [ {| title := "Error";
            description := "Failed to fetch " +:+ name dataType +:+ ": " +:+
                           message;
            variant := Some "destructive" |} ])
  end.

Definition getColumns (dataType : DataType) : list Column :=
  match dataType with
  | orders =>
      [ {| key := "name"; label := "Order" |};
        {| key := "displayFinancialStatus"; label := "Payment Status" |};
        {| key := "displayFulfillmentStatus"; label := "Fulfillment Status" |};
        {| key := "totalPrice"; label := "Total" |};
        {| key := "customerName"; label := "Customer" |};
        {| key := "processedAt"; label := "Date" |} ]
  | products =>
      [ {| key := "title"; label := "Product" |};
        {| key := "status"; label := "Status" |};
        {| key := "totalInventory"; label := "Inventory" |};
        {| key := "price"; label := "Price" |};
        {| key := "updatedAt"; label := "Updated" |} ]
  | customers =>
      [ {| key := "displayName"; label := "Name" |};
        {| key := "email"; label := "Email" |};
        {| key := "numberOfOrders"; label := "Orders" |};
        {| key := "amountSpent"; label := "Total Spent" |} ]
  end.

(** What the card shows. *)
Inductive View :=
| Loading (tab : DataType)
| ErrorCard (message : string)
| NoData (tab : DataType)
| Rows (table : Rendered).

(** [renderContent()], the table rendered with it. *)
Definition renderContent `{Host} `{NumberFormat} (st : State) : result View :=
  if loading st then Ok (Loading (activeTab st))
  else
    match error st with
    | Some (String c message) => Ok (ErrorCard (String c message))
    | _ =>
        match data st with
        | [] => Ok (NoData (activeTab st))
        | _ =>
            rows <- processData (data st) (activeTab st) ;;
            table <- DataTable (getColumns (activeTab st)) rows ;;
            Ok (Rows table)
        end
    end.

End Viewer.

(** ** The store manager: its state, [fetchStores] and the whole of
    [handleSubmit] *)

Module StoreList.
Import JS Runtime StoreManager.

Record State := {
  stores : list value;
  loading : bool;
  dialogOpen : bool;
  formData : FormData;
  formLoading : bool;
}.

(** The [stores] table behind the Supabase client: what the listing and an
    insertion resolve to, [{ data, error }] and [{ error }], or reject
    with. An error is given by its message. *)
Record Client := {
  select : result (option (list value) * option string);
  insert : FormData -> result (option string);
}.

(** The calls made to the client, in order. *)
Inductive call :=
| Insert (row : FormData)
| Select.

Definition fetchStores (db : Client) (st : State) : State * list Toast :=
  let settled (found : list value) :=
    {| stores := found; loading := false; dialogOpen := dialogOpen st;
       formData := formData st; formLoading := formLoading st |} in
  match select db with
  | Ok (data, None) => (settled (default [] data), [])
  | _ =>
      (settled (stores st),
       [ {| title := "Error";
            description := "Failed to fetch stores";
            variant := Some "destructive" |} ])
  end.

(** [handleSubmit(e)]: the state once it and the listing it starts have
    settled, the toasts shown and the calls made. *)
Definition handleSubmit (db : Client) (st : State)
  : State * list Toast * list call :=
  let row := StoreManager.handleSubmit (formData st) in
  let failed (message : string) :=
    ({| stores := stores st; loading := loading st;
        dialogOpen := dialogOpen st; formData := formData st;
        formLoading := false |},
     [ {| title := "Error";
          description := match message with
                         | EmptyString => "Failed to add store"
                         | _ => message
                         end;
          variant := Some "destructive" |} ],
     [Insert row]) in
  match insert db row with
  | Ok None =>
      let cleared :=
        {| stores := stores st; loading := loading st;
           dialogOpen := false;
           formData := {| store_name := EmptyString;
                          shopify_domain := EmptyString;
                          api_access_token := EmptyString |};
           formLoading := false |} in
      let '(listed, shown) := fetchStores db cleared in
      (listed,
       {| title := "Success";
          description := "Store added successfully!";
          variant := None |} :: shown,
       [Insert row; Select])
  | Ok (Some message) => failed message
  | Throw message => failed message
  end.

End StoreList.

(** * The vocabulary of the statements *)

Import JS.

Section ProxyTerms.
Import Proxy.

(** The number [z]. *)
Definition num (z : Z) : number := round_number z 0.

(** A request with method [m] whose body parses to the object [fields]. *)
Definition request (m : string) (fields : gmap string value) : Request :=
  {| method := m; json := Ok (VObj fields) |}.

(** [POST { store_id, data_type }] *)
Definition post (store_id data_type : value) : Request :=
  request "POST" (<["store_id" := store_id]> (<["data_type" := data_type]> ∅)).

(** The JSON response with status [s] and body [b]. *)
Definition json_response (s : Z) (b : value) : Response :=
  {| status := s; headers := json_headers; body := Some b |}.

(** The member of [QUERIES] under a data type whose key has a string. *)
Definition listed (data_type : value) : member :=
  match QUERIES_get data_type with
  | Ok m => m
  | Throw _ => Missing
  end.

(** The outbound request the handler builds for a store and a data type. *)
Definition outbound (store : Store) (data_type : value) : FetchRequest :=
  {| url := "https://" +:+ shopify_domain store +:+
            "/admin/api/2024-07/graphql.json";
     fetch_method := "POST";
     fetch_headers :=
       <["Content-Type" := "application/json"]>
       (<["X-Shopify-Access-Token" := api_access_token store]> ∅);
     query := listed data_type |}.

(** [fields[key]], [undefined] when absent *)
Definition field (fields : gmap string value) (key : string) : value :=
  default VUndefined (fields !! key).

(** Both fields pass the presence check and [QUERIES[data_type]] is truthy. *)
Definition accepted (store_id data_type : value) : Prop :=
  truthy store_id = true /\ truthy data_type = true /\
  exists m, QUERIES_get data_type = Ok m /\ member_truthy m = true.

(** The three selectors. *)
Definition selector (d : string) : Prop :=
  d = "orders" \/ d = "products" \/ d = "customers".

(** An envelope [{ error: string, details?: any }]. *)
Definition error_envelope (b : option value) : bool :=
  match b with
  | Some (VObj fields) =>
      match fields !! "error" with
      | Some (VStr _) =>
          bool_decide (dom fields ⊆ ({["error"; "details"]} : gset string))
      | _ => false
      end
  | _ => false
  end.

(** A response carries the permissive cross-origin header set. *)
Definition carries_cors (r : Response) : Prop := corsHeaders ⊆ headers r.

(** [returns P m]: whenever [m] returns a response, it satisfies [P]. *)
Definition returns {A : Type} (P : A -> Prop) (m : M A) : Prop :=
  forall log a log', m log = (Ok a, log') -> P a.

(** The status of the response, and the member [key] of its body. *)
Definition status_of (r : result Response * list event) : option Z :=
  match r.1 with Ok resp => Some (status resp) | Throw _ => None end.

Definition member_of (r : result Response * list event) (key : string)
  : option value :=
  match r.1 with
  | Ok {| body := Some (VObj fields) |} => fields !! key
  | _ => None
  end.

(** The number of places of [s] at which [p] starts. *)
Fixpoint occurrences (s p : string) : nat :=
  (if startsWith s p then 1 else 0) +
  match s with
  | String _ s' => occurrences s' p
  | EmptyString => 0
  end.

(** *** A store, a backend and upstream answers for the examples *)

Definition shop : Store :=
  {| shopify_domain := "shop.myshopify.com";
     api_access_token := "shpat_example" |}.

(** A backend whose [stores] table holds [shop] under id 1 and whose
    upstream answers every call with [upstream]. *)
Definition backend (upstream : result FetchResponse) : Backend :=
  {| createClient := Ok tt;
     single := fun store_id =>
       id <- ToString store_id ;;
       if String.eqb id "1"
       then Ok (Some shop, None)
       else Ok (None, Some "JSON object requested, multiple (or no) rows returned");
     fetch := fun _ => upstream |}.

Definition orders_payload : value :=
  object [("data", object [("orders", object [("edges", VArr [])])])].

Definition success : FetchResponse :=
  {| up_status := 200; up_statusText := "OK";
     up_text := Ok ""; up_json := Ok orders_payload |}.

Definition unauthorized : FetchResponse :=
  {| up_status := 401;
     up_statusText := "Unauthorized";
     up_text := Ok "[API] Invalid API key or access token";
     up_json := Throw "Unexpected token" |}.

Definition graphql_failure : FetchResponse :=
  {| up_status := 200;
     up_statusText := "OK";
     up_text := Ok "";
     up_json := Ok (object [("errors",
                  VArr [object [("message", VStr "Field 'nam' doesn't exist on type 'Order'")]])]) |}.

Definition not_modified : FetchResponse :=
  {| up_status := 304; up_statusText := "Not Modified";
     up_text := Ok ""; up_json := Throw "Unexpected end of JSON input" |}.

End ProxyTerms.

Section StoreManagerTerms.
Import StoreManager.

(** The form, with a domain typed in. *)
Definition form (domain : string) : FormData :=
  {| store_name := "My T-Shirt Shop";
     shopify_domain := domain;
     api_access_token := "shpat_example" |}.

End StoreManagerTerms.

Section RowTerms.
Import Runtime DataViewer RowSpec.

(** The fields [processData] computes for a selector. *)
Definition derived_fields (dataType : DataType) : list string :=
  match dataType with
  | orders => ["totalPrice"; "customerName"; "processedAt"]
  | products => ["price"; "updatedAt"]
  | customers => ["amountSpent"]
  end.

(** A value that has a string: converting it does not throw. *)
Definition convertible (v : value) : Prop := exists s, ToString v = Ok s.

(** The members [processData] converts to a string or to a date for a
    selector, in the order it does; [undefined] stands for a missing one. *)
Definition converted (dataType : DataType) (node : value) : list value :=
  match dataType with
  | orders =>
      let pair := prop (prop node "totalPriceSet") "shopMoney" in
      let customer := prop node "customer" in
      [ prop pair "currencyCode"; prop pair "amount";
        prop customer "firstName"; prop customer "lastName";
        prop node "processedAt" ]
  | products =>
      let pair := prop (prop node "priceRangeV2") "minVariantPrice" in
      [ prop pair "currencyCode"; prop pair "amount"; prop node "updatedAt" ]
  | customers =>
      let pair := prop node "amountSpent" in
      [ prop pair "currencyCode"; prop pair "amount" ]
  end.

(** The nodes [processData] takes: neither [null] nor [undefined], and
    every member it converts has a string. *)
Definition regular (dataType : DataType) (node : value) : Prop :=
  node <> VUndefined /\ node <> VNull /\
  Forall convertible (converted dataType node).

(** The row of a node with nothing to derive from. *)
Definition fallbacks (dataType : DataType) : gmap string value :=
  match dataType with
  | orders =>
      <["processedAt" := VStr "N/A"]>
      (<["customerName" := VStr "Guest"]>
       (<["totalPrice" := VStr "N/A"]> ∅))
  | products =>
      <["updatedAt" := VStr "N/A"]> (<["price" := VStr "N/A"]> ∅)
  | customers => <["amountSpent" := VStr "N/A"]> ∅
  end.

Fixpoint all_digits (s : string) : bool :=
  match s with
  | String c s' => is_digit c && all_digits s'
  | EmptyString => true
  end.

Definition two_digit_string (s : string) : bool :=
  match s with
  | String a (String b EmptyString) => is_digit a && is_digit b
  | _ => false
  end.

Definition strip_zero (a b : ascii) : string :=
  if Ascii.eqb a "0" then String b "" else String a (String b "").

(** A host for the examples: locale en-US in the time zone UTC, for the
    ISO 8601 UTC timestamps the upstream sends, month/day/year; anything
    else is an invalid date to it. *)
Definition en_US_UTC : Host := fun timestamp =>
  match timestamp with
  | VStr (String y1 (String y2 (String y3 (String y4 (String dash1
      (String m1 (String m2 (String dash2 (String d1 (String d2 _)))))))))) =>
      if forallb is_digit [y1; y2; y3; y4; m1; m2; d1; d2]
         && Ascii.eqb dash1 "-" && Ascii.eqb dash2 "-"
      then strip_zero m1 m2 +:+ "/" +:+ strip_zero d1 d2 +:+ "/" +:+
           String y1 (String y2 (String y3 (String y4 "")))
      else "Invalid Date"
  | _ => "Invalid Date"
  end.

Definition order_1001 : gmap string value :=
  list_to_map
    [ ("id", VStr "gid://shopify/Order/1001");
      ("name", VStr "#1001");
      ("processedAt", VStr "2024-07-01T10:00:00Z");
      ("displayFinancialStatus", VStr "PAID");
      ("totalPriceSet",
        object [("shopMoney",
          object [("amount", VStr "12.5"); ("currencyCode", VStr "USD")])]);
      ("customer",
        object [("firstName", VStr "Ada"); ("lastName", VStr "Lovelace");
                      ("email", VStr "ada@example.com")]) ].

(** An order whose money pair has no amount. *)
Definition order_without_amount : gmap string value :=
  list_to_map
    [ ("id", VStr "gid://shopify/Order/1002");
      ("totalPriceSet",
        object [("shopMoney",
          object [("currencyCode", VStr "USD")])]) ].

(** An order whose customer's first name is an object with a member named
    [toString]. *)
Definition order_with_a_strange_name : value :=
  object [("id", VStr "gid://shopify/Order/1003");
          ("customer",
            object [("firstName", object [("toString", VNum (round_number 1 0))]);
                    ("lastName", VStr "Lovelace")])].

Definition product_tee : gmap string value :=
  list_to_map
    [ ("id", VStr "gid://shopify/Product/7");
      ("title", VStr "T-Shirt");
      ("status", VStr "ACTIVE");
      ("updatedAt", VStr "2024-07-02T08:30:00Z");
      ("priceRangeV2",
        object [("minVariantPrice",
          object [("amount", VStr "19.0"); ("currencyCode", VStr "EUR")])]) ].

Definition customer_ada : gmap string value :=
  list_to_map
    [ ("id", VStr "gid://shopify/Customer/3");
      ("displayName", VStr "Ada Lovelace");
      ("numberOfOrders", VStr "2");
      ("amountSpent",
        object [("amount", VStr "31.5"); ("currencyCode", VStr "USD")]) ].

End RowTerms.

Section InvariantTerms.
Import Proxy.

(** The statuses the first handler answers with: 200, or one from 300 to
    599 that allows a body. *)
Definition answer_status (r : Response) : Prop :=
  (status r = 200 \/ 300 <= status r <= 599 /\ status r <> 304)%Z.

(** A store for the places where none was found. *)
Definition no_store : Store :=
  {| shopify_domain := EmptyString; api_access_token := EmptyString |}.

End InvariantTerms.

Section Proxy2Terms.
Import Runtime Proxy.

(** The second handler's JSON response with status [s] and body [b]. *)
Definition json_response2 (s : Z) (b : value) : Proxy2.Response :=
  {| Proxy2.status := s; Proxy2.headers := json_headers;
     Proxy2.body := Some (Proxy2.Json b) |}.

(** Its answer to a thrown error. *)
Definition thrown (message : string) : Proxy2.Response :=
  json_response2 500 (object [("error", VStr message)]).

(** Both fields pass the presence check and the second catalog has a
    truthy member under [data_type]. *)
Definition accepted2 (store_id data_type : value) : Prop :=
  truthy store_id = true /\ truthy data_type = true /\
  exists m, Proxy2.QUERIES_get data_type = Ok m /\ member_truthy m = true.

(** The outbound request the second handler builds. *)
Definition outbound2 (store : Store) (data_type : value) : FetchRequest :=
  {| url := "https://" +:+ shopify_domain store +:+
            "/admin/api/2024-07/graphql.json";
     fetch_method := "POST";
     fetch_headers :=
       <["Content-Type" := "application/json"]>
       (<["X-Shopify-Access-Token" := api_access_token store]> ∅);
     query := match Proxy2.QUERIES_get data_type with
              | Ok m => m
              | Throw _ => Missing
              end |}.

(** An event, the query of an outbound call left out. *)
Definition without_query (e : event) : event :=
  match e with
  | Outbound r =>
      Outbound {| url := url r; fetch_method := fetch_method r;
                  fetch_headers := fetch_headers r; query := Missing |}
  | _ => e
  end.

(** A response of the second handler carries the cross-origin headers and
    one of its three statuses. *)
Definition answer2 (r : Proxy2.Response) : Prop :=
  corsHeaders ⊆ Proxy2.headers r /\
  (Proxy2.status r = 200 \/ Proxy2.status r = 404 \/ Proxy2.status r = 500)%Z.

(** *** A serializer for the examples

    The JSON text of a value that [JSON.parse] yields, the members of an
    object in the order of the map: which is the order of insertion for
    an object of one member. *)

Definition quote_mark : ascii := ascii_of_nat 34.

Definition hex_digit (n : nat) : ascii :=
  if (n <? 10)%nat then ascii_of_nat (48 + n) else ascii_of_nat (87 + n).

Definition escape (c : ascii) : string :=
  let n := nat_of_ascii c in
  if (n =? 34)%nat then String "\" (String quote_mark EmptyString)
  else if (n =? 92)%nat then "\\"
  else if (n =? 8)%nat then "\b"
  else if (n =? 9)%nat then "\t"
  else if (n =? 10)%nat then "\n"
  else if (n =? 12)%nat then "\f"
  else if (n =? 13)%nat then "\r"
  else if (n <? 32)%nat then
    "\u00" +:+ String (hex_digit (n / 16))
                 (String (hex_digit (n mod 16)) EmptyString)
  else String c EmptyString.

Fixpoint quoted_chars (s : string) : string :=
  match s with
  | String c s' => escape c +:+ quoted_chars s'
  | EmptyString => EmptyString
  end.

Definition quoted (s : string) : string :=
  String quote_mark (quoted_chars s) +:+ String quote_mark EmptyString.

Fixpoint json_text (v : value) : string :=
  match v with
  | VUndefined | VNull => "null"
  | VBool b => if b then "true" else "false"
  | VNum x =>
      match x with
      | S754_nan | S754_infinity _ => "null"
      | _ => Number_toString x
      end
  | VStr s => quoted s
  | VArr items => "[" +:+ join "," (List.map json_text items) +:+ "]"
  | VObj fields =>
      "{" +:+
      join ","
        (map_fold (fun k v members => (quoted k +:+ ":" +:+ json_text v) :: members)
                  [] fields)
      +:+ "}"
  end.

End Proxy2Terms.

Section TableTerms.
Import Runtime DataViewer DataTable Viewer.

(** The test [formatCellValue] puts to a key before it draws a badge. *)
Definition is_status_key (k : string) : bool :=
  includes k "Status" || String.eqb k "status".

(** A string, or nothing. *)
Definition text_or_absent (v : value) : Prop :=
  match v with
  | VStr _ | VNull | VUndefined => True
  | _ => False
  end.



(** A host that prints a number as [toString] does. *)
Definition plain_numbers : NumberFormat := Number_toString.

(** A product title of 60 code units. *)
Definition long_title : string :=
  "Organic cotton crew neck t-shirt with embroidered logo, navy".

End TableTerms.

Section ViewerTerms.
Import Runtime Proxy DataViewer DataTable Viewer.

(** The function invoked over a handler: the body goes out as the JSON
    body of a POST, and [transport] turns the handler's response into
    what [functions.invoke] resolves to. *)
Definition through {R : Type} (handler : Request -> result R * list event)
    (transport : R -> result Invocation) (body : value) : result Invocation :=
  match (handler {| method := "POST"; json := Ok body |}).1 with
  | Ok resp => transport resp
  | Throw message => Throw message
  end.

(** The client library hands over the JSON body of a 200 response as
    [data], with no error. *)
Definition relays_success (transport : Response -> result Invocation) : Prop :=
  forall resp b,
    status resp = 200%Z -> body resp = Some b ->
    transport resp = Ok {| responseData := b; functionError := None |}.

Definition relays_success2 (transport : Proxy2.Response -> result Invocation)
  : Prop :=
  forall resp b,
    Proxy2.status resp = 200%Z -> Proxy2.body resp = Some (Proxy2.Json b) ->
    transport resp = Ok {| responseData := b; functionError := None |}.

(** The state [fetchData] leaves when it found [nodes]. *)
Definition found (st : State) (nodes : list value) : State :=
  {| activeTab := activeTab st; loading := false; data := nodes; error := None |}.

Definition no_data_toast (dataType : DataType) : Toast :=
  {| title := "No data found";
     description := "No " +:+ name dataType +:+ " found for this store.";
     variant := None |}.

(** A client library for the examples: the body of a response with a
    success status is the data, any other status is an error. *)
Definition functions_client {R : Type} (status_of : R -> Z)
    (body_of : R -> option value) (resp : R) : result Invocation :=
  if (200 <=? status_of resp)%Z && (status_of resp <=? 299)%Z then
    Ok {| responseData := default VNull (body_of resp); functionError := None |}
  else
    Ok {| responseData := VNull;
          functionError := Some "Edge Function returned a non-2xx status code" |}.

(** The value a body of the second handler parses to. *)
Definition parsed_body (resp : Proxy2.Response) : option value :=
  match Proxy2.body resp with
  | Some (Proxy2.Json v) => Some v
  | _ => None
  end.

(** The viewer before its first fetch. *)
Definition initial : State :=
  {| activeTab := orders; loading := false; data := []; error := None |}.

(** An upstream that answers with one order. *)
Definition one_order : FetchResponse :=
  {| up_status := 200; up_statusText := "OK"; up_text := Ok EmptyString;
     up_json :=
       Ok (object [("data",
             object [("orders",
               object [("edges",
                 VArr [object [("node", VObj order_1001)]])])])]) |}.

End ViewerTerms.

Section CatalogTerms.
Import Runtime DataViewer DataTable Viewer.

Definition is_name_char (c : ascii) : bool :=
  let n := nat_of_ascii c in
  (48 <=? n)%nat && (n <=? 57)%nat || (65 <=? n)%nat && (n <=? 90)%nat
  || (97 <=? n)%nat && (n <=? 122)%nat || (n =? 95)%nat.

Definition flush (word : string) (found : list string) : list string :=
  match word with
  | EmptyString => found
  | _ => found ++ [word]
  end.

(** The names that stand in a query text inside exactly [depth] open
    braces; [level] counts the braces open so far and [word] holds the
    name being read. *)
Fixpoint names_at (depth level : nat) (word : string) (text : string)
  : list string :=
  match text with
  | EmptyString => flush (if (level =? depth)%nat then word else EmptyString) []
  | String c text' =>
      if is_name_char c then
        names_at depth level (word +:+ String c EmptyString) text'
      else
        flush (if (level =? depth)%nat then word else EmptyString) [] ++
        names_at depth
          (if Ascii.eqb c "{" then S level
           else if Ascii.eqb c "}" then Nat.pred level else level)
          EmptyString text'
  end.

(** White space between the tokens of a query: commas count as such. *)
Definition is_blank (c : ascii) : bool := is_white c || Ascii.eqb c ",".

(** The tokens of a query text without comments and strings: the names
    and numbers, and each punctuation mark by itself. *)
Fixpoint tokens_of (word : string) (text : string) : list string :=
  match text with
  | EmptyString => flush word []
  | String c text' =>
      if is_name_char c then
        tokens_of (word +:+ String c EmptyString) text'
      else
        flush word [] ++
        (if is_blank c then [] else [String c EmptyString]) ++
        tokens_of EmptyString text'
  end.

Definition tokens (query : string) : list string := tokens_of EmptyString query.

(** The text has no comment and no string: neither [#] nor a quotation
    mark. *)
Fixpoint plain_text (text : string) : bool :=
  match text with
  | EmptyString => true
  | String c text' =>
      negb (Ascii.eqb c "#") && negb (Ascii.eqb c (ascii_of_nat 34))
      && plain_text text'
  end.

(** The fields a query asks of a node: the names four braces deep, under
    [query { selector(...) { edges { node {]. *)
Definition node_fields (query : string) : list string :=
  names_at 4 0 EmptyString query.

Definition mem (k : string) (l : list string) : bool :=
  existsb (String.eqb k) l.

(** The fields a catalog asks of the nodes of a selector. *)
Definition asked (queries : gmap string string) (dataType : DataType)
  : list string :=
  match queries !! name dataType with
  | Some query => node_fields query
  | None => []
  end.

(** An order as the second catalog asks for it, and [order_1001] with a
    member no catalog asks for. *)
Definition order_1001_without_customer : gmap string value :=
  delete "customer" order_1001.

Definition order_1001_with_a_note : gmap string value :=
  <["note" := VStr "gift"]> order_1001.

Definition customer_3 : gmap string value :=
  list_to_map
    [ ("id", VStr "gid://shopify/Customer/3");
      ("numberOfOrders", VStr "2");
      ("amountSpent",
        object [("amount", VStr "31.5"); ("currencyCode", VStr "USD")]) ].

End CatalogTerms.

Section StoreListTerms.
Import Runtime StoreManager StoreList.

(** The form, emptied. *)
Definition empty_form : FormData :=
  {| store_name := EmptyString; shopify_domain := EmptyString;
     api_access_token := EmptyString |}.

End StoreListTerms.

(** Unfolds one invocation of the second handler. *)
Ltac run_handler2 :=
  unfold Proxy2.invoke, Proxy2.serve, request, Proxy.try_catch, Proxy.then_,
    Proxy.perform, Proxy.pure;
  cbn.

(** Unfolds one invocation of the handler. *)
Ltac run_handler :=
  unfold Proxy.invoke, Proxy.serve, request, Proxy.try_catch, Proxy.then_,
    Proxy.perform, Proxy.pure;
  cbn.

(** Takes the conversions of a callback one after the other. *)
Ltac convert_in_order :=
  repeat match goal with
         | |- context [JS.bind (JS.ToString ?v) _] =>
             destruct (JS.ToString v); cbn [JS.bind Runtime.Array_map];
             try reflexivity
         end.

(** Looks a key up in a row built by insertions. *)
Ltac lookup_in_row :=
  repeat first [ rewrite lookup_insert_eq
               | rewrite lookup_insert_ne by discriminate ].

(** * Properties *)

(** ** The proxy function *)

Section ProxyFacts.
Import Proxy.

(** *** Responses, and the catch-all *)

Lemma cors_in_json_headers : corsHeaders ⊆ json_headers.
Proof. unfold json_headers. apply insert_subseteq. reflexivity. Qed.

Lemma json_headers_name_the_type : has_header json_headers "content-type" = true.
Proof. vm_compute. reflexivity. Qed.

(** The headers of a JSON response are the ones it was given. *)
Lemma response_headers_json {B : Type} (b : option B) :
  response_headers b json_headers = json_headers.
Proof.
  unfold response_headers. rewrite json_headers_name_the_type.
  destruct b; reflexivity.
Qed.

Lemma new_Response_headers b init r :
  new_Response b init = Ok r ->
  headers r = response_headers b (init_headers init).
Proof.
  unfold new_Response. repeat case_match; intros [= <-]; reflexivity.
Qed.

Lemma new_Response_cors b s r :
  new_Response b {| init_status := s; init_headers := json_headers |} = Ok r ->
  carries_cors r.
Proof.
  intros E. unfold carries_cors. rewrite (new_Response_headers _ _ _ E).
  simpl. rewrite response_headers_json. apply cors_in_json_headers.
Qed.

Lemma returns_then {A B : Type} (P : B -> Prop) (m : M A) (k : A -> M B) :
  (forall a, returns P (k a)) -> returns P (then_ m k).
Proof.
  intros Hk log b log'. unfold then_.
  destruct (m log) as [[a|message] log0]; [apply Hk | discriminate].
Qed.

Lemma returns_json_response b s :
  returns carries_cors
    (pure (new_Response b {| init_status := s; init_headers := json_headers |})).
Proof.
  intros log r log' [= E _]. exact (new_Response_cors _ _ _ E).
Qed.

(** A [try] whose [catch] always answers, answers. *)
Lemma try_catch_answers (P : Response -> Prop) (m : M Response)
    (handler : string -> M Response) (log : list event) :
  returns P m ->
  (forall message log0, exists r, handler message log0 = (Ok r, log0) /\ P r) ->
  exists resp log', try_catch m handler log = (Ok resp, log') /\ P resp.
Proof.
  intros Hm Hh. unfold try_catch.
  destruct (m log) as [[r|message] log0] eqn:E.
  - exists r, log0. split; [reflexivity | exact (Hm _ _ _ E)].
  - destruct (Hh message log0) as (r & -> & HP). eauto.
Qed.

#[local] Arguments QUERIES_get : simpl never.
#[local] Arguments new_Response : simpl never.
#[local] Arguments object : simpl never.
#[local] Arguments truthy : simpl never.
#[local] Arguments member_truthy : simpl never.

(** C9. On every path of the handler the response carries the permissive
    cross-origin headers, and the handler always answers with a response;
    a request whose method is OPTIONS is answered with status 200, the
    cross-origin headers and a null body, before the body is read and
    before any store lookup or outbound call. The headers allow every
    origin. *)
Theorem cors_on_every_path (be : Backend) (req : Request) :
  (exists resp log, invoke be req = (Ok resp, log) /\ carries_cors resp) /\
  (forall b, invoke be {| method := "OPTIONS"; json := b |} =
             (Ok {| status := 200; headers := corsHeaders; body := None |}, [])) /\
  corsHeaders !! "Access-Control-Allow-Origin" = Some "*".
Proof.
  split; [|split; reflexivity].
  unfold invoke, serve.
  destruct (bool_decide (method req = "OPTIONS")).
  { eexists _, _. split; [reflexivity|]. unfold carries_cors. reflexivity. }
  apply try_catch_answers.
  - repeat first
      [ apply returns_json_response
      | apply returns_then; intros
      | progress cbv zeta
      | case_match ].
  - intros message log0. eexists. split; [reflexivity|].
    apply cors_in_json_headers.
Qed.

(** *** Running the handler on a request that is not a preflight *)

Lemma selector_accepted store_id d :
  truthy store_id = true -> selector d -> accepted store_id (VStr d).
Proof.
  intros Hs [-> | [-> | ->]]; (split; [assumption|]); (split; [reflexivity|]);
    eexists; split; reflexivity.
Qed.

(** The request built with the member found under [data_type]. *)
Lemma outbound_found store data_type found :
  QUERIES_get data_type = Ok found ->
  {| url := "https://" +:+ shopify_domain store +:+
            "/admin/api/2024-07/graphql.json";
     fetch_method := "POST";
     fetch_headers :=
       <["Content-Type" := "application/json"]>
       (<["X-Shopify-Access-Token" := api_access_token store]> ∅);
     query := found |} = outbound store data_type.
Proof. intros H. unfold outbound, listed. rewrite H. reflexivity. Qed.

Lemma new_Response_accepts b s :
  (200 <= s <= 599)%Z -> null_body_status s = false ->
  new_Response (Some b) {| init_status := Some s; init_headers := json_headers |} =
  Ok (json_response s b).
Proof.
  intros Hs Hn. unfold new_Response, json_response. cbn. rewrite Hn.
  rewrite json_headers_name_the_type.
  replace ((200 <=? s)%Z && (s <=? 599)%Z) with true; [reflexivity|].
  symmetry. apply andb_true_iff. split; apply Z.leb_le; lia.
Qed.

(** C10. A [store_id] that is present in the body but falsy (the number 0,
    the empty string, [false], [null]) is treated as missing: the answer is
    the 400 response [Missing store_id or data_type], and nothing but
    reading the body has happened (no store lookup, no outbound call). *)
Theorem falsy_store_id_is_missing (be : Backend) (m : string)
    (fields : gmap string value) (store_id : value) :
  m <> "OPTIONS" ->
  fields !! "store_id" = Some store_id ->
  truthy store_id = false ->
  invoke be (request m fields) =
    (Ok (json_response 400
           (object [("error", VStr "Missing store_id or data_type")])),
     [ReadBody]).
Proof.
  intros Hm Hid Hfalsy. run_handler.
  rewrite bool_decide_eq_false_2 by assumption.
  rewrite Hid. cbn. rewrite Hfalsy. reflexivity.
Qed.

(** C2, as stated, fails: with both fields present, a selector as
    [data_type] and no store under the id, a [store_id] of 0 is answered
    with the 400 of a missing field, not with 404, and the store is not
    looked up. *)
Lemma zero_store_id_is_not_looked_up :
  let be := backend (Ok success) in
  let req := post (VNum (num 0)) (VStr "orders") in
  json req = Ok (object [("store_id", VNum (num 0)); ("data_type", VStr "orders")]) /\
  single be (VNum (num 0)) =
    Ok (None, Some "JSON object requested, multiple (or no) rows returned") /\
  status_of (invoke be req) = Some 400%Z /\
  status_of (invoke be req) <> Some 404%Z /\
  (invoke be req).2 = [ReadBody].
Proof.
  vm_compute. repeat split; congruence.
Qed.

(** C2, amended. A request that is not a preflight, with a truthy
    [store_id] and one of the three selectors as [data_type], for which
    the store lookup finds no row (no data, or an error), is answered with
    status 404 (not the 400 of a validation failure) and the envelope
    [{ error: 'Store not found' }]; the body was read and the store looked
    up, and no outbound call was made. *)
Theorem unknown_store_is_not_found (be : Backend) (m : string)
    (fields : gmap string value) (store_id : value) (d : string)
    (data : option Store) (error : option string) :
  m <> "OPTIONS" ->
  fields !! "store_id" = Some store_id ->
  truthy store_id = true ->
  fields !! "data_type" = Some (VStr d) ->
  selector d ->
  createClient be = Ok tt ->
  single be store_id = Ok (data, error) ->
  data = None \/ is_Some error ->
  exists resp log,
    invoke be (request m fields) = (Ok resp, log) /\
    status resp = 404%Z /\ status resp <> 400%Z /\
    body resp = Some (object [("error", VStr "Store not found")]) /\
    error_envelope (body resp) = true /\
    log = [ReadBody; StoreLookup store_id] /\
    forall r, ~ In (Outbound r) log.
Proof.
  intros Hm Hid Hpresent Hdt Hsel Hclient Hsingle Hnone.
  destruct (selector_accepted store_id d Hpresent Hsel) as (_ & Ht & found & Hq & Hfound).
  exists (json_response 404 (object [("error", VStr "Store not found")])).
  exists [ReadBody; StoreLookup store_id].
  split.
  - run_handler. rewrite bool_decide_eq_false_2 by assumption.
    rewrite Hid, Hdt. cbn. rewrite Hpresent, Ht. cbn. rewrite !Hq. cbn. rewrite Hfound, Hclient. cbn.
    rewrite Hsingle.
    destruct Hnone as [-> | [e ->]]; [|destruct data]; reflexivity.
  - repeat split; try reflexivity; try discriminate.
    intros r [H|[H|[]]]; discriminate.
Qed.

(** *** What the upstream answers *)

(** C3, as stated, fails: for an upstream 401 the [details] member is the
    status line, not the raw upstream body (which is under
    [shopifyError]). *)
Lemma details_is_not_the_upstream_body :
  let answer := invoke (backend (Ok unauthorized)) (post (VNum (num 1)) (VStr "orders")) in
  status_of answer = Some 401%Z /\
  member_of answer "details" <> Some (VStr "[API] Invalid API key or access token") /\
  member_of answer "details" = Some (VStr "401: Unauthorized") /\
  member_of answer "shopifyError" = Some (VStr "[API] Invalid API key or access token").
Proof.
  vm_compute. repeat split; congruence.
Qed.

(** C3, amended. When the upstream answers with a non-success status that
    a response with a body may carry (200..599 and not 304), the handler
    answers with that same status, and the body holds
    [error: 'Shopify API request failed'], [details: '<status>: <statusText>']
    and the raw upstream body under [shopifyError]. *)
Theorem upstream_failure_is_forwarded (be : Backend) (m : string)
    (fields : gmap string value) (store_id data_type : value)
    (store : Store) (up : FetchResponse) (raw : string) :
  m <> "OPTIONS" ->
  fields !! "store_id" = Some store_id ->
  fields !! "data_type" = Some data_type ->
  accepted store_id data_type ->
  createClient be = Ok tt ->
  single be store_id = Ok (Some store, None) ->
  fetch be (outbound store data_type) = Ok up ->
  ok up = false ->
  (200 <= up_status up <= 599)%Z ->
  up_status up <> 304%Z ->
  up_text up = Ok raw ->
  invoke be (request m fields) =
    (Ok (json_response (up_status up)
           (object [("error", VStr "Shopify API request failed");
                    ("details", VStr (pretty (up_status up) +:+ ": " +:+
                                      up_statusText up));
                    ("shopifyError", VStr raw)])),
     [ReadBody; StoreLookup store_id; Outbound (outbound store data_type)]).
Proof.
  intros Hm Hid Hdt (Hs & Ht & found & Hq & Hfound) Hclient Hsingle Hfetch Hok Hrange H304 Htext.
  run_handler. rewrite bool_decide_eq_false_2 by assumption.
  rewrite Hid, Hdt. cbn. rewrite Hs, Ht. cbn. rewrite !Hq. cbn. rewrite Hfound, Hclient. cbn.
  rewrite Hsingle. rewrite (outbound_found store _ _ Hq). rewrite Hfetch, Hok. cbn.
  rewrite Htext.
  rewrite new_Response_accepts; [reflexivity | assumption |].
  unfold ok in Hok. unfold null_body_status.
  repeat (apply orb_false_iff; split); apply Z.eqb_neq; try lia.
  all: intros E; rewrite E in Hok; discriminate.
Qed.

(** C4, as stated, fails: a payload with an [errors] array is answered
    with status 400, not 500. *)
Lemma graphql_errors_are_not_500 :
  let answer := invoke (backend (Ok graphql_failure)) (post (VNum (num 1)) (VStr "orders")) in
  status_of answer = Some 400%Z /\ status_of answer <> Some 500%Z.
Proof.
  vm_compute. split; congruence.
Qed.

(** C4, amended. When the upstream answers with a success status and a
    JSON payload whose top-level [errors] member is an array, the handler
    answers with status 400 and the envelope
    [{ error: 'Shopify GraphQL errors', details: <that array> }]. *)
Theorem graphql_errors_are_relayed (be : Backend) (m : string)
    (fields : gmap string value) (store_id data_type : value)
    (store : Store) (up : FetchResponse)
    (payload : gmap string value) (errors : list value) :
  m <> "OPTIONS" ->
  fields !! "store_id" = Some store_id ->
  fields !! "data_type" = Some data_type ->
  accepted store_id data_type ->
  createClient be = Ok tt ->
  single be store_id = Ok (Some store, None) ->
  fetch be (outbound store data_type) = Ok up ->
  ok up = true ->
  up_json up = Ok (VObj payload) ->
  payload !! "errors" = Some (VArr errors) ->
  let resp :=
    json_response 400 (object [("error", VStr "Shopify GraphQL errors");
                               ("details", VArr errors)]) in
  invoke be (request m fields) =
    (Ok resp,
     [ReadBody; StoreLookup store_id; Outbound (outbound store data_type)]) /\
  error_envelope (body resp) = true.
Proof.
  intros Hm Hid Hdt (Hs & Ht & found & Hq & Hfound) Hclient Hsingle Hfetch Hok Hjson Herrors.
  split; [|reflexivity].
  run_handler. rewrite bool_decide_eq_false_2 by assumption.
  rewrite Hid, Hdt. cbn. rewrite Hs, Ht. cbn. rewrite !Hq. cbn. rewrite Hfound, Hclient. cbn.
  rewrite Hsingle. rewrite (outbound_found store _ _ Hq). rewrite Hfetch, Hok. cbn.
  rewrite Hjson. cbn. rewrite Herrors. reflexivity.
Qed.

(** *** Validation *)

(** What validation does reject: a request that is not a preflight and
    whose body is an object is answered with status 400, before any store
    lookup or outbound call, when [store_id] or [data_type] is absent or
    falsy, or when [data_type] has a property key under which [QUERIES]
    has no member, own or inherited. *)
Lemma validation_rejects (be : Backend) (m : string)
    (fields : gmap string value) :
  m <> "OPTIONS" ->
  truthy (field fields "store_id") = false \/
  truthy (field fields "data_type") = false \/
  QUERIES_get (field fields "data_type") = Ok Missing ->
  exists message,
    invoke be (request m fields) =
      (Ok (json_response 400 (object [("error", VStr message)])), [ReadBody]).
Proof.
  intros Hm H. run_handler. rewrite bool_decide_eq_false_2 by assumption.
  fold (field fields "store_id") (field fields "data_type").
  destruct (truthy (field fields "store_id")) eqn:Hs;
    [destruct (truthy (field fields "data_type")) eqn:Ht|]; cbn.
  - destruct H as [H|[H|H]]; try discriminate.
    rewrite H. cbn. eexists. reflexivity.
  - eexists. reflexivity.
  - eexists. reflexivity.
Qed.

(** Once a request is accepted and its store found, the outbound call is
    made, and it is the last event, whatever the upstream answers. *)
Lemma accepted_request_is_forwarded (be : Backend) (m : string)
    (fields : gmap string value) (store_id data_type : value) (store : Store) :
  m <> "OPTIONS" ->
  fields !! "store_id" = Some store_id ->
  fields !! "data_type" = Some data_type ->
  accepted store_id data_type ->
  createClient be = Ok tt ->
  single be store_id = Ok (Some store, None) ->
  (invoke be (request m fields)).2 =
    [ReadBody; StoreLookup store_id; Outbound (outbound store data_type)].
Proof.
  intros Hm Hid Hdt (Hs & Ht & found & Hq & Hfound) Hclient Hsingle.
  run_handler. rewrite bool_decide_eq_false_2 by assumption.
  rewrite Hid, Hdt. cbn. rewrite Hs, Ht. cbn. rewrite !Hq. cbn. rewrite Hfound, Hclient. cbn.
  rewrite Hsingle. rewrite (outbound_found store _ _ Hq).
  destruct (fetch be (outbound store data_type)) as [up|message]; [|reflexivity].
  repeat (case_match; simpl in *; simplify_eq); reflexivity.
Qed.

(** C1 at a name inherited from [Object.prototype]. For
    [{ store_id: 1, data_type: 'constructor' }] the lookup
    [QUERIES['constructor']] finds the inherited member, which is truthy:
    the request passes validation, the store is looked up and, the store
    being there, the outbound call is made, whatever the upstream answers. *)
Theorem inherited_name_passes_validation (upstream : result FetchResponse) :
  QUERIES_get (VStr "constructor") = Ok (Inherited "constructor") /\
  (invoke (backend upstream) (post (VNum (num 1)) (VStr "constructor"))).2 =
    [ReadBody; StoreLookup (VNum (num 1));
     Outbound (outbound shop (VStr "constructor"))].
Proof.
  split; [reflexivity|].
  apply accepted_request_is_forwarded; try reflexivity.
  - discriminate.
  - split; [reflexivity|]. split; [reflexivity|]. eexists. split; reflexivity.
Qed.

(** *** The outbound call and the success path *)

(** For an accepted request with a selector as [data_type] and a store
    that is found, exactly one outbound call is made: a POST to
    [https://{domain}/admin/api/2024-07/graphql.json] with the store's
    token under [X-Shopify-Access-Token] and the selector's query as
    [query], after reading the body and one store lookup. *)
Theorem one_outbound_call (be : Backend) (m : string)
    (fields : gmap string value) (store_id : value) (d q : string)
    (store : Store) :
  m <> "OPTIONS" ->
  fields !! "store_id" = Some store_id ->
  truthy store_id = true ->
  fields !! "data_type" = Some (VStr d) ->
  QUERIES !! d = Some q ->
  createClient be = Ok tt ->
  single be store_id = Ok (Some store, None) ->
  (invoke be (request m fields)).2 =
    [ ReadBody;
      StoreLookup store_id;
      Outbound
        {| url := "https://" +:+ shopify_domain store +:+
                  "/admin/api/2024-07/graphql.json";
           fetch_method := "POST";
           fetch_headers :=
             <["Content-Type" := "application/json"]>
             (<["X-Shopify-Access-Token" := api_access_token store]> ∅);
           query := Own q |} ].
Proof.
  intros Hm Hid Hs Hdt Hq Hclient Hsingle.
  assert (Hsel : selector d).
  { assert (Hd : d ∈ dom QUERIES) by (apply elem_of_dom; eauto).
    unfold QUERIES in Hd. rewrite !dom_insert_L, dom_empty_L in Hd.
    rewrite !elem_of_union, !elem_of_singleton, elem_of_empty in Hd.
    unfold selector. tauto. }
  rewrite (accepted_request_is_forwarded be m fields store_id (VStr d) store);
    auto using selector_accepted.
  unfold outbound, listed, QUERIES_get. cbn [ToString bind]. rewrite Hq.
  reflexivity.
Qed.

(** On success the upstream payload is returned as it came, with
    status 200: the upstream answered with a success status and a JSON
    payload without a truthy [errors] member. *)
Theorem success_relays_payload (be : Backend) (m : string)
    (fields : gmap string value) (store_id data_type : value)
    (store : Store) (up : FetchResponse) (payload errors : value) :
  m <> "OPTIONS" ->
  fields !! "store_id" = Some store_id ->
  fields !! "data_type" = Some data_type ->
  accepted store_id data_type ->
  createClient be = Ok tt ->
  single be store_id = Ok (Some store, None) ->
  fetch be (outbound store data_type) = Ok up ->
  ok up = true ->
  up_json up = Ok payload ->
  get payload "errors" = Ok errors ->
  truthy errors = false ->
  invoke be (request m fields) =
    (Ok {| status := 200; headers := json_headers; body := Some payload |},
     [ReadBody; StoreLookup store_id; Outbound (outbound store data_type)]).
Proof.
  intros Hm Hid Hdt (Hs & Ht & found & Hq & Hfound) Hclient Hsingle Hfetch Hok Hjson Hget Herrors.
  run_handler. rewrite bool_decide_eq_false_2 by assumption.
  rewrite Hid, Hdt. cbn. rewrite Hs, Ht. cbn. rewrite !Hq. cbn. rewrite Hfound, Hclient. cbn.
  rewrite Hsingle. rewrite (outbound_found store _ _ Hq). rewrite Hfetch, Hok. cbn.
  rewrite Hjson. cbn. rewrite Hget. cbn. rewrite Herrors. reflexivity.
Qed.

(** *** Every path, once *)

Example path_success :
  invoke (backend (Ok success)) (post (VNum (num 1)) (VStr "orders")) =
  (Ok {| status := 200; headers := json_headers; body := Some orders_payload |},
   [ReadBody; StoreLookup (VNum (num 1)); Outbound (outbound shop (VStr "orders"))]).
Proof. vm_compute. reflexivity. Qed.

Example path_missing_field :
  status_of (invoke (backend (Ok success)) (request "POST" {[ "store_id" := VNum (num 1) ]}))
  = Some 400%Z.
Proof. vm_compute. reflexivity. Qed.

Example path_invalid_data_type :
  invoke (backend (Ok success)) (post (VNum (num 1)) (VStr "refunds")) =
  (Ok (json_response 400 (object [("error", VStr
         "Invalid data_type. Must be: orders, products, or customers")])),
   [ReadBody]).
Proof. vm_compute. reflexivity. Qed.

Example path_unknown_store :
  invoke (backend (Ok success)) (post (VNum (num 7)) (VStr "orders")) =
  (Ok (json_response 404 (object [("error", VStr "Store not found")])),
   [ReadBody; StoreLookup (VNum (num 7))]).
Proof. vm_compute. reflexivity. Qed.

Example path_malformed_body :
  invoke (backend (Ok success))
    {| method := "POST"; json := Throw "Unexpected end of JSON input" |} =
  (Ok (json_response 500
         (object [("error", VStr "Internal server error");
                  ("details", VStr "Unexpected end of JSON input")])),
   [ReadBody]).
Proof. vm_compute. reflexivity. Qed.

Example path_null_body :
  status_of (invoke (backend (Ok success)) {| method := "POST"; json := Ok VNull |})
  = Some 500%Z.
Proof. vm_compute. reflexivity. Qed.

Example path_network_failure :
  status_of (invoke (backend (Throw "error sending request"))
               (post (VNum (num 1)) (VStr "orders")))
  = Some 500%Z.
Proof. vm_compute. reflexivity. Qed.

(** A status that no response with a body may carry is not forwarded: the
    constructor throws and the catch-all answers. *)
Example path_null_body_status :
  invoke (backend (Ok not_modified)) (post (VNum (num 1)) (VStr "orders")) =
  (Ok (json_response 500
         (object [("error", VStr "Internal server error");
                  ("details", VStr "Response with null body status cannot have body")])),
   [ReadBody; StoreLookup (VNum (num 1)); Outbound (outbound shop (VStr "orders"))]).
Proof. vm_compute. reflexivity. Qed.

(** An array with the name of a selector as its only element has that
    name as its property key. *)
Example path_array_data_type :
  status_of (invoke (backend (Ok success)) (post (VNum (num 1)) (VArr [VStr "orders"])))
  = Some 200%Z.
Proof. vm_compute. reflexivity. Qed.

(** A data type that has no string has no property key: reading
    [QUERIES[data_type]] throws, and the catch-all answers. *)
Example path_data_type_without_a_string :
  invoke (backend (Ok success))
    (post (VNum (num 1)) (object [("toString", VNum (num 1))])) =
  (Ok (json_response 500
         (object [("error", VStr "Internal server error");
                  ("details", VStr "Cannot convert object to primitive value")])),
   [ReadBody]).
Proof. vm_compute. reflexivity. Qed.

(** The endpoint built for a stored domain. *)
Example endpoint_of_shop :
  url (outbound shop (VStr "orders")) =
  "https://shop.myshopify.com/admin/api/2024-07/graphql.json".
Proof. reflexivity. Qed.

(** *** The theorems above at concrete requests *)

Lemma falsy_store_id_is_missing_at_zero_and_empty :
  invoke (backend (Ok success)) (post (VNum (num 0)) (VStr "orders")) =
    (Ok (json_response 400
           (object [("error", VStr "Missing store_id or data_type")])),
     [ReadBody]) /\
  invoke (backend (Ok success)) (post (VStr "") (VStr "orders")) =
    (Ok (json_response 400
           (object [("error", VStr "Missing store_id or data_type")])),
     [ReadBody]).
Proof.
  split.
  - apply (falsy_store_id_is_missing _ "POST" _ (VNum (num 0)));
      [discriminate | reflexivity | reflexivity].
  - apply (falsy_store_id_is_missing _ "POST" _ (VStr ""));
      [discriminate | reflexivity | reflexivity].
Defined.

Lemma unknown_store_is_not_found_at_7 :
  exists resp log,
    invoke (backend (Ok success)) (post (VNum (num 7)) (VStr "products")) =
      (Ok resp, log) /\
    status resp = 404%Z /\ status resp <> 400%Z /\
    body resp = Some (object [("error", VStr "Store not found")]) /\
    error_envelope (body resp) = true /\
    log = [ReadBody; StoreLookup (VNum (num 7))] /\
    forall r, ~ In (Outbound r) log.
Proof.
  apply (unknown_store_is_not_found (backend (Ok success)) "POST" _
           (VNum (num 7)) "products" None
           (Some "JSON object requested, multiple (or no) rows returned")).
  - discriminate.
  - reflexivity.
  - reflexivity.
  - reflexivity.
  - right. left. reflexivity.
  - reflexivity.
  - reflexivity.
  - left. reflexivity.
Defined.

Lemma upstream_failure_is_forwarded_at_401 :
  invoke (backend (Ok unauthorized)) (post (VNum (num 1)) (VStr "orders")) =
    (Ok (json_response 401
           (object [("error", VStr "Shopify API request failed");
                    ("details", VStr "401: Unauthorized");
                    ("shopifyError", VStr "[API] Invalid API key or access token")])),
     [ReadBody; StoreLookup (VNum (num 1));
      Outbound (outbound shop (VStr "orders"))]).
Proof.
  apply (upstream_failure_is_forwarded (backend (Ok unauthorized)) "POST" _
           (VNum (num 1)) (VStr "orders") shop unauthorized
           "[API] Invalid API key or access token").
  - discriminate.
  - reflexivity.
  - reflexivity.
  - split; [reflexivity|]. split; [reflexivity|]. eexists. split; reflexivity.
  - reflexivity.
  - reflexivity.
  - reflexivity.
  - reflexivity.
  - cbn. lia.
  - discriminate.
  - reflexivity.
Defined.

Lemma graphql_errors_are_relayed_at_one_error :
  let errors :=
    [object [("message", VStr "Field 'nam' doesn't exist on type 'Order'")]] in
  let resp :=
    json_response 400 (object [("error", VStr "Shopify GraphQL errors");
                               ("details", VArr errors)]) in
  invoke (backend (Ok graphql_failure)) (post (VNum (num 1)) (VStr "orders")) =
    (Ok resp,
     [ReadBody; StoreLookup (VNum (num 1));
      Outbound (outbound shop (VStr "orders"))]) /\
  error_envelope (body resp) = true.
Proof.
  apply (graphql_errors_are_relayed (backend (Ok graphql_failure)) "POST" _
           (VNum (num 1)) (VStr "orders") shop graphql_failure
           {[ "errors" := VArr [object [("message",
                VStr "Field 'nam' doesn't exist on type 'Order'")]] ]}).
  - discriminate.
  - reflexivity.
  - reflexivity.
  - split; [reflexivity|]. split; [reflexivity|]. eexists. split; reflexivity.
  - reflexivity.
  - reflexivity.
  - reflexivity.
  - reflexivity.
  - reflexivity.
  - reflexivity.
Defined.

Lemma validation_rejects_at_refunds_and_absent :
  (exists message,
     invoke (backend (Ok success)) (post (VNum (num 1)) (VStr "refunds")) =
       (Ok (json_response 400 (object [("error", VStr message)])), [ReadBody])) /\
  (exists message,
     invoke (backend (Ok success)) (post (VNum (num 1)) (VStr "__proto__")) =
       (Ok (json_response 400 (object [("error", VStr message)])), [ReadBody])) /\
  (exists message,
     invoke (backend (Ok success)) (request "POST" {[ "store_id" := VNum (num 1) ]}) =
       (Ok (json_response 400 (object [("error", VStr message)])), [ReadBody])).
Proof.
  split; [|split].
  - apply (validation_rejects (backend (Ok success)) "POST"); [discriminate|].
    right. right. reflexivity.
  - apply (validation_rejects (backend (Ok success)) "POST"); [discriminate|].
    right. right. reflexivity.
  - apply (validation_rejects (backend (Ok success)) "POST"); [discriminate|].
    right. left. reflexivity.
Defined.

Lemma one_outbound_call_at_orders :
  exists q,
    QUERIES !! "orders" = Some q /\
    (invoke (backend (Ok success)) (post (VNum (num 1)) (VStr "orders"))).2 =
      [ ReadBody;
        StoreLookup (VNum (num 1));
        Outbound
          {| url := "https://shop.myshopify.com/admin/api/2024-07/graphql.json";
             fetch_method := "POST";
             fetch_headers :=
               <["Content-Type" := "application/json"]>
               (<["X-Shopify-Access-Token" := "shpat_example"]> ∅);
             query := Own q |} ].
Proof.
  eexists. split; [reflexivity|].
  apply (one_outbound_call (backend (Ok success)) "POST" _ (VNum (num 1))
           "orders" _ shop); try reflexivity.
  discriminate.
Defined.

Lemma success_relays_payload_at_orders :
  invoke (backend (Ok success)) (post (VNum (num 1)) (VStr "orders")) =
    (Ok {| status := 200; headers := json_headers; body := Some orders_payload |},
     [ReadBody; StoreLookup (VNum (num 1));
      Outbound (outbound shop (VStr "orders"))]).
Proof.
  apply (success_relays_payload (backend (Ok success)) "POST" _
           (VNum (num 1)) (VStr "orders") shop success orders_payload VUndefined);
    try reflexivity.
  - discriminate.
  - split; [reflexivity|]. split; [reflexivity|]. eexists. split; reflexivity.
Defined.

(** *** The effects of one invocation *)

Lemma effects_in_order (be : Backend) (req : Request) :
  let log := (invoke be req).2 in
  log = [] \/
  log = [ReadBody] \/
  exists parsed store_id data_type,
    json req = Ok parsed /\
    destructure parsed "store_id" = Ok store_id /\
    destructure parsed "data_type" = Ok data_type /\
    accepted store_id data_type /\
    (log = [ReadBody; StoreLookup store_id] \/
     exists store,
       single be store_id = Ok (Some store, None) /\
       log = [ReadBody; StoreLookup store_id;
              Outbound (outbound store data_type)]).
Proof.
  unfold invoke, serve.
  destruct (bool_decide (method req = "OPTIONS")).
  { left. reflexivity. }
  right.
  unfold try_catch, then_, perform, pure. simpl.
  destruct (json req) as [parsed|] eqn:Hbody; [|left; reflexivity]. simpl.
  destruct (destructure parsed "store_id") as [store_id|] eqn:Hs;
    [|left; reflexivity]. simpl.
  destruct (destructure parsed "data_type") as [data_type|] eqn:Ht;
    [|left; reflexivity]. simpl.
  destruct (truthy store_id) eqn:Hsid; [|left; reflexivity].
  destruct (truthy data_type) eqn:Hdt; [|left; reflexivity]. simpl.
  destruct (QUERIES_get data_type) as [found|] eqn:Hq;
    [|left; reflexivity]. simpl.
  destruct (member_truthy found) eqn:Hfound; [|left; reflexivity]. simpl.
  destruct (createClient be); [|left; reflexivity]. simpl.
  right. exists parsed, store_id, data_type.
  split; [reflexivity|]. split; [exact Hs|]. split; [exact Ht|].
  split.
  { split; [exact Hsid|]. split; [exact Hdt|]. exists found.
    split; [exact Hq | exact Hfound]. }
  destruct (single be store_id) as [[[store|] [e|]]|] eqn:Hsingle; simpl;
    try (left; reflexivity).
  right. exists store. split; [reflexivity|].
  rewrite (outbound_found store _ _ Hq).
  destruct (fetch be (outbound store data_type)) as [up|]; [|reflexivity].
  repeat (case_match; simpl in *; simplify_eq); reflexivity.
Qed.

(** A member that passes the test of the handler is a text of the
    catalog, or a member of the prototype. *)
Lemma accepted_member data_type :
  (exists store_id, accepted store_id data_type) ->
  (exists key text,
     QUERIES !! key = Some text /\ listed data_type = Own text) \/
  (exists key,
     key ∈ Object_prototype /\ listed data_type = Inherited key).
Proof.
  intros (store_id & _ & _ & found & Hq & Hfound).
  unfold listed. rewrite Hq. unfold QUERIES_get in Hq.
  destruct (ToString data_type) as [key|]; [|discriminate].
  cbn [bind] in Hq. injection Hq as <-.
  destruct (QUERIES !! key) as [text|] eqn:Htext.
  - left. exists key, text. split; [exact Htext | reflexivity].
  - right. exists key.
    destruct (bool_decide (key ∈ Object_prototype)) eqn:Hkey;
      [|discriminate].
    split; [eapply bool_decide_eq_true_1, Hkey | reflexivity].
Qed.

(** *** The query catalog *)

(** C8. [QUERIES] maps exactly the three selectors to query texts. Each
    text is one operation without comments or strings, whose tokens begin
    with the selector's collection called with [first: 20], the sort key
    (orders by PROCESSED_AT, products and customers by UPDATED_AT) and
    [reverse: true], followed by [edges { node {]; and that call is all
    there is at the root of the operation. The catalog is the same for
    every request: whatever the request and the backend, the query of an
    outbound call is a text of the catalog, or a member of the prototype
    of the catalog where a request names one. *)
Theorem QUERIES_catalog :
  dom QUERIES = ({[ "orders"; "products"; "customers" ]} : gset string) /\
  (forall be req request,
     In (Outbound request) (invoke be req).2 ->
     (exists key text, QUERIES !! key = Some text /\ query request = Own text) \/
     (exists key, key ∈ Object_prototype /\ query request = Inherited key)) /\
  Forall
    (fun '(key, operation, sortKey) =>
       exists q,
         QUERIES !! key = Some q /\
         plain_text q = true /\
         take 20 (tokens q) =
           [ "query"; operation; "{";
             key; "("; "first"; ":"; "20"; "sortKey"; ":"; sortKey;
                       "reverse"; ":"; "true"; ")"; "{";
             "edges"; "{"; "node"; "{" ] /\
         names_at 1 0 EmptyString q =
           [ key; "first"; "20"; "sortKey"; sortKey; "reverse"; "true" ])
    [ ("orders", "getOrders", "PROCESSED_AT");
      ("products", "getProducts", "UPDATED_AT");
      ("customers", "getCustomers", "UPDATED_AT") ].
Proof.
  split; [|split].
  - unfold QUERIES. rewrite !dom_insert_L, dom_empty_L. set_solver.
  - intros be req request Hin.
    destruct (effects_in_order be req)
      as [H | [H | (parsed & store_id & data_type & _ & _ & _ & Hacc &
                    [H | (store & _ & H)])]];
      rewrite H in Hin; simpl in Hin;
      repeat (destruct Hin as [Hin | Hin]; try discriminate Hin);
      try contradiction.
    injection Hin as <-.
    apply accepted_member. exists store_id. exact Hacc.
  - repeat apply List.Forall_cons; try apply List.Forall_nil;
      eexists; (split; [reflexivity|]);
      repeat split; vm_compute; reflexivity.
Qed.

End ProxyFacts.

(** ** The store manager *)

Section StoreManagerFacts.
Import StoreManager.

(** *** Substrings *)

Lemma startsWith_refl s : startsWith s s = true.
Proof. induction s as [|c s IH]; simpl; [reflexivity|]. rewrite Ascii.eqb_refl. exact IH. Qed.

Lemma includes_tail c s p : includes s p = true -> includes (String c s) p = true.
Proof. intros H. simpl. rewrite H. apply orb_true_r. Qed.

Lemma endsWith_includes s p : endsWith s p = true -> includes s p = true.
Proof.
  induction s as [|c s IH]; intros H.
  - destruct p; [reflexivity | discriminate].
  - change (endsWith (String c s) p)
      with (String.eqb (String c s) p || endsWith s p) in H.
    apply orb_true_iff in H as [H|H].
    + apply String.eqb_eq in H. subst p.
      simpl. rewrite Ascii.eqb_refl, startsWith_refl. reflexivity.
    + apply includes_tail, IH, H.
Qed.

Lemma includes_drop_chars n s p :
  includes (drop_chars n s) p = true -> includes s p = true.
Proof.
  revert s. induction n as [|n IH]; intros [|c s] H; simpl in *; try assumption.
  rewrite (IH _ H). apply orb_true_r.
Qed.

Lemma startsWith_strip_trailing_slash s p :
  startsWith (strip_trailing_slash s) p = true -> startsWith s p = true.
Proof.
  revert p. induction s as [|c s IH]; intros p H; [assumption|].
  destruct p as [|a p]; [reflexivity|].
  destruct s as [|c' s'].
  - simpl in H. destruct (Ascii.eqb c "/"); [discriminate | assumption].
  - change (strip_trailing_slash (String c (String c' s')))
      with (String c (strip_trailing_slash (String c' s'))) in H.
    simpl in H. simpl. destruct (Ascii.eqb a c); [|discriminate].
    apply IH. exact H.
Qed.

Lemma includes_strip_trailing_slash s p :
  includes (strip_trailing_slash s) p = true -> includes s p = true.
Proof.
  induction s as [|c s IH]; intros H; [assumption|].
  destruct s as [|c' s'].
  - simpl in H. destruct (Ascii.eqb c "/").
    + simpl in H. rewrite orb_false_r in H.
      destruct p; [reflexivity | discriminate].
    + assumption.
  - change (strip_trailing_slash (String c (String c' s')))
      with (String c (strip_trailing_slash (String c' s'))) in H.
    change (includes (String c ?t) p)
      with (startsWith (String c t) p || includes t p) in *.
    apply orb_true_iff in H as [H|H]; apply orb_true_iff.
    + left. apply (startsWith_strip_trailing_slash (String c (String c' s'))).
      exact H.
    + right. apply IH. exact H.
Qed.

Lemma includes_strip_protocol s p :
  includes (strip_protocol s) p = true -> includes s p = true.
Proof.
  unfold strip_protocol. intros H.
  destruct (startsWith s "https://"); [exact (includes_drop_chars 8 _ _ H)|].
  destruct (startsWith s "http://"); [exact (includes_drop_chars 7 _ _ H)|].
  exact H.
Qed.

(** The inner test of [handleSubmit] never fails: a value that does not
    include the suffix does not end with it after the two replacements
    either, so the suffix is appended whenever the outer test passes. *)
Lemma inner_test_always_passes domain :
  includes domain ".myshopify.com" = false ->
  endsWith (strip_trailing_slash (strip_protocol domain)) ".myshopify.com" = false.
Proof.
  intros H. destruct (endsWith _ _) eqn:E; [|reflexivity].
  apply endsWith_includes, includes_strip_trailing_slash,
    includes_strip_protocol in E.
  congruence.
Qed.

(** What [handleSubmit] stores, by cases on the outer test. *)
Lemma domain_of_cases formData :
  domain_of formData =
    if includes (shopify_domain formData) ".myshopify.com"
    then shopify_domain formData
    else strip_trailing_slash (strip_protocol (shopify_domain formData))
         +:+ ".myshopify.com".
Proof.
  unfold domain_of.
  destruct (includes (shopify_domain formData) ".myshopify.com") eqn:E;
    simpl; [reflexivity|].
  rewrite (inner_test_always_passes _ E). reflexivity.
Qed.

Example bare_name_gets_the_suffix :
  shopify_domain (handleSubmit (form "foo")) = "foo.myshopify.com".
Proof. reflexivity. Qed.

Example url_of_bare_name_is_stripped :
  shopify_domain (handleSubmit (form "https://foo/")) = "foo.myshopify.com".
Proof. reflexivity. Qed.

(** C5 at the spec's first example. The input
    ["https://foo.myshopify.com/"] includes the suffix, so the outer test
    skips both replacements: the value is stored as typed, protocol and
    trailing slash included, and it does not end in the suffix. *)
Theorem full_url_is_stored_as_typed :
  shopify_domain (handleSubmit (form "https://foo.myshopify.com/")) =
    "https://foo.myshopify.com/" /\
  endsWith (shopify_domain (handleSubmit (form "https://foo.myshopify.com/")))
    ".myshopify.com" = false.
Proof. split; reflexivity. Qed.

(** The endpoint the proxy builds from that stored value. *)
Example endpoint_of_full_url :
  Proxy.url
    (outbound
       {| Proxy.shopify_domain :=
            shopify_domain (handleSubmit (form "https://foo.myshopify.com/"));
          Proxy.api_access_token := "shpat_example" |}
       (VStr "orders")) =
  "https://https://foo.myshopify.com//admin/api/2024-07/graphql.json".
Proof. reflexivity. Qed.

End StoreManagerFacts.

(** ** Fixed notation *)

Section FixedNotation.
Import RowSpec.

Lemma is_digit_pretty_N_char d : is_digit (pretty_N_char d) = true.
Proof. unfold pretty_N_char. repeat case_match; reflexivity. Qed.

Lemma pretty_N_go_digits x s :
  all_digits s = true -> all_digits (pretty_N_go x s) = true.
Proof.
  revert s. induction (N.lt_wf_0 x) as [x _ IH]. intros s Hs.
  destruct (decide (x = 0%N)) as [->|Hx]; [exact Hs|].
  rewrite pretty_N_go_step by lia.
  apply IH; [apply N.div_lt; lia|].
  simpl. rewrite is_digit_pretty_N_char. exact Hs.
Qed.

Lemma pretty_N_go_nonempty x s : s <> "" -> pretty_N_go x s <> "".
Proof.
  revert s. induction (N.lt_wf_0 x) as [x _ IH]. intros s Hs.
  destruct (decide (x = 0%N)) as [->|Hx]; [exact Hs|].
  rewrite pretty_N_go_step by lia.
  apply IH; [apply N.div_lt; lia | discriminate].
Qed.

(** The decimal digits of a natural number: digits, and at least one. *)
Lemma pretty_Z_digits (z : Z) :
  (0 <= z)%Z -> all_digits (pretty z) = true /\ pretty z <> "".
Proof.
  intros Hz. destruct z as [|p|p]; [split; [reflexivity | discriminate] | | lia].
  change (pretty (Z.pos p)) with (pretty_N_go (N.pos p) "").
  split; [apply pretty_N_go_digits; reflexivity|].
  rewrite pretty_N_go_step by lia.
  apply pretty_N_go_nonempty. discriminate.
Qed.

Lemma span_digits_append ds rest :
  all_digits ds = true ->
  match rest with String c _ => is_digit c = false | EmptyString => True end ->
  span_digits (ds +:+ rest) = (ds, rest).
Proof.
  intros Hds Hrest. induction ds as [|c ds IH].
  - destruct rest as [|c rest]; [reflexivity|].
    change ("" +:+ String c rest) with (String c rest).
    simpl. rewrite Hrest. reflexivity.
  - simpl in Hds. apply andb_true_iff in Hds as [Hc Hds].
    change (String c ds +:+ rest) with (String c (ds +:+ rest)).
    simpl. rewrite Hc, (IH Hds). reflexivity.
Qed.

Lemma two_digits (r : Z) :
  (0 <= r < 100)%Z -> two_digit_string (pad_zeros 2 (pretty r)) = true.
Proof.
  intros Hr.
  assert (Htable :
    forallb (fun r => two_digit_string (pad_zeros 2 (pretty r))) (seqZ 0 100)
    = true) by (vm_compute; reflexivity).
  rewrite forallb_forall in Htable. apply Htable.
  apply list_elem_of_In, elem_of_seqZ. lia.
Qed.

Lemma is_digit_not_minus c : is_digit c = true -> Ascii.eqb c "-" = false.
Proof.
  intros H. destruct (Ascii.eqb c "-") eqn:E; [|reflexivity].
  apply Ascii.eqb_eq in E. subst c. discriminate.
Qed.

Lemma fixed_digits_two_decimals (negative : bool) (n : Z) :
  (0 <= n)%Z ->
  two_decimals ((if negative then "-" else "") +:+ fixed_digits n 2) = true.
Proof.
  intros Hn. unfold fixed_digits.
  change (10 ^ Z.of_nat 2)%Z with 100%Z.
  pose proof (two_digits (n mod 100) (Z.mod_pos_bound n 100 eq_refl)) as Hfrac.
  destruct (pad_zeros 2 (pretty (n mod 100)%Z)) as [|a [|b [|]]];
    try discriminate Hfrac.
  destruct (pretty_Z_digits (n / 100) (Z.div_pos n 100 Hn eq_refl))
    as [Hdigits Hnonempty].
  assert (Hspan :
    span_digits (pretty (n / 100)%Z +:+ "." +:+ String a (String b ""))
    = (pretty (n / 100)%Z, String "." (String a (String b "")))).
  { apply span_digits_append; [exact Hdigits | reflexivity]. }
  unfold two_decimals. destruct negative.
  - change ("-" +:+ ?s) with (String "-" s).
    cbn [Ascii.eqb Bool.eqb]. rewrite Hspan.
    destruct (pretty (n / 100)%Z); [contradiction | exact Hfrac].
  - change ("" +:+ ?s) with s.
    destruct (pretty (n / 100)%Z) as [|c ds] eqn:E; [contradiction|].
    change (String c ds +:+ ?s) with (String c (ds +:+ s)) in *.
    simpl in Hdigits. apply andb_true_iff in Hdigits as [Hc _].
    rewrite (is_digit_not_minus c Hc), Hspan. exact Hfrac.
Qed.

Lemma fraction_positive m e p q :
  fraction m e = (p, q) -> (0 < p)%Z /\ (0 < q)%Z.
Proof.
  unfold fraction. destruct (Z.leb_spec 0 e); intros [= <- <-].
  - split; [|lia]. apply Z.mul_pos_pos; [lia | apply Z.pow_pos_nonneg; lia].
  - split; [lia | apply Z.pow_pos_nonneg; lia].
Qed.

Lemma scale10_positive pq k p q :
  (0 < pq.1)%Z -> (0 < pq.2)%Z -> scale10 pq k = (p, q) ->
  (0 < p)%Z /\ (0 < q)%Z.
Proof.
  destruct pq as [p0 q0]. simpl. intros Hp Hq. unfold scale10.
  destruct (Z.leb_spec 0 k); intros [= <- <-].
  - split; [|lia]. apply Z.mul_pos_pos; [lia | apply Z.pow_pos_nonneg; lia].
  - split; [lia|]. apply Z.mul_pos_pos; [lia | apply Z.pow_pos_nonneg; lia].
Qed.

(** [toFixed(2)] of a number it prints in fixed notation has exactly two
    decimals. *)
Lemma toFixed_two_decimals (x : number) :
  renders_fixed x = true -> two_decimals (toFixed x 2) = true.
Proof.
  destruct x as [s|s| |s m e]; try discriminate.
  - intros _. reflexivity.
  - intros Hx. unfold toFixed. simpl in Hx. rewrite Hx.
    destruct (fraction m e) as [p0 q0] eqn:Ef.
    destruct (fraction_positive _ _ _ _ Ef) as [Hp0 Hq0].
    destruct (scale10 (p0, q0) (Z.of_nat 2)) as [p q] eqn:Es.
    destruct (scale10_positive (p0, q0) _ _ _ Hp0 Hq0 Es) as [Hp Hq].
    apply fixed_digits_two_decimals.
    apply Z.div_pos; lia.
Qed.

End FixedNotation.

(** ** The row normalizer *)

Section DataViewerFacts.
Import Runtime DataViewer RowSpec.
Context `{host : Host}.

(** *** Member access never throws on what the tests let through *)

Lemma get_optional_prop v key : get_optional v key = Ok (prop v key).
Proof. destruct v; reflexivity. Qed.

Lemma get_truthy v key : truthy v = true -> get v key = Ok (prop v key).
Proof. destruct v; try discriminate; reflexivity. Qed.

Lemma get_prop_truthy v key :
  truthy (prop v key) = true -> get v key = Ok (prop v key).
Proof. destruct v; try discriminate; reflexivity. Qed.

Lemma get_of_a_node v key :
  v <> VUndefined -> v <> VNull -> get v key = Ok (prop v key).
Proof. destruct v; try contradiction; reflexivity. Qed.

Lemma get_of_no_node v key :
  v = VUndefined \/ v = VNull -> exists message, get v key = Throw message.
Proof. intros [-> | ->]; eexists; reflexivity. Qed.

(** What is falsy has no members, and has a string. *)
Lemma prop_of_falsy v key : truthy v = false -> prop v key = VUndefined.
Proof. destruct v; try discriminate; reflexivity. Qed.

Lemma falsy_converts v : truthy v = false -> exists s, ToString v = Ok s.
Proof. destruct v; try discriminate; intros _; eexists; reflexivity. Qed.

Lemma path_snoc v keys key :
  path v (keys ++ [key]) = (x <- path v keys ;; get x key).
Proof.
  revert v. induction keys as [|k keys IH]; intros v; simpl.
  - destruct (get v key); reflexivity.
  - destruct (get v k); simpl; [apply IH | reflexivity].
Qed.

(** *** The derived fields, piece by piece

    Each piece converts its members in order and, when none of the
    conversions throws, is what the specification says. *)

Lemma name_part_piece v (k : string -> result value) :
  (v' <- or_else v (Ok (VStr "")) ;; s <- ToString v' ;; k s) =
  (_ <- ToString v ;; k (name_part v)).
Proof.
  unfold or_else, name_part, present, text.
  destruct (truthy v) eqn:Ht; cbn [bind].
  - destruct (ToString v); reflexivity.
  - destruct (falsy_converts v Ht) as [s ->]. reflexivity.
Qed.

Lemma name_tail full email :
  or_else (VStr full) (or_else email (Ok (VStr "Guest"))) =
  Ok match full with
     | EmptyString =>
         match present email with
         | Some e => e
         | None => VStr "Guest"
         end
     | String c rest => VStr (String c rest)
     end.
Proof.
  unfold or_else, present. destruct full; cbn.
  - destruct (truthy email); reflexivity.
  - reflexivity.
Qed.

#[local] Arguments truthy : simpl never.
#[local] Arguments toFixed : simpl never.
#[local] Arguments ToString : simpl never.
#[local] Arguments trim : simpl never.

Lemma money_piece node keys pair :
  (truthy pair = true -> path node keys = Ok pair) ->
  (if truthy pair then money node keys else Ok (VStr "N/A")) =
  (_ <- ToString (prop pair "currencyCode") ;;
   _ <- ToString (prop pair "amount") ;;
   Ok (money_or_NA pair)).
Proof.
  intros Hpath. unfold money_or_NA, present.
  destruct (truthy pair) eqn:Ht.
  - unfold money, parseFloat, money_text, amount, text.
    rewrite !path_snoc, (Hpath eq_refl). cbn [bind].
    rewrite !(get_truthy _ _ Ht). cbn [bind].
    destruct (ToString (prop pair "currencyCode")); [|reflexivity]. cbn [bind].
    destruct (ToString (prop pair "amount")); reflexivity.
  - rewrite !(prop_of_falsy _ _ Ht). reflexivity.
Qed.

Lemma name_piece node customer :
  get node "customer" = Ok customer ->
  (if truthy customer then
     firstName <- path node ["customer"; "firstName"] ;;
     firstName' <- or_else firstName (Ok (VStr "")) ;;
     first <- ToString firstName' ;;
     lastName <- path node ["customer"; "lastName"] ;;
     lastName' <- or_else lastName (Ok (VStr "")) ;;
     last <- ToString lastName' ;;
     or_else
       (VStr (trim (first +:+ " " +:+ last)))
       (email <- path node ["customer"; "email"] ;;
        or_else email (Ok (VStr "Guest")))
   else Ok (VStr "Guest")) =
  (_ <- ToString (prop customer "firstName") ;;
   _ <- ToString (prop customer "lastName") ;;
   Ok (customer_name customer)).
Proof.
  intros Hget. unfold customer_name. unfold present at 1.
  destruct (truthy customer) eqn:Ht.
  - cbn [path]. rewrite Hget. cbn [bind]. rewrite !(get_truthy _ _ Ht).
    cbn [bind]. rewrite name_part_piece.
    destruct (ToString (prop customer "firstName")); [|reflexivity].
    cbn [bind]. rewrite name_part_piece.
    destruct (ToString (prop customer "lastName")); [|reflexivity].
    cbn [bind]. apply name_tail.
  - rewrite !(prop_of_falsy _ _ Ht). reflexivity.
Qed.

Lemma date_piece node key :
  node <> VUndefined -> node <> VNull ->
  DataViewer.date_or_NA node key =
  (_ <- ToString (prop node key) ;; Ok (RowSpec.date_or_NA (prop node key))).
Proof.
  intros Hu Hn. unfold DataViewer.date_or_NA, RowSpec.date_or_NA, new_Date, present.
  rewrite !(get_of_a_node _ _ Hu Hn). cbn [bind].
  destruct (truthy (prop node key)) eqn:Ht.
  - cbn [bind]. destruct (ToString (prop node key)); reflexivity.
  - destruct (falsy_converts _ Ht) as [s ->]. reflexivity.
Qed.

(** The callback, on a node that is one: it converts the members of
    [converted] in that order, and then holds the specification's row. *)
Lemma processNode_exact node dataType :
  node <> VUndefined -> node <> VNull ->
  processNode node dataType =
  (_ <- Array_map ToString (converted dataType node) ;;
   Ok (row node dataType)).
Proof.
  intros Hu Hn. destruct dataType; unfold processNode, converted, row.
  - (* orders *)
    rewrite !(get_of_a_node _ _ Hu Hn). cbn [bind].
    rewrite get_optional_prop. cbn [bind].
    rewrite (money_piece node ["totalPriceSet"; "shopMoney"]
               (prop (prop node "totalPriceSet") "shopMoney")).
    2:{ intros Ht. cbn [path]. rewrite (get_of_a_node _ _ Hu Hn). cbn [bind].
        rewrite (get_prop_truthy _ _ Ht). reflexivity. }
    rewrite (name_piece node (prop node "customer"))
      by apply (get_of_a_node _ _ Hu Hn).
    rewrite (date_piece _ _ Hu Hn).
    cbn [Array_map]. convert_in_order.
  - (* products *)
    rewrite !(get_of_a_node _ _ Hu Hn). cbn [bind].
    rewrite get_optional_prop. cbn [bind].
    rewrite (money_piece node ["priceRangeV2"; "minVariantPrice"]
               (prop (prop node "priceRangeV2") "minVariantPrice")).
    2:{ intros Ht. cbn [path]. rewrite (get_of_a_node _ _ Hu Hn). cbn [bind].
        rewrite (get_prop_truthy _ _ Ht). reflexivity. }
    rewrite (date_piece _ _ Hu Hn).
    cbn [Array_map]. convert_in_order.
  - (* customers *)
    rewrite !(get_of_a_node _ _ Hu Hn). cbn [bind].
    rewrite (money_piece node ["amountSpent"] (prop node "amountSpent")).
    2:{ intros _. cbn [path]. rewrite (get_of_a_node _ _ Hu Hn). reflexivity. }
    cbn [Array_map]. convert_in_order.
Qed.

Lemma processNode_of_no_node node dataType :
  node = VUndefined \/ node = VNull ->
  exists message, processNode node dataType = Throw message.
Proof. intros [-> | ->]; destruct dataType; eexists; reflexivity. Qed.

Lemma conversions_succeed values :
  Forall convertible values -> exists texts, Array_map ToString values = Ok texts.
Proof.
  induction 1 as [|v values [s Hs] _ [texts IH]]; [eexists; reflexivity|].
  exists (s :: texts). cbn [Array_map]. rewrite Hs, IH. reflexivity.
Qed.

Lemma conversions_succeeded values texts :
  Array_map ToString values = Ok texts -> Forall convertible values.
Proof.
  revert texts. induction values as [|v values IH]; intros texts H.
  - constructor.
  - cbn [Array_map] in H. destruct (ToString v) as [s|] eqn:Hs; [|discriminate].
    cbn [bind] in H.
    destruct (Array_map ToString values) as [texts'|] eqn:Ht; [|discriminate].
    constructor; [exists s; exact Hs | eapply IH; reflexivity].
Qed.

(** The row of a regular node is the specification's. *)
Lemma processNode_row node dataType :
  regular dataType node -> processNode node dataType = Ok (row node dataType).
Proof.
  intros (Hu & Hn & Hc). rewrite (processNode_exact _ _ Hu Hn).
  destruct (conversions_succeed _ Hc) as [texts ->]. reflexivity.
Qed.

(** The callback returns on the regular nodes and on no other. *)
Lemma processNode_returned node dataType r :
  processNode node dataType = Ok r -> regular dataType node.
Proof.
  intros H.
  assert (Hu : node <> VUndefined).
  { intros ->. destruct dataType; discriminate. }
  assert (Hn : node <> VNull).
  { intros ->. destruct dataType; discriminate. }
  split; [exact Hu|]. split; [exact Hn|].
  rewrite (processNode_exact _ _ Hu Hn) in H.
  destruct (Array_map ToString (converted dataType node)) eqn:Hc;
    [|discriminate].
  eapply conversions_succeeded, Hc.
Qed.

Lemma processData_rows nodes dataType :
  Forall (regular dataType) nodes ->
  processData nodes dataType = Ok (map (fun node => row node dataType) nodes).
Proof.
  unfold processData.
  induction 1 as [|node nodes Hnode _ IH]; [reflexivity|].
  cbn [Array_map map]. rewrite (processNode_row _ _ Hnode), IH. reflexivity.
Qed.

Lemma processData_returned nodes dataType rows :
  processData nodes dataType = Ok rows -> Forall (regular dataType) nodes.
Proof.
  unfold processData. revert rows.
  induction nodes as [|node nodes IH]; intros rows H; [constructor|].
  cbn [Array_map] in H.
  destruct (processNode node dataType) as [r|] eqn:Hr; [|discriminate].
  cbn [bind] in H.
  destruct (Array_map _ nodes) as [rows'|] eqn:Hrows; [|discriminate].
  constructor; [eapply processNode_returned, Hr | eapply IH; reflexivity].
Qed.

Lemma prop_delete fields key k :
  prop (VObj (delete key fields)) k =
  if decide (key = k) then VUndefined else prop (VObj fields) k.
Proof.
  unfold prop. destruct (decide (key = k)) as [->|Hne].
  - rewrite lookup_delete_eq. reflexivity.
  - rewrite lookup_delete_ne by exact Hne. reflexivity.
Qed.

Lemma undefined_converts : convertible VUndefined.
Proof. eexists. reflexivity. Qed.

(** A node that lacks a member of a regular node is regular. *)
Lemma regular_delete fields key dataType :
  regular dataType (VObj fields) -> regular dataType (VObj (delete key fields)).
Proof.
  intros (_ & _ & Hc). split; [discriminate|]. split; [discriminate|].
  destruct dataType; unfold converted in *; rewrite !prop_delete;
    repeat match goal with
           | |- context [decide (key = ?k)] => destruct (decide (key = k))
           end;
    repeat match goal with
           | H : Forall _ (_ :: _) |- _ => apply Forall_cons_1 in H; destruct H
           end;
    repeat (apply Forall_cons; split);
    try apply Forall_nil; try assumption; try apply undefined_converts;
    exact I.
Qed.

Lemma regular_empty dataType : regular dataType (VObj ∅).
Proof.
  split; [discriminate|]. split; [discriminate|].
  destruct dataType; repeat (apply Forall_cons; split);
    try apply Forall_nil; try apply undefined_converts; exact I.
Qed.

(** C6, amended. [processData] maps each node on its own, in order. It
    returns rows exactly when every node is regular: neither [null] nor
    [undefined], with a string for each member it converts (the money
    pair's currency code and amount, the customer's first and last name,
    the timestamp); then there is one row per node, the result of
    normalizing that node. On every other list it throws. A node that
    lacks a member of a regular node is regular, the node with no member
    is, and its row holds the fallback strings. *)
Theorem processData_takes_regular_nodes (nodes : list value)
    (dataType : DataType) :
  (Forall (regular dataType) nodes ->
   exists rows,
     processData nodes dataType = Ok rows /\
     Forall2 (fun node r => processNode node dataType = Ok r) nodes rows) /\
  (~ Forall (regular dataType) nodes ->
   exists message, processData nodes dataType = Throw message) /\
  (forall fields key,
     regular dataType (VObj fields) ->
     regular dataType (VObj (delete key fields))) /\
  regular dataType (VObj ∅) /\
  processData [VObj ∅] dataType = Ok [fallbacks dataType].
Proof.
  split; [|split; [|split; [|split]]].
  - intros Hnodes. exists (map (fun node => row node dataType) nodes).
    split; [apply processData_rows, Hnodes|].
    induction Hnodes as [|node nodes Hnode _ IH]; constructor;
      [apply processNode_row, Hnode | exact IH].
  - intros Hnot. destruct (processData nodes dataType) as [rows|message] eqn:H.
    + destruct Hnot. eapply processData_returned, H.
    + exists message. reflexivity.
  - intros fields key. apply regular_delete.
  - apply regular_empty.
  - rewrite processData_rows by (constructor; [apply regular_empty | constructor]).
    destruct dataType; reflexivity.
Qed.

(** C7, amended. For every order node that is regular the row holds:
    under [totalPrice], "N/A" when the money pair is absent and otherwise
    the currency code, a space and [parseFloat(amount).toFixed(2)], which
    has exactly two decimals whenever the amount parses to zero or to a
    finite number of magnitude below [10^21]; under [customerName], first
    and last name (each empty when absent) joined by a space and trimmed,
    or else the email, or else "Guest", and "Guest" when there is no
    customer; under [processedAt], the host's localized date of the
    timestamp, or "N/A" when it is absent. *)
Theorem order_row_fields (node : value) :
  let pair := prop (prop node "totalPriceSet") "shopMoney" in
  regular orders node ->
  exists r,
    processNode node orders = Ok r /\
    r !! "totalPrice" = Some (money_or_NA pair) /\
    r !! "customerName" = Some (customer_name (prop node "customer")) /\
    r !! "processedAt" = Some (RowSpec.date_or_NA (prop node "processedAt")) /\
    (truthy pair = true ->
     renders_fixed (amount (prop pair "amount")) = true ->
     exists digits,
       money_or_NA pair =
         VStr (text (prop pair "currencyCode") +:+ " " +:+ digits) /\
       two_decimals digits = true).
Proof.
  intros pair Hnode. exists (row node orders).
  split; [apply processNode_row, Hnode|].
  unfold row. fold pair.
  repeat split.
  - rewrite !lookup_insert_ne by discriminate. apply lookup_insert_eq.
  - rewrite lookup_insert_ne by discriminate. apply lookup_insert_eq.
  - apply lookup_insert_eq.
  - intros Ht Hfixed. exists (toFixed (amount (prop pair "amount")) 2).
    split; [|apply toFixed_two_decimals, Hfixed].
    unfold money_or_NA, present. rewrite Ht. reflexivity.
Qed.

(** The rows of the regular product nodes carry the minimum variant
    price, formatted as order totals are, and the localized update date;
    those of the regular customer nodes the amount spent, formatted the
    same way; "N/A" stands for what is absent. *)
Theorem product_and_customer_rows (node : value) :
  (regular products node ->
   processNode node products =
     Ok (<["updatedAt" := RowSpec.date_or_NA (prop node "updatedAt")]>
         (<["price" :=
              money_or_NA (prop (prop node "priceRangeV2") "minVariantPrice")]>
          (spread node)))) /\
  (regular customers node ->
   processNode node customers =
     Ok (<["amountSpent" := money_or_NA (prop node "amountSpent")]>
         (spread node))).
Proof. split; apply processNode_row. Qed.

(** Every other member of a regular node passes through to its row
    unchanged. *)
Theorem other_fields_pass_through (node : value)
    (dataType : DataType) (key : string) :
  regular dataType node ->
  ~ In key (derived_fields dataType) ->
  exists r,
    processNode node dataType = Ok r /\ r !! key = spread node !! key.
Proof.
  intros Hnode Hkey. exists (row node dataType).
  split; [apply processNode_row, Hnode|].
  destruct dataType; unfold row; simpl in Hkey;
    rewrite !lookup_insert_ne; intuition congruence.
Qed.

End DataViewerFacts.

(** *** The theorems at concrete nodes *)

Section DataViewerExamples.
Import Runtime DataViewer RowSpec.

Lemma strings_convert values :
  forallb (fun v => match ToString v with Ok _ => true | Throw _ => false end)
    values = true ->
  Forall convertible values.
Proof.
  induction values as [|v values IH]; cbn [forallb]; intros H; [constructor|].
  apply andb_prop in H as [Hv H]. constructor; [|apply IH, H].
  destruct (ToString v) as [s|] eqn:Hs; [exists s; exact Hs | discriminate].
Qed.

Lemma regular_object fields dataType :
  forallb (fun v => match ToString v with Ok _ => true | Throw _ => false end)
    (converted dataType (VObj fields)) = true ->
  regular dataType (VObj fields).
Proof.
  intros H. split; [discriminate|]. split; [discriminate|].
  apply strings_convert, H.
Qed.

(** C6, as stated, fails: a node whose customer's first name is an object
    with a member named [toString] makes [processData] throw, and so does
    a node that is [null]. *)
Lemma member_without_a_string_throws :
  processData (H := en_US_UTC) [order_with_a_strange_name] orders =
    Throw "Cannot convert object to primitive value" /\
  processData (H := en_US_UTC) [VNull] orders =
    Throw "Cannot read properties of null (reading 'totalPriceSet')".
Proof. split; vm_compute; reflexivity. Qed.

Lemma processData_takes_regular_nodes_at_1001 :
  exists rows,
    processData (H := en_US_UTC) [VObj order_1001; VObj ∅] orders = Ok rows /\
    Forall2 (fun node r => processNode (H := en_US_UTC) node orders = Ok r)
      [VObj order_1001; VObj ∅] rows.
Proof.
  apply (proj1 (@processData_takes_regular_nodes en_US_UTC
                  [VObj order_1001; VObj ∅] orders)).
  repeat apply List.Forall_cons; try apply List.Forall_nil;
    apply regular_object; vm_compute; reflexivity.
Defined.

(** C7, as stated, fails: with the money pair present and its amount
    missing, [totalPrice] is ["USD NaN"], which is neither the currency
    code followed by an amount with two decimals nor the fallback. *)
Lemma missing_amount_renders_NaN :
  exists r,
    processNode (H := en_US_UTC) (VObj order_without_amount) orders = Ok r /\
    r !! "totalPrice" = Some (VStr "USD NaN") /\
    VStr "USD NaN" <> VStr "N/A" /\
    forall amount,
      VStr "USD NaN" = VStr ("USD" +:+ " " +:+ amount) ->
      two_decimals amount = false.
Proof.
  eexists. split; [vm_compute; reflexivity|].
  split; [reflexivity|]. split; [discriminate|].
  intros amount H. cbv in H. injection H as <-. reflexivity.
Qed.

Lemma order_row_fields_at_1001 :
  exists r,
    processNode (H := en_US_UTC) (VObj order_1001) orders = Ok r /\
    r !! "totalPrice" = Some (VStr "USD 12.50") /\
    r !! "customerName" = Some (VStr "Ada Lovelace") /\
    r !! "processedAt" = Some (VStr "7/1/2024") /\
    exists amount,
      VStr "USD 12.50" = VStr ("USD" +:+ " " +:+ amount) /\
      two_decimals amount = true.
Proof.
  destruct (@order_row_fields en_US_UTC (VObj order_1001))
    as (r & Hr & Hprice & Hname & Hdate & Hshape).
  - apply regular_object. vm_compute. reflexivity.
  - exists r. split; [exact Hr|].
    split; [exact Hprice|]. split; [exact Hname|]. split; [exact Hdate|].
    apply Hshape; vm_compute; reflexivity.
Defined.

Lemma product_and_customer_rows_at_tee :
  (exists r,
     processNode (H := en_US_UTC) (VObj product_tee) products = Ok r /\
     r !! "price" = Some (VStr "EUR 19.00") /\
     r !! "updatedAt" = Some (VStr "7/2/2024")) /\
  (exists r,
     processNode (H := en_US_UTC) (VObj customer_ada) customers = Ok r /\
     r !! "amountSpent" = Some (VStr "USD 31.50")).
Proof.
  split.
  - eexists. split.
    + apply (proj1 (@product_and_customer_rows en_US_UTC (VObj product_tee))).
      apply regular_object. vm_compute. reflexivity.
    + split; vm_compute; reflexivity.
  - eexists. split.
    + apply (proj2 (@product_and_customer_rows en_US_UTC (VObj customer_ada))).
      apply regular_object. vm_compute. reflexivity.
    + vm_compute. reflexivity.
Defined.

Lemma other_fields_pass_through_at_name :
  exists r,
    processNode (H := en_US_UTC) (VObj order_1001) orders = Ok r /\
    r !! "name" = Some (VStr "#1001").
Proof.
  destruct (@other_fields_pass_through en_US_UTC (VObj order_1001) orders "name")
    as (r & Hr & Hname).
  - apply regular_object. vm_compute. reflexivity.
  - simpl. intuition discriminate.
  - exists r. split; [exact Hr | exact Hname].
Defined.

End DataViewerExamples.


(** ** The first handler: what it never does *)

Section ProxyInvariants.
Import Proxy.

#[local] Arguments QUERIES_get : simpl never.
#[local] Arguments new_Response : simpl never.
#[local] Arguments object : simpl never.
#[local] Arguments truthy : simpl never.
#[local] Arguments member_truthy : simpl never.

Lemma returns_fixed_status b s h :
  (s = 400 \/ s = 404 \/ s = 500)%Z ->
  returns answer_status
    (pure (new_Response b {| init_status := Some s; init_headers := h |})).
Proof.
  intros Hs log r log' [= E _].
  assert (status r = s) as Hst.
  { unfold new_Response in E.
    destruct Hs as [-> | [-> | ->]]; destruct b; simpl in E; simplify_eq;
      reflexivity. }
  unfold answer_status. rewrite Hst. lia.
Qed.

Lemma returns_default_status b h :
  returns answer_status
    (pure (new_Response b {| init_status := None; init_headers := h |})).
Proof.
  intros log r log' [= E _]. unfold new_Response in E.
  destruct b; simpl in E; simplify_eq; left; reflexivity.
Qed.

Lemma returns_mirrored_status up b h :
  negb (ok up) = true ->
  returns answer_status
    (pure (new_Response (Some b)
             {| init_status := Some (up_status up); init_headers := h |})).
Proof.
  intros Hok log r log' [= E _]. unfold new_Response in E. simpl in E.
  apply negb_true_iff in Hok. unfold ok in Hok.
  destruct (negb _ && negb _) eqn:Hrange; [discriminate|].
  destruct (null_body_status (up_status up)) eqn:Hnull; [discriminate|].
  simplify_eq. unfold answer_status. simpl. unfold null_body_status in Hnull.
  right. lia.
Qed.

(** The first handler answers every request with status 200 or with a
    status from 300 to 599 other than 304: never with another success
    status, and never with an upstream status that no response with a
    body may carry. *)
Theorem first_handler_statuses (be : Backend) (req : Request) :
  exists resp log,
    invoke be req = (Ok resp, log) /\
    (status resp = 200 \/ 300 <= status resp <= 599 /\ status resp <> 304)%Z.
Proof.
  unfold invoke, serve.
  destruct (bool_decide (method req = "OPTIONS")).
  { eexists _, _. split; [reflexivity|]. left. reflexivity. }
  apply (try_catch_answers answer_status).
  - repeat first
      [ apply returns_fixed_status; tauto
      | apply returns_default_status
      | apply returns_mirrored_status; assumption
      | apply returns_then; intros
      | progress cbv zeta
      | case_match ].
  - intros message log0. eexists. split; [reflexivity|].
    right. simpl. lia.
Qed.

(** On every request and backend the effects of the first handler are,
    in this order: nothing; or reading the body; or, for a request that
    passed validation, reading the body and one lookup of the store the
    body names; or those two and one outbound call, which is the call
    built from the store the lookup returned and from the selector the
    body names. It never looks up twice, never calls the upstream twice,
    never calls it before the lookup or for another store than the one
    found. *)
Theorem effects_are_a_prefix (be : Backend) (req : Request) :
  let log := (invoke be req).2 in
  log = [] \/
  log = [ReadBody] \/
  exists parsed store_id data_type,
    json req = Ok parsed /\
    destructure parsed "store_id" = Ok store_id /\
    destructure parsed "data_type" = Ok data_type /\
    accepted store_id data_type /\
    (log = [ReadBody; StoreLookup store_id] \/
     exists store,
       single be store_id = Ok (Some store, None) /\
       log = [ReadBody; StoreLookup store_id;
              Outbound (outbound store data_type)]).
Proof. exact (effects_in_order be req). Qed.

End ProxyInvariants.

(** ** The second handler *)

Section Proxy2Facts.
Import Runtime Proxy.
Context `{serializer : Serializer}.

#[local] Arguments QUERIES_get : simpl never.
#[local] Arguments Proxy2.QUERIES_get : simpl never.
#[local] Arguments Proxy2.new_Response : simpl never.
#[local] Arguments new_Response : simpl never.
#[local] Arguments object : simpl never.
#[local] Arguments truthy : simpl never.
#[local] Arguments member_truthy : simpl never.

Lemma returns_throw {A : Type} (P : A -> Prop) message :
  returns P (pure (Throw message)).
Proof. intros log a log' [=]. Qed.

Lemma returns_json_response2 b s :
  (s = 200 \/ s = 404 \/ s = 500)%Z ->
  returns answer2
    (pure (Proxy2.new_Response b
             {| init_status := Some s; init_headers := json_headers |})).
Proof.
  intros Hs log r log' [= E _].
  assert (Proxy2.headers r = json_headers /\ Proxy2.status r = s) as [Hh Hst].
  { unfold Proxy2.new_Response in E. rewrite response_headers_json in E.
    destruct Hs as [-> | [-> | ->]]; destruct b; simpl in E; simplify_eq;
      split; reflexivity. }
  split; [rewrite Hh; apply cors_in_json_headers | rewrite Hst; exact Hs].
Qed.

Lemma cors_in_text_headers :
  corsHeaders ⊆ <["content-type" := "text/plain;charset=UTF-8"]> corsHeaders.
Proof. apply insert_subseteq. reflexivity. Qed.

Lemma preflight_answer :
  Proxy2.new_Response (Some (Proxy2.Text "ok"))
    {| init_status := None; init_headers := corsHeaders |} =
  Ok {| Proxy2.status := 200;
        Proxy2.headers :=
          <["content-type" := "text/plain;charset=UTF-8"]> corsHeaders;
        Proxy2.body := Some (Proxy2.Text "ok") |}.
Proof.
  unfold Proxy2.new_Response, response_headers. simpl.
  replace (has_header corsHeaders "content-type") with false
    by (vm_compute; reflexivity).
  reflexivity.
Qed.

(** A key that is looked up has a string. *)
Lemma looked_up_converts k found :
  Proxy2.QUERIES_get k = Ok found -> exists shown, ToString k = Ok shown.
Proof.
  unfold Proxy2.QUERIES_get. destruct (ToString k) as [shown|]; [|discriminate].
  intros _. exists shown. reflexivity.
Qed.

Lemma outbound2_found store data_type found :
  Proxy2.QUERIES_get data_type = Ok found ->
  {| url := "https://" +:+ shopify_domain store +:+
            "/admin/api/2024-07/graphql.json";
     fetch_method := "POST";
     fetch_headers :=
       <["Content-Type" := "application/json"]>
       (<["X-Shopify-Access-Token" := api_access_token store]> ∅);
     query := found |} = outbound2 store data_type.
Proof. intros H. unfold outbound2. rewrite H. reflexivity. Qed.

Lemma try_catch_returns {A : Type} (P : A -> Prop) (m : M A)
    (handler : string -> M A) (log : list event) :
  returns P m ->
  (forall message log0, exists r, handler message log0 = (Ok r, log0) /\ P r) ->
  exists a log', try_catch m handler log = (Ok a, log') /\ P a.
Proof.
  intros Hm Hh. unfold try_catch.
  destruct (m log) as [[r|message] log0] eqn:E.
  - exists r, log0. split; [reflexivity | exact (Hm _ _ _ E)].
  - destruct (Hh message log0) as (r & -> & HP). eauto.
Qed.

(** The second handler always answers, on every path with the permissive
    cross-origin headers, and with one of three statuses: 200, 404 or 500,
    never 400 and never the upstream's own. A preflight is answered with
    status 200 and the text [ok], before the body is read; the response
    carries the content type of a text beside the cross-origin headers. *)
Theorem second_handler_always_answers (be : Backend) (req : Request) :
  (exists resp log,
     Proxy2.invoke be req = (Ok resp, log) /\
     corsHeaders ⊆ Proxy2.headers resp /\
     (Proxy2.status resp = 200 \/ Proxy2.status resp = 404 \/
      Proxy2.status resp = 500)%Z) /\
  (forall b, Proxy2.invoke be {| method := "OPTIONS"; json := b |} =
             (Ok {| Proxy2.status := 200;
                    Proxy2.headers :=
                      <["content-type" := "text/plain;charset=UTF-8"]>
                        corsHeaders;
                    Proxy2.body := Some (Proxy2.Text "ok") |}, [])).
Proof.
  split.
  2:{ intros b. unfold Proxy2.invoke, Proxy2.serve, pure.
      cbn [method bool_decide decide_rel]. rewrite bool_decide_eq_true_2 by reflexivity.
      rewrite preflight_answer. reflexivity. }
  unfold Proxy2.invoke, Proxy2.serve.
  destruct (bool_decide (method req = "OPTIONS")).
  { unfold pure. rewrite preflight_answer. eexists _, _.
    split; [reflexivity|].
    split; [apply cors_in_text_headers | left; reflexivity]. }
  apply (try_catch_returns answer2).
  - repeat first
      [ apply returns_throw
      | apply returns_json_response2; tauto
      | apply returns_then; intros
      | progress cbv zeta
      | case_match ].
  - intros message log0. eexists. split; [reflexivity|].
    split; [apply cors_in_json_headers | right; right; reflexivity].
Qed.

(** Where the first handler answers 400, the second throws: a request
    whose [store_id] or [data_type] is absent or falsy, or whose
    [data_type] names no member of the catalog, or has no string to name
    one with, is answered with status 500 and the thrown message as
    [error], with only the body read. *)
Theorem second_handler_throws_on_validation (be : Backend) (m : string)
    (fields : gmap string value) :
  let store_id := field fields "store_id" in
  let data_type := field fields "data_type" in
  m <> "OPTIONS" ->
  truthy store_id = false \/
  truthy data_type = false \/
  Proxy2.QUERIES_get data_type = Ok Missing \/
  (exists message, Proxy2.QUERIES_get data_type = Throw message) ->
  Proxy2.invoke be (request m fields) =
    (Ok (thrown
           (if truthy store_id && truthy data_type then
              match ToString data_type with
              | Ok shown => "Invalid data_type specified: " +:+ shown
              | Throw message => message
              end
            else "Missing required fields: store_id and data_type.")),
     [ReadBody]).
Proof.
  intros store_id data_type Hm H. run_handler2.
  rewrite bool_decide_eq_false_2 by assumption.
  fold (field fields "store_id") (field fields "data_type").
  fold store_id data_type.
  destruct (truthy store_id) eqn:Hs;
    [destruct (truthy data_type) eqn:Ht|]; cbn.
  - destruct H as [H|[H|[H|[message H]]]]; try discriminate.
    + rewrite H. cbn. destruct (looked_up_converts _ _ H) as [shown ->].
      reflexivity.
    + rewrite H. unfold Proxy2.QUERIES_get in H.
      destruct (ToString data_type); [discriminate|].
      injection H as ->. reflexivity.
  - reflexivity.
  - reflexivity.
Qed.

(** An unknown store is the one failure the second handler does not
    throw: when the id has a string, the answer is status 404, the id in
    the message, after the lookup and with no outbound call. *)
Theorem second_handler_unknown_store (be : Backend) (m : string)
    (fields : gmap string value) (store_id data_type : value)
    (shown : string) (data : option Store) (error : option string) :
  m <> "OPTIONS" ->
  fields !! "store_id" = Some store_id ->
  fields !! "data_type" = Some data_type ->
  accepted2 store_id data_type ->
  ToString store_id = Ok shown ->
  createClient be = Ok tt ->
  single be store_id = Ok (data, error) ->
  data = None \/ is_Some error ->
  Proxy2.invoke be (request m fields) =
    (Ok (json_response2 404
           (object [("error", VStr ("Store with ID " +:+ shown +:+
                                    " not found."))])),
     [ReadBody; StoreLookup store_id]).
Proof.
  intros Hm Hid Hdt (Hs & Ht & found & Hq & Hfound) Hshown Hclient Hsingle Hnone.
  run_handler2. rewrite bool_decide_eq_false_2 by assumption.
  rewrite Hid, Hdt. cbn. rewrite Hs, Ht. cbn. rewrite !Hq. cbn.
  rewrite Hfound, Hclient. cbn. rewrite !Hshown. cbn. rewrite Hsingle.
  destruct Hnone as [-> | [e ->]]; [|destruct data]; cbn;
    rewrite ?Hshown; reflexivity.
Qed.

(** When the upstream answers with a status that is no success, the
    second handler answers 500, whatever that status was: the status and
    the raw body of the upstream stand in the message only. *)
Theorem second_handler_hides_upstream_status (be : Backend) (m : string)
    (fields : gmap string value) (store_id data_type : value)
    (shown : string) (store : Store) (up : FetchResponse) (raw : string) :
  m <> "OPTIONS" ->
  fields !! "store_id" = Some store_id ->
  fields !! "data_type" = Some data_type ->
  accepted2 store_id data_type ->
  ToString store_id = Ok shown ->
  createClient be = Ok tt ->
  single be store_id = Ok (Some store, None) ->
  fetch be (outbound2 store data_type) = Ok up ->
  ok up = false ->
  up_text up = Ok raw ->
  Proxy2.invoke be (request m fields) =
    (Ok (thrown ("Shopify API failed with status " +:+ pretty (up_status up) +:+
                 ": " +:+ raw)),
     [ReadBody; StoreLookup store_id; Outbound (outbound2 store data_type)]).
Proof.
  intros Hm Hid Hdt (Hs & Ht & found & Hq & Hfound) Hshown Hclient Hsingle
    Hfetch Hok Htext.
  destruct (looked_up_converts _ _ Hq) as [named Hnamed].
  run_handler2. rewrite bool_decide_eq_false_2 by assumption.
  rewrite Hid, Hdt. cbn. rewrite Hs, Ht. cbn. rewrite !Hq. cbn.
  rewrite Hfound, Hclient. cbn. rewrite !Hshown. cbn. rewrite Hsingle.
  rewrite Hnamed. cbn.
  rewrite (outbound2_found store _ _ Hq). rewrite Hfetch, Hok. cbn.
  rewrite Htext. reflexivity.
Qed.

(** A payload with a truthy [errors] member is answered with status 500
    and the JSON text of the errors in the message. *)
Theorem second_handler_throws_graphql_errors (be : Backend) (m : string)
    (fields : gmap string value) (store_id data_type : value)
    (shown : string) (store : Store) (up : FetchResponse)
    (payload : gmap string value) (errors : value) :
  m <> "OPTIONS" ->
  fields !! "store_id" = Some store_id ->
  fields !! "data_type" = Some data_type ->
  accepted2 store_id data_type ->
  ToString store_id = Ok shown ->
  createClient be = Ok tt ->
  single be store_id = Ok (Some store, None) ->
  fetch be (outbound2 store data_type) = Ok up ->
  ok up = true ->
  up_json up = Ok (VObj payload) ->
  payload !! "errors" = Some errors ->
  truthy errors = true ->
  Proxy2.invoke be (request m fields) =
    (Ok (thrown ("GraphQL error: " +:+ JSON_stringify errors)),
     [ReadBody; StoreLookup store_id; Outbound (outbound2 store data_type)]).
Proof.
  intros Hm Hid Hdt (Hs & Ht & found & Hq & Hfound) Hshown Hclient Hsingle
    Hfetch Hok Hjson He Herrors.
  destruct (looked_up_converts _ _ Hq) as [named Hnamed].
  run_handler2. rewrite bool_decide_eq_false_2 by assumption.
  rewrite Hid, Hdt. cbn. rewrite Hs, Ht. cbn. rewrite !Hq. cbn.
  rewrite Hfound, Hclient. cbn. rewrite !Hshown. cbn. rewrite Hsingle.
  rewrite Hnamed. cbn.
  rewrite (outbound2_found store _ _ Hq). rewrite Hfetch, Hok. cbn.
  rewrite Hjson. cbn. rewrite He. cbn. rewrite Herrors. reflexivity.
Qed.

(** On success the second handler answers with the [data] member of the
    payload and not with the payload; with a null body when the payload
    has no such member. *)
Theorem second_handler_returns_the_data_member (be : Backend) (m : string)
    (fields : gmap string value) (store_id data_type : value)
    (shown : string) (store : Store) (up : FetchResponse)
    (payload : gmap string value) :
  m <> "OPTIONS" ->
  fields !! "store_id" = Some store_id ->
  fields !! "data_type" = Some data_type ->
  accepted2 store_id data_type ->
  ToString store_id = Ok shown ->
  createClient be = Ok tt ->
  single be store_id = Ok (Some store, None) ->
  fetch be (outbound2 store data_type) = Ok up ->
  ok up = true ->
  up_json up = Ok (VObj payload) ->
  truthy (field payload "errors") = false ->
  Proxy2.invoke be (request m fields) =
    (Ok {| Proxy2.status := 200; Proxy2.headers := json_headers;
           Proxy2.body := Proxy2.stringified (field payload "data") |},
     [ReadBody; StoreLookup store_id; Outbound (outbound2 store data_type)]).
Proof.
  intros Hm Hid Hdt (Hs & Ht & found & Hq & Hfound) Hshown Hclient Hsingle
    Hfetch Hok Hjson Herrors.
  destruct (looked_up_converts _ _ Hq) as [named Hnamed].
  run_handler2. rewrite bool_decide_eq_false_2 by assumption.
  rewrite Hid, Hdt. cbn. rewrite Hs, Ht. cbn. rewrite !Hq. cbn.
  rewrite Hfound, Hclient. cbn. rewrite !Hshown. cbn. rewrite Hsingle.
  rewrite Hnamed. cbn.
  rewrite (outbound2_found store _ _ Hq). rewrite Hfetch, Hok. cbn.
  rewrite Hjson. cbn. fold (field payload "errors"). rewrite Herrors.
  fold (field payload "data").
  unfold Proxy2.new_Response. rewrite response_headers_json.
  destruct (field payload "data"); reflexivity.
Qed.

(** The two catalogs have the same keys, and throw on the same. *)
Lemma catalogs_agree (k : value) :
  match Proxy2.QUERIES_get k, QUERIES_get k with
  | Ok found2, Ok found => member_truthy found2 = member_truthy found
  | Throw message2, Throw message => message2 = message
  | _, _ => False
  end.
Proof.
  unfold Proxy2.QUERIES_get, QUERIES_get.
  destruct (ToString k) as [key|]; [|reflexivity]. cbn [bind].
  destruct (decide (key = "orders")) as [->|H1]; [reflexivity|].
  destruct (decide (key = "products")) as [->|H2]; [reflexivity|].
  destruct (decide (key = "customers")) as [->|H3]; [reflexivity|].
  unfold Proxy2.QUERIES, QUERIES.
  rewrite !lookup_insert_ne, !lookup_empty by congruence. reflexivity.
Qed.

(** The effects of the two handlers, side by side: the same, or the
    second handler stopped after reading the body because [store_id] has
    no string to print. *)
Lemma effects_compared (be : Backend) (req : Request) :
  (exists parsed store_id message,
     json req = Ok parsed /\
     destructure parsed "store_id" = Ok store_id /\
     ToString store_id = Throw message /\
     List.map without_query (Proxy2.invoke be req).2 = [ReadBody] /\
     exists rest,
       List.map without_query (invoke be req).2 = ReadBody :: rest) \/
  List.map without_query (Proxy2.invoke be req).2 =
  List.map without_query (invoke be req).2.
Proof.
  unfold Proxy2.invoke, Proxy2.serve, invoke, serve.
  destruct (bool_decide (method req = "OPTIONS")); [right; reflexivity|].
  unfold try_catch, then_, perform, pure. cbn.
  destruct (json req) as [parsed|] eqn:Hbody; [|right; reflexivity]. cbn.
  destruct (destructure parsed "store_id") as [store_id|] eqn:Hsid;
    [|right; reflexivity]. cbn.
  destruct (destructure parsed "data_type") as [data_type|];
    [|right; reflexivity]. cbn.
  destruct (negb (truthy store_id) || negb (truthy data_type));
    [right; reflexivity|].
  pose proof (catalogs_agree data_type) as Hagree.
  destruct (Proxy2.QUERIES_get data_type) as [found2|] eqn:Hq2;
    destruct (QUERIES_get data_type) as [found|] eqn:Hq;
    try contradiction; cbn; [|right; reflexivity].
  rewrite Hagree.
  destruct (negb (member_truthy found)).
  { right. destruct (ToString data_type); reflexivity. }
  destruct (createClient be); [|right; reflexivity]. cbn.
  destruct (ToString store_id) as [shown|message] eqn:Hshown; cbn.
  - right.
    destruct (single be store_id) as [[[store|] [e|]]|]; try reflexivity.
    cbn. destruct (looked_up_converts _ _ Hq2) as [named ->]. cbn.
    transitivity
      [ReadBody; StoreLookup store_id;
       without_query (Outbound (outbound store data_type))].
    + rewrite (outbound2_found store _ _ Hq2).
      destruct (fetch be (outbound2 store data_type)) as [up|]; [|reflexivity].
      repeat (case_match; simpl in *; simplify_eq); reflexivity.
    + rewrite (outbound_found store _ _ Hq).
      destruct (fetch be (outbound store data_type)) as [up|]; [|reflexivity].
      repeat (case_match; simpl in *; simplify_eq); reflexivity.
  - left. exists parsed, store_id, message.
    split; [reflexivity|]. split; [exact Hsid|]. split; [exact Hshown|].
    split; [reflexivity|].
    destruct (single be store_id) as [[[store|] [e|]]|];
      try (eexists; reflexivity).
    cbn. rewrite (outbound_found store _ _ Hq).
    destruct (fetch be (outbound store data_type)) as [up|];
      [|eexists; reflexivity].
    repeat (case_match; simpl in *; simplify_eq); eexists; reflexivity.
Qed.

(** The two handlers perform the same effects in the same order: they
    read the body, look up the store and call the upstream under the same
    conditions, the calls differing in the query text alone; but for a
    [store_id] that has no string, which the second handler prints before
    the lookup and so stops at, where the first goes on. So the effects
    of the second are always a prefix of those of the first, and the same
    whenever the [store_id] of the body has a string. *)
Theorem handlers_perform_the_same_effects (be : Backend) (req : Request) :
  List.map without_query (Proxy2.invoke be req).2 `prefix_of`
    List.map without_query (invoke be req).2 /\
  ((forall parsed store_id,
      json req = Ok parsed ->
      destructure parsed "store_id" = Ok store_id ->
      convertible store_id) ->
   List.map without_query (Proxy2.invoke be req).2 =
   List.map without_query (invoke be req).2).
Proof.
  destruct (effects_compared be req)
    as [(parsed & store_id & message & Hbody & Hsid & Hthrow & -> & rest & ->)
       | ->].
  - split.
    + exists rest. reflexivity.
    + intros H. destruct (H _ _ Hbody Hsid) as [shown Hshown]. congruence.
  - split; [reflexivity | intros _; reflexivity].
Qed.

End Proxy2Facts.

(** *** The theorems above at concrete requests *)

Section Proxy2Examples.
Import Runtime Proxy.

Lemma second_handler_throws_on_validation_at_refunds :
  Proxy2.invoke (H := json_text) (backend (Ok success))
      (post (VNum (num 1)) (VStr "refunds")) =
    (Ok (thrown "Invalid data_type specified: refunds"), [ReadBody]) /\
  Proxy2.invoke (H := json_text) (backend (Ok success))
      (post (VNum (num 1)) (VStr "__proto__")) =
    (Ok (thrown "Invalid data_type specified: __proto__"), [ReadBody]) /\
  Proxy2.invoke (H := json_text) (backend (Ok success))
      (post (VNum (num 1)) (object [("toString", VNum (num 1))])) =
    (Ok (thrown "Cannot convert object to primitive value"), [ReadBody]) /\
  Proxy2.invoke (H := json_text) (backend (Ok success))
      (request "POST" {[ "store_id" := VNum (num 1) ]}) =
    (Ok (thrown "Missing required fields: store_id and data_type."), [ReadBody]).
Proof.
  split; [|split; [|split]].
  - etransitivity.
    + apply (second_handler_throws_on_validation (serializer := json_text)
               (backend (Ok success)) "POST"); [discriminate|].
      right. right. left. vm_compute. reflexivity.
    + vm_compute. reflexivity.
  - etransitivity.
    + apply (second_handler_throws_on_validation (serializer := json_text)
               (backend (Ok success)) "POST"); [discriminate|].
      right. right. left. vm_compute. reflexivity.
    + vm_compute. reflexivity.
  - etransitivity.
    + apply (second_handler_throws_on_validation (serializer := json_text)
               (backend (Ok success)) "POST"); [discriminate|].
      right. right. right. eexists. vm_compute. reflexivity.
    + vm_compute. reflexivity.
  - etransitivity.
    + apply (second_handler_throws_on_validation (serializer := json_text)
               (backend (Ok success)) "POST"); [discriminate|].
      right. left. vm_compute. reflexivity.
    + vm_compute. reflexivity.
Defined.

Lemma second_handler_unknown_store_at_7 :
  Proxy2.invoke (H := json_text) (backend (Ok success))
      (post (VNum (num 7)) (VStr "products")) =
    (Ok (json_response2 404
           (object [("error", VStr "Store with ID 7 not found.")])),
     [ReadBody; StoreLookup (VNum (num 7))]).
Proof.
  apply (second_handler_unknown_store (serializer := json_text)
           (backend (Ok success)) "POST" _ (VNum (num 7)) (VStr "products")
           "7" None
           (Some "JSON object requested, multiple (or no) rows returned")).
  - discriminate.
  - reflexivity.
  - reflexivity.
  - split; [reflexivity|]. split; [reflexivity|]. eexists. split; reflexivity.
  - vm_compute. reflexivity.
  - reflexivity.
  - vm_compute. reflexivity.
  - left. reflexivity.
Defined.

Lemma second_handler_hides_upstream_status_at_401 :
  Proxy2.invoke (H := json_text) (backend (Ok unauthorized))
      (post (VNum (num 1)) (VStr "orders")) =
    (Ok (thrown ("Shopify API failed with status " +:+ pretty 401%Z +:+ ": " +:+
                 "[API] Invalid API key or access token")),
     [ReadBody; StoreLookup (VNum (num 1));
      Outbound (outbound2 shop (VStr "orders"))]) /\
  pretty 401%Z = "401".
Proof.
  split; [|reflexivity].
  apply (second_handler_hides_upstream_status (serializer := json_text)
           (backend (Ok unauthorized)) "POST" _
           (VNum (num 1)) (VStr "orders") "1" shop unauthorized
           "[API] Invalid API key or access token").
  - discriminate.
  - reflexivity.
  - reflexivity.
  - split; [reflexivity|]. split; [reflexivity|]. eexists. split; reflexivity.
  - vm_compute. reflexivity.
  - reflexivity.
  - vm_compute. reflexivity.
  - reflexivity.
  - reflexivity.
  - reflexivity.
Defined.

Lemma second_handler_throws_graphql_errors_at_one_error :
  let errors :=
    VArr [object [("message", VStr "Field 'nam' doesn't exist on type 'Order'")]] in
  Proxy2.invoke (H := json_text) (backend (Ok graphql_failure))
      (post (VNum (num 1)) (VStr "orders")) =
    (Ok (thrown ("GraphQL error: " +:+ json_text errors)),
     [ReadBody; StoreLookup (VNum (num 1));
      Outbound (outbound2 shop (VStr "orders"))]) /\
  json_text errors =
    "[{" +:+ quoted "message" +:+ ":" +:+
    quoted "Field 'nam' doesn't exist on type 'Order'" +:+ "}]".
Proof.
  intros errors. split; [|vm_compute; reflexivity].
  apply (second_handler_throws_graphql_errors (serializer := json_text)
           (backend (Ok graphql_failure)) "POST" _
           (VNum (num 1)) (VStr "orders") "1" shop graphql_failure
           (<["errors" := errors]> ∅) errors).
  - discriminate.
  - reflexivity.
  - reflexivity.
  - split; [reflexivity|]. split; [reflexivity|]. eexists. split; reflexivity.
  - vm_compute. reflexivity.
  - reflexivity.
  - vm_compute. reflexivity.
  - reflexivity.
  - reflexivity.
  - reflexivity.
  - reflexivity.
  - reflexivity.
Defined.

Lemma second_handler_returns_the_data_member_at_orders :
  Proxy2.invoke (H := json_text) (backend (Ok success))
      (post (VNum (num 1)) (VStr "orders")) =
    (Ok (json_response2 200 (object [("orders", object [("edges", VArr [])])])),
     [ReadBody; StoreLookup (VNum (num 1));
      Outbound (outbound2 shop (VStr "orders"))]).
Proof.
  unfold post. etransitivity.
  - apply (second_handler_returns_the_data_member (serializer := json_text)
             (backend (Ok success)) "POST" _
             (VNum (num 1)) (VStr "orders") "1" shop success
             (<["data" := object [("orders", object [("edges", VArr [])])]]> ∅)).
    + discriminate.
    + reflexivity.
    + reflexivity.
    + split; [reflexivity|]. split; [reflexivity|]. eexists. split; reflexivity.
    + vm_compute. reflexivity.
    + reflexivity.
    + vm_compute. reflexivity.
    + reflexivity.
    + reflexivity.
    + reflexivity.
    + reflexivity.
  - reflexivity.
Defined.

(** The same effects, at a request for the orders of store 1. *)
Lemma handlers_perform_the_same_effects_at_orders :
  List.map without_query
    (Proxy2.invoke (H := json_text) (backend (Ok success))
       (post (VNum (num 1)) (VStr "orders"))).2 =
  List.map without_query
    (invoke (backend (Ok success)) (post (VNum (num 1)) (VStr "orders"))).2.
Proof.
  apply (proj2 (handlers_perform_the_same_effects (serializer := json_text)
                  (backend (Ok success))
                  (post (VNum (num 1)) (VStr "orders")))).
  intros parsed store_id Hbody Hsid.
  injection Hbody as <-. vm_compute in Hsid. injection Hsid as <-.
  exists "1". vm_compute. reflexivity.
Defined.

(** Other effects, at a store id with no string: the second handler stops
    where it prints the id, the first goes on to the lookup. *)
Lemma handlers_part_on_a_store_id_with_no_string :
  let store_id := object [("toString", VNum (num 1))] in
  (Proxy2.invoke (H := json_text) (backend (Ok success))
     (post store_id (VStr "orders"))).2 = [ReadBody] /\
  (invoke (backend (Ok success)) (post store_id (VStr "orders"))).2 =
    [ReadBody; StoreLookup store_id].
Proof. split; vm_compute; reflexivity. Qed.

End Proxy2Examples.


(** ** The table *)

Section DataTableFacts.
Import Runtime DataViewer RowSpec DataTable Viewer.
Context `{host : Host} `{format : NumberFormat}.

Lemma startsWith_includes s p : startsWith s p = true -> includes s p = true.
Proof.
  intros H. destruct s as [|c s].
  - change (includes "" p) with (startsWith "" p || false). rewrite H. reflexivity.
  - change (includes (String c s) p)
      with (startsWith (String c s) p || includes s p).
    rewrite H. reflexivity.
Qed.

(** A string that starts with [a ++ b] includes [b]. *)
Lemma startsWith_app_includes a b s :
  startsWith s (a +:+ b) = true -> includes s b = true.
Proof.
  revert s. induction a as [|c a IH]; intros s H.
  - apply startsWith_includes. exact H.
  - destruct s as [|c' s]; [discriminate|].
    change (String c a +:+ b) with (String c (a +:+ b)) in H.
    simpl in H. destruct (Ascii.eqb c c'); [|discriminate].
    apply includes_tail, IH, H.
Qed.

Lemma includes_app_r a b s :
  includes s (a +:+ b) = true -> includes s b = true.
Proof.
  induction s as [|c s IH]; intros H.
  - apply (startsWith_app_includes a). simpl in H.
    rewrite orb_false_r in H. exact H.
  - change (startsWith (String c s) (a +:+ b) || includes s (a +:+ b) = true) in H.
    apply orb_true_iff in H as [H|H].
    + exact (startsWith_app_includes a b _ H).
    + apply includes_tail, IH, H.
Qed.

(** A status that includes "unfulfilled", in any case, includes
    "fulfilled": the first test of [getStatusVariant] takes it, and its
    badge is the default one, the badge of "fulfilled". The test for
    "unfulfilled" in the second line never decides. *)
Theorem unfulfilled_is_shown_as_fulfilled (status : string) :
  includes (toLowerCase status) "unfulfilled" = true ->
  getStatusVariant status = "default" /\
  getStatusVariant status = getStatusVariant "fulfilled" /\
  getStatusVariant status <> "secondary".
Proof.
  intros H. apply (includes_app_r "un" "fulfilled") in H.
  assert (getStatusVariant status = "default") as ->.
  { unfold getStatusVariant. cbv zeta. rewrite H, orb_true_r. reflexivity. }
  split; [reflexivity|]. split; [reflexivity | discriminate].
Qed.

Lemma length_take_chars n s :
  String.length (take_chars n s) = Nat.min n (String.length s).
Proof.
  unfold take_chars. revert s. induction n as [|n IH]; intros [|c s]; simpl;
    try reflexivity.
  rewrite IH. reflexivity.
Qed.

Lemma length_app (s t : string) :
  String.length (s +:+ t) = String.length s + String.length t.
Proof.
  induction s as [|c s IH]; [reflexivity|].
  change (String c s +:+ t) with (String c (s +:+ t)). simpl. rewrite IH.
  reflexivity.
Qed.

(** Under a key that is no status key a string is shown as it is when it
    has at most 50 code units, and otherwise as its first 47 followed by
    three dots: the text of such a cell never has more than 50. *)
Theorem long_strings_are_cut_to_50 (s key : string) :
  is_status_key key = false ->
  exists text,
    formatCellValue (VStr s) key = Ok (Plain text) /\
    String.length text <= 50 /\
    (String.length s <= 50 -> text = s) /\
    (50 < String.length s ->
     text = take_chars 47 s +:+ "..." /\ String.length text = 50).
Proof.
  intros Hkey. unfold formatCellValue. unfold is_status_key in Hkey.
  rewrite Hkey. destruct (Nat.ltb_spec 50 (String.length s)) as [Hlong|Hshort].
  - eexists. split; [reflexivity|].
    assert (String.length (take_chars 47 s +:+ "...") = 50) as Hlen.
    { rewrite length_app, length_take_chars.
      change (String.length "...") with 3. lia. }
    split; [rewrite Hlen; lia|]. split; [lia|]. intros _. split; [reflexivity | exact Hlen].
  - exists s. split; [reflexivity|]. split; [lia|]. split; [reflexivity | lia].
Qed.

(** A value that has a string is shown as a text under a key that is no
    status key, and formatting any other value throws. *)
Lemma plain_cell v key :
  is_status_key key = false -> convertible v ->
  exists text, formatCellValue v key = Ok (Plain text).
Proof.
  intros Hkey [s Hs]. unfold formatCellValue. unfold is_status_key in Hkey.
  rewrite Hkey. destruct v; try rewrite Hs; try (eexists; reflexivity).
  destruct (_ <? _)%nat; eexists; reflexivity.
Qed.

Lemma cell_throws v key :
  is_status_key key = false -> ~ convertible v ->
  exists message, formatCellValue v key = Throw message.
Proof.
  intros Hkey Hv. unfold formatCellValue. unfold is_status_key in Hkey.
  rewrite Hkey.
  destruct v; try (destruct Hv; eexists; reflexivity);
    match goal with
    | |- context [ToString ?v] =>
        destruct (ToString v) as [s|message] eqn:Hs;
          [destruct Hv; exists s; exact Hs | exists message; reflexivity]
    end.
Qed.

Lemma present_is_there v w : present v = Some w -> w <> VNull /\ w <> VUndefined.
Proof.
  unfold present. destruct (truthy v) eqn:E; [|discriminate].
  intros [= <-]. split; intros ->; discriminate.
Qed.

Lemma text_is_there v key :
  (exists s, v = VStr s) ->
  v <> VNull /\ v <> VUndefined /\ (key <> "customerName" -> exists s, v = VStr s).
Proof. intros [s ->]. repeat split; try discriminate. eauto. Qed.

Lemma money_or_NA_is_text pair : exists s, money_or_NA pair = VStr s.
Proof. unfold money_or_NA. destruct (present pair); eexists; reflexivity. Qed.

Lemma date_or_NA_is_text timestamp :
  exists s, RowSpec.date_or_NA timestamp = VStr s.
Proof.
  unfold RowSpec.date_or_NA. destruct (present timestamp); eexists; reflexivity.
Qed.

Lemma customer_name_is_there c :
  customer_name c <> VNull /\ customer_name c <> VUndefined /\
  ("customerName" <> "customerName" -> exists s, customer_name c = VStr s).
Proof.
  split; [|split; [|intros []; reflexivity]];
    unfold customer_name; (destruct (present c); [|discriminate]);
    (destruct (trim _); [|discriminate]);
    (destruct (present (prop v "email")) eqn:E; [|discriminate]);
    apply (present_is_there _ _ E).
Qed.

(** The fields [processData] computes for a regular node are always
    there, and are texts, but for a customer name that is the email as it
    came. A cell whose value has a string is shown as a text: it is never
    the dash that stands for a missing value and never a badge, and
    formatting it does not throw. Formatting any other throws. *)
Theorem derived_cells_are_plain_text (node : value)
    (dataType : DataType) (key : string) :
  regular dataType node ->
  In key (derived_fields dataType) ->
  exists r v,
    processNode node dataType = Ok r /\
    r !! key = Some v /\
    v <> VNull /\ v <> VUndefined /\
    (key <> "customerName" -> exists s, v = VStr s) /\
    (convertible v -> exists text, formatCellValue v key = Ok (Plain text)) /\
    (~ convertible v -> exists message, formatCellValue v key = Throw message).
Proof.
  intros Hnode Hkey. exists (row node dataType).
  assert (exists v, row node dataType !! key = Some v /\
                    v <> VNull /\ v <> VUndefined /\
                    (key <> "customerName" -> exists s, v = VStr s))
    as (v & Hv & Hn & Hu & Htext).
  { destruct dataType; simpl in Hkey; unfold row;
      repeat (destruct Hkey as [<- | Hkey]; [|]); try contradiction;
      eexists; (split; [simplify_map_eq; reflexivity|]);
      first [ apply text_is_there, money_or_NA_is_text
            | apply text_is_there, date_or_NA_is_text
            | apply customer_name_is_there ]. }
  assert (is_status_key key = false) as Hplain.
  { destruct dataType; simpl in Hkey;
      repeat (destruct Hkey as [<- | Hkey]; [reflexivity|]); contradiction. }
  exists v. split; [apply processNode_row, Hnode|].
  split; [exact Hv|]. split; [exact Hn|]. split; [exact Hu|].
  split; [exact Htext|].
  split; [apply plain_cell, Hplain | apply cell_throws, Hplain].
Qed.


(** Under a status key a value that is there and is no string (a number,
    a boolean, an array, an object) has no [toLowerCase]: formatting the
    cell throws. *)
Theorem status_that_is_no_string_throws (v : value) (key : string) :
  is_status_key key = true ->
  ~ text_or_absent v ->
  exists message, formatCellValue v key = Throw message.
Proof.
  intros Hkey Hv. unfold formatCellValue. unfold is_status_key in Hkey.
  rewrite Hkey. destruct v; simpl in Hv; try tauto; eexists; reflexivity.
Qed.





End DataTableFacts.

(** *** The theorems above at concrete cells *)

Section DataTableExamples.
Import Runtime DataViewer RowSpec DataTable Viewer.

Lemma unfulfilled_is_shown_as_fulfilled_at_UNFULFILLED :
  getStatusVariant "UNFULFILLED" = "default" /\
  getStatusVariant "UNFULFILLED" = getStatusVariant "fulfilled" /\
  getStatusVariant "UNFULFILLED" <> "secondary".
Proof.
  apply (unfulfilled_is_shown_as_fulfilled "UNFULFILLED"). reflexivity.
Defined.

Lemma long_strings_are_cut_to_50_at_a_title :
  String.length long_title = 60 /\
  formatCellValue (H := plain_numbers) (VStr long_title) "title" =
    Ok (Plain "Organic cotton crew neck t-shirt with embroider...").
Proof.
  split; [reflexivity|].
  destruct (long_strings_are_cut_to_50 (format := plain_numbers)
              long_title "title" eq_refl) as (text & Hcell & _ & _ & Hlong).
  destruct Hlong as [Htext _]; [vm_compute; lia|].
  rewrite Hcell, Htext. reflexivity.
Defined.

Lemma derived_cells_are_plain_text_at_totalPrice :
  exists r s text,
    processNode (H := en_US_UTC) (VObj order_1001) orders = Ok r /\
    r !! "totalPrice" = Some (VStr s) /\
    formatCellValue (H := plain_numbers) (VStr s) "totalPrice" =
      Ok (Plain text).
Proof.
  destruct (derived_cells_are_plain_text (host := en_US_UTC)
              (format := plain_numbers) (VObj order_1001) orders "totalPrice")
    as (r & v & Hr & Hv & _ & _ & Htext & Hshown & _).
  - apply regular_object. vm_compute. reflexivity.
  - left. reflexivity.
  - destruct Htext as [s ->]; [discriminate|].
    destruct Hshown as [text Htext]; [eexists; reflexivity|].
    exists r, s, text. split; [exact Hr|]. split; [exact Hv | exact Htext].
Defined.

Lemma status_that_is_no_string_throws_at_a_number :
  exists message,
    formatCellValue (H := plain_numbers) (VNum (num 1)) "status" = Throw message.
Proof.
  apply (status_that_is_no_string_throws (format := plain_numbers)
           (VNum (num 1)) "status").
  - reflexivity.
  - intros H. exact H.
Defined.

End DataTableExamples.


(** ** The viewer *)

Section ViewerFacts.
Import Runtime Proxy DataViewer RowSpec DataTable Viewer.
Context `{host : Host} `{format : NumberFormat} `{serializer : Serializer}.

#[local] Arguments QUERIES_get : simpl never.
#[local] Arguments Proxy2.QUERIES_get : simpl never.
#[local] Arguments Proxy2.new_Response : simpl never.
#[local] Arguments new_Response : simpl never.
#[local] Arguments object : simpl never.
#[local] Arguments truthy : simpl never.
#[local] Arguments member_truthy : simpl never.

(** When [fetchData] has settled the viewer is not loading and shows the
    same tab. Either it found nodes, and no error is set; or the error is
    a message that is not empty, the rows of the last fetch are kept, one
    destructive toast is shown, and [renderContent] shows the error card
    and not the kept rows. *)
Theorem fetchData_settles (store_id : value)
    (functions_invoke : value -> result Invocation)
    (st : State) (dataType : DataType) :
  let after := fetchData store_id functions_invoke st dataType in
  loading after.1 = false /\
  activeTab after.1 = activeTab st /\
  ((exists nodes, after.1 = found st nodes) \/
   (exists message,
      message <> "" /\
      error after.1 = Some message /\
      data after.1 = data st /\
      renderContent after.1 = Ok (ErrorCard message) /\
      exists toast, after.2 = [toast] /\ variant toast = Some "destructive")).
Proof.
  cbv zeta. unfold fetchData.
  destruct (fetch_nodes store_id functions_invoke dataType) as [nodes|message];
    simpl.
  - split; [reflexivity|]. split; [reflexivity|]. left. exists nodes. reflexivity.
  - split; [reflexivity|]. split; [reflexivity|]. right.
    destruct message as [|c message].
    + exists "Failed to fetch data". split; [discriminate|].
      repeat (split; [reflexivity|]). eexists. split; reflexivity.
    + exists (String c message). split; [discriminate|].
      repeat (split; [reflexivity|]). eexists. split; reflexivity.
Qed.

Lemma rows_are_not_empty dataType node nodes rows :
  processData (node :: nodes) dataType = Ok rows -> rows <> [].
Proof.
  unfold processData. simpl.
  destruct (processNode node dataType); [|discriminate]. simpl.
  destruct (Array_map _ nodes); [|discriminate]. intros [= <-]. discriminate.
Qed.

Lemma table_is_not_the_notice columns row rows :
  DataTable columns (row :: rows) <> Ok NoDataAvailable.
Proof.
  unfold DataTable.
  match goal with
  | |- context [Array_map ?f (row :: rows)] => destruct (Array_map f (row :: rows))
  end; discriminate.
Qed.

(** The viewer never shows the notice [DataTable] has for no rows: with
    no rows it shows its own card and does not render the table. *)
Theorem table_notice_is_never_shown (st : State) :
  renderContent st <> Ok (Rows NoDataAvailable).
Proof.
  assert (match data st with
          | [] => Ok (NoData (activeTab st))
          | _ =>
              rows <- processData (data st) (activeTab st) ;;
              table <- DataTable (getColumns (activeTab st)) rows ;;
              Ok (Rows table)
          end <> Ok (Rows NoDataAvailable)) as Htable.
  { destruct (data st) as [|node nodes]; [discriminate|].
    destruct (processData (node :: nodes) (activeTab st)) as [rows|] eqn:E;
      [|discriminate].
    apply rows_are_not_empty in E. destruct rows as [|r rows]; [contradiction|].
    cbn [bind].
    pose proof (table_is_not_the_notice (getColumns (activeTab st)) r rows) as Hn.
    destruct (DataTable _ (r :: rows)); cbn [bind]; congruence. }
  unfold renderContent. destruct (loading st); [discriminate|].
  destruct (error st) as [[|c message]|]; [exact Htable | discriminate | exact Htable].
Qed.


Lemma missing_node_throws dataType nodes :
  In VUndefined nodes \/ In VNull nodes ->
  exists message, processData nodes dataType = Throw message.
Proof.
  unfold processData. induction nodes as [|node nodes IH]; intros H.
  - destruct H as [[]|[]].
  - assert ((node = VUndefined \/ node = VNull) \/
            (In VUndefined nodes \/ In VNull nodes)) as [Hnode|Hrest]
      by (simpl in H; tauto).
    + destruct (processNode_of_no_node node dataType Hnode) as [message Hm].
      exists message. cbn [Array_map]. rewrite Hm. reflexivity.
    + destruct (IH Hrest) as [message Hm].
      cbn [Array_map].
      destruct (processNode node dataType) as [r|message']; cbn [bind];
        [rewrite Hm|]; eauto.
Qed.

(** [fetchData] takes an edge without a [node] as it is, and the render
    does not: with [undefined] or [null] among the nodes, [processData]
    throws and [renderContent] with it. *)
Theorem node_that_is_missing_breaks_the_render (st : State) :
  loading st = false ->
  error st = None ->
  In VUndefined (data st) \/ In VNull (data st) ->
  exists message, renderContent st = Throw message.
Proof.
  intros Hl He Hin. unfold renderContent. rewrite Hl, He.
  destruct (missing_node_throws (activeTab st) _ Hin) as [message Hm].
  destruct (data st) as [|node nodes]; [destruct Hin as [[]|[]]|].
  rewrite Hm. eauto.
Qed.

Lemma selector_name_accepted store_id dataType :
  truthy store_id = true -> accepted store_id (VStr (name dataType)).
Proof.
  intros H. split; [exact H|].
  destruct dataType; (split; [reflexivity|]); eexists; split; reflexivity.
Qed.

Lemma selector_name_accepted2 store_id dataType :
  truthy store_id = true -> accepted2 store_id (VStr (name dataType)).
Proof.
  intros H. split; [exact H|].
  destruct dataType; (split; [reflexivity|]); eexists; split; reflexivity.
Qed.

Lemma Array_map_node (edges : list (gmap string value)) :
  Array_map (fun edge => get edge "node") (List.map VObj edges) =
  Ok (List.map (fun edge => field edge "node") edges).
Proof.
  induction edges as [|edge edges IH]; [reflexivity|].
  simpl. rewrite IH. reflexivity.
Qed.

(** End to end over the first handler. When the client library hands
    over the body of a 200 response, the store is found and the upstream
    answers with a success status and a payload without truthy errors,
    [fetchData] leaves in [data] the node of each edge of the payload, in
    order, and shows the toast for no data exactly when there is none. *)
Theorem viewer_gets_the_first_handler_nodes
    (transport : Response -> result Invocation) (be : Backend)
    (store_id : value) (dataType : DataType) (store : Store)
    (up : FetchResponse) (payload : gmap string value)
    (edges : list (gmap string value)) (st : State) :
  let nodes := List.map (fun edge => field edge "node") edges in
  relays_success transport ->
  truthy store_id = true ->
  createClient be = Ok tt ->
  single be store_id = Ok (Some store, None) ->
  fetch be (outbound store (VStr (name dataType))) = Ok up ->
  ok up = true ->
  up_json up = Ok (VObj payload) ->
  truthy (field payload "errors") = false ->
  prop (prop (field payload "data") (name dataType)) "edges" =
    VArr (List.map VObj edges) ->
  fetchData store_id (through (invoke be) transport) st dataType =
    (found st nodes,
     match nodes with [] => [no_data_toast dataType] | _ => [] end).
Proof.
  intros nodes Htransport Hs Hclient Hsingle Hfetch Hok Hjson Herrors Hedges.
  destruct (selector_name_accepted store_id dataType Hs) as (_ & Ht & q & Hq & Hfound).
  assert (through (invoke be) transport
            (object [("store_id", store_id);
                     ("data_type", VStr (name dataType))]) =
          Ok {| responseData := VObj payload; functionError := None |}) as Hreply.
  { unfold through, object.
    change {| method := "POST"; json := Ok (VObj ?f) |} with (request "POST" f).
    run_handler. rewrite bool_decide_eq_false_2 by discriminate.
    rewrite !lookup_insert_eq. rewrite !lookup_insert_ne by discriminate.
    rewrite !lookup_insert_eq. cbn. rewrite Hs, Ht. cbn. rewrite !Hq. cbn.
    rewrite Hfound, Hclient. cbn.
    rewrite Hsingle. rewrite (outbound_found store _ _ Hq).
    rewrite Hfetch, Hok. cbn. rewrite Hjson. cbn.
    fold (field payload "errors"). rewrite Herrors.
    unfold new_Response. rewrite response_headers_json. cbn.
    apply Htransport; reflexivity. }
  unfold fetchData, fetch_nodes. rewrite Hreply. simpl.
  fold (field payload "errors"). rewrite Herrors.
  unfold extract_nodes. simpl. fold (field payload "data").
  rewrite get_optional_prop. cbn [bind]. rewrite get_optional_prop. cbn [bind].
  rewrite Hedges.
  unfold or_else. change (truthy (VArr ?l)) with true. cbv iota. simpl.
  rewrite Array_map_node. reflexivity.
Qed.

(** End to end over the second handler, for a store id that has a
    string, as the numeric id of a store has. The handler answers with the
    [data] member of the payload, in which [fetchData] looks for a [data]
    member again: it finds no node, whatever edges the upstream sent. *)
Theorem viewer_finds_nothing_in_the_second_handler_answer
    (transport : Proxy2.Response -> result Invocation) (be : Backend)
    (store_id : value) (dataType : DataType) (store : Store)
    (up : FetchResponse) (payload data : gmap string value) (st : State) :
  relays_success2 transport ->
  truthy store_id = true ->
  convertible store_id ->
  createClient be = Ok tt ->
  single be store_id = Ok (Some store, None) ->
  fetch be (outbound2 store (VStr (name dataType))) = Ok up ->
  ok up = true ->
  up_json up = Ok (VObj payload) ->
  truthy (field payload "errors") = false ->
  payload !! "data" = Some (VObj data) ->
  data !! "errors" = None ->
  data !! "data" = None ->
  fetchData store_id (through (Proxy2.invoke be) transport) st dataType =
    (found st [], [no_data_toast dataType]).
Proof.
  intros Htransport Hs [shown Hshown] Hclient Hsingle Hfetch Hok Hjson Herrors
    Hdata He Hd.
  destruct (selector_name_accepted2 store_id dataType Hs)
    as (_ & Ht & q & Hq & Hfound).
  assert (through (Proxy2.invoke be) transport
            (object [("store_id", store_id);
                     ("data_type", VStr (name dataType))]) =
          Ok {| responseData := VObj data; functionError := None |}) as Hreply.
  { unfold through, object.
    change {| method := "POST"; json := Ok (VObj ?f) |} with (request "POST" f).
    run_handler2. rewrite bool_decide_eq_false_2 by discriminate.
    rewrite !lookup_insert_eq. rewrite !lookup_insert_ne by discriminate.
    rewrite !lookup_insert_eq. cbn. rewrite Hs, Ht. cbn. rewrite !Hq. cbn.
    rewrite Hfound, Hclient. cbn. rewrite !Hshown. cbn.
    rewrite Hsingle. cbn. rewrite (outbound2_found store _ _ Hq).
    rewrite Hfetch, Hok. cbn. rewrite Hjson. cbn.
    fold (field payload "errors"). rewrite Herrors. cbn.
    rewrite Hdata. cbn.
    unfold Proxy2.new_Response. rewrite response_headers_json. cbn.
    apply Htransport; reflexivity. }
  unfold fetchData, fetch_nodes. rewrite Hreply. simpl.
  rewrite He. simpl. change (truthy VUndefined) with false. cbv iota.
  unfold extract_nodes. simpl. rewrite Hd. reflexivity.
Qed.

End ViewerFacts.

(** *** The theorems above at concrete states *)

Section ViewerExamples.
Import Runtime Proxy DataViewer RowSpec DataTable Viewer.


Lemma node_that_is_missing_breaks_the_render_at_an_empty_edge :
  exists message,
    renderContent (H := en_US_UTC) (H0 := plain_numbers)
      {| activeTab := orders; loading := false;
         data := [VObj order_1001; VUndefined]; error := None |} =
    Throw message.
Proof.
  apply (node_that_is_missing_breaks_the_render (host := en_US_UTC)
           (format := plain_numbers)).
  - reflexivity.
  - reflexivity.
  - left. right. left. reflexivity.
Defined.

Lemma viewer_gets_the_first_handler_nodes_at_one_order :
  fetchData (H := json_text) (VNum (num 1))
    (through (invoke (backend (Ok one_order))) (functions_client status body))
    initial orders =
  (found initial [VObj order_1001], []).
Proof.
  etransitivity.
  - apply (viewer_gets_the_first_handler_nodes (serializer := json_text)
             (functions_client status body) (backend (Ok one_order))
             (VNum (num 1)) orders shop one_order
             (<["data" :=
                  object [("orders",
                    object [("edges",
                      VArr [object [("node", VObj order_1001)]])])]]> ∅)
             [<["node" := VObj order_1001]> ∅] initial).
    + intros resp b Hs Hb. unfold functions_client. rewrite Hs, Hb. reflexivity.
    + reflexivity.
    + reflexivity.
    + reflexivity.
    + reflexivity.
    + reflexivity.
    + reflexivity.
    + reflexivity.
    + vm_compute. reflexivity.
  - vm_compute. reflexivity.
Defined.

Lemma viewer_finds_nothing_in_the_second_handler_answer_at_one_order :
  fetchData (H := json_text) (VNum (num 1))
    (through (Proxy2.invoke (H := json_text) (backend (Ok one_order)))
             (functions_client Proxy2.status parsed_body))
    initial orders =
  (found initial [], [no_data_toast orders]).
Proof.
  apply (viewer_finds_nothing_in_the_second_handler_answer
           (serializer := json_text)
           (functions_client Proxy2.status parsed_body)
           (backend (Ok one_order))
           (VNum (num 1)) orders shop one_order
           (<["data" :=
                object [("orders",
                  object [("edges",
                    VArr [object [("node", VObj order_1001)]])])]]> ∅)
           (<["orders" :=
                object [("edges",
                  VArr [object [("node", VObj order_1001)]])]]> ∅)).
  - intros resp b Hs Hb. unfold functions_client, parsed_body.
    rewrite Hs, Hb. reflexivity.
  - reflexivity.
  - exists "1". vm_compute. reflexivity.
  - reflexivity.
  - reflexivity.
  - reflexivity.
  - reflexivity.
  - reflexivity.
  - reflexivity.
  - reflexivity.
  - reflexivity.
  - reflexivity.
Defined.

End ViewerExamples.


(** ** The catalogs and the columns *)

Section CatalogFacts.
Import Runtime DataViewer RowSpec DataTable Viewer.
Context `{host : Host} `{format : NumberFormat}.

Lemma mem_In k l : mem k l = true -> In k l.
Proof.
  unfold mem. intros H. apply existsb_exists in H as (x & Hx & E).
  apply String.eqb_eq in E. subst x. exact Hx.
Qed.

Lemma In_mem k l : In k l -> mem k l = true.
Proof.
  unfold mem. intros H. apply existsb_exists. exists k.
  split; [exact H | apply String.eqb_refl].
Qed.

(** A member that a catalog does not ask for is missing from the nodes
    that hold what it asks for, and no more. *)
Lemma not_asked_is_missing queries dataType (fields : gmap string value) k :
  (forall k, is_Some (fields !! k) -> In k (asked queries dataType)) ->
  mem k (asked queries dataType) = false ->
  fields !! k = None.
Proof.
  intros Hasked Hk. destruct (fields !! k) as [v|] eqn:E; [|reflexivity].
  assert (is_Some (fields !! k)) as Hsome by (rewrite E; eauto).
  apply Hasked, In_mem in Hsome. congruence.
Qed.

Lemma cells_agree dataType (node1 node2 : gmap string value) column :
  In column (getColumns dataType) ->
  (forall k, In k (asked Proxy.QUERIES dataType) -> node1 !! k = node2 !! k) ->
  converted dataType (VObj node1) = converted dataType (VObj node2) /\
  row (VObj node1) dataType !! key column =
  row (VObj node2) dataType !! key column.
Proof.
  intros Hin Hagree.
  assert (Hsame : forall k,
            mem k (asked Proxy.QUERIES dataType) = true ->
            prop (VObj node1) k = prop (VObj node2) k).
  { intros k Hk. unfold prop. rewrite (Hagree k (mem_In _ _ Hk)). reflexivity. }
  destruct dataType; unfold converted, row; cbn [spread].
  - rewrite !(Hsame "totalPriceSet"), !(Hsame "customer"),
      !(Hsame "processedAt") by (vm_compute; reflexivity).
    split; [reflexivity|]. simpl in Hin.
    repeat (destruct Hin as [<- | Hin];
            [cbn [key]; lookup_in_row; try reflexivity;
             apply Hagree, mem_In; vm_compute; reflexivity|]).
    contradiction.
  - rewrite !(Hsame "priceRangeV2"), !(Hsame "updatedAt")
      by (vm_compute; reflexivity).
    split; [reflexivity|]. simpl in Hin.
    repeat (destruct Hin as [<- | Hin];
            [cbn [key]; lookup_in_row; try reflexivity;
             apply Hagree, mem_In; vm_compute; reflexivity|]).
    contradiction.
  - rewrite !(Hsame "amountSpent") by (vm_compute; reflexivity).
    split; [reflexivity|]. simpl in Hin.
    repeat (destruct Hin as [<- | Hin];
            [cbn [key]; lookup_in_row; try reflexivity;
             apply Hagree, mem_In; vm_compute; reflexivity|]).
    contradiction.
Qed.

(** What a cell of the table holds depends on the node through the
    members the first catalog asks for, and on no other: of two nodes
    that agree on them [processData] makes rows with the same value under
    every column of [getColumns], or throws on both with the same
    message. *)
Theorem first_catalog_feeds_the_table (dataType : DataType)
    (node1 node2 : gmap string value) (column : Column) :
  In column (getColumns dataType) ->
  (forall k, In k (asked Proxy.QUERIES dataType) -> node1 !! k = node2 !! k) ->
  (r <- processNode (VObj node1) dataType ;; Ok (r !! key column)) =
  (r <- processNode (VObj node2) dataType ;; Ok (r !! key column)).
Proof.
  intros Hin Hagree.
  destruct (cells_agree dataType node1 node2 column Hin Hagree) as [Hc Hr].
  rewrite !processNode_exact by discriminate. rewrite Hc.
  destruct (Array_map ToString (converted dataType (VObj node2)));
    cbn [bind]; [rewrite Hr|]; reflexivity.
Qed.

(** The second catalog starves the table. Of a regular node that holds
    what the second catalog asks for and no more, [processData] makes an
    order whose customer is "Guest", whoever placed it, and a customer
    with neither [displayName] nor [email], whose cells show a dash. *)
Theorem second_catalog_starves_the_table (fields : gmap string value) :
  ((forall k, is_Some (fields !! k) -> In k (asked Proxy2.QUERIES orders)) ->
   regular orders (VObj fields) ->
   exists r,
     processNode (VObj fields) orders = Ok r /\
     r !! "customerName" = Some (VStr "Guest")) /\
  ((forall k, is_Some (fields !! k) -> In k (asked Proxy2.QUERIES customers)) ->
   regular customers (VObj fields) ->
   exists r,
     processNode (VObj fields) customers = Ok r /\
     r !! "displayName" = None /\
     r !! "email" = None /\
     formatCellValue (default VUndefined (r !! "displayName")) "displayName" =
       Ok (Plain "-") /\
     formatCellValue (default VUndefined (r !! "email")) "email" =
       Ok (Plain "-")).
Proof.
  split; intros Hasked Hnode;
    (eexists; split; [apply processNode_row, Hnode|]).
  - assert (fields !! "customer" = None) as Hcustomer
      by (apply (not_asked_is_missing _ _ _ _ Hasked); vm_compute; reflexivity).
    unfold row. lookup_in_row. unfold prop. rewrite Hcustomer. reflexivity.
  - assert (fields !! "displayName" = None) as Hname
      by (apply (not_asked_is_missing _ _ _ _ Hasked); vm_compute; reflexivity).
    assert (fields !! "email" = None) as Hemail
      by (apply (not_asked_is_missing _ _ _ _ Hasked); vm_compute; reflexivity).
    unfold row. cbn [spread]. lookup_in_row. rewrite Hname, Hemail.
    repeat split; reflexivity.
Qed.

End CatalogFacts.

(** *** The theorems above at concrete nodes *)

Section CatalogExamples.
Import Runtime DataViewer RowSpec DataTable Viewer.

Lemma asked_only (fields : gmap string value) (names : list string) :
  forallb (fun k => mem k names) (List.map fst (map_to_list fields)) = true ->
  forall k, is_Some (fields !! k) -> In k names.
Proof.
  intros H k [v Hk]. apply mem_In.
  rewrite forallb_forall in H. apply H.
  apply in_map_iff. exists (k, v). split; [reflexivity|].
  apply list_elem_of_In, elem_of_map_to_list, Hk.
Qed.

Lemma first_catalog_feeds_the_table_at_1001 :
  (r <- processNode (H := en_US_UTC) (VObj order_1001) orders ;;
   Ok (r !! "customerName")) =
  (r <- processNode (H := en_US_UTC) (VObj order_1001_with_a_note) orders ;;
   Ok (r !! "customerName")) /\
  (r <- processNode (H := en_US_UTC) (VObj order_1001) orders ;;
   Ok (r !! "customerName")) = Ok (Some (VStr "Ada Lovelace")).
Proof.
  split; [|vm_compute; reflexivity].
  apply (first_catalog_feeds_the_table (host := en_US_UTC) orders
           order_1001 order_1001_with_a_note
           {| key := "customerName"; label := "Customer" |}).
  - vm_compute. tauto.
  - intros k Hk. unfold order_1001_with_a_note.
    destruct (decide (k = "note")) as [->|Hne].
    + apply In_mem in Hk. vm_compute in Hk. discriminate Hk.
    + rewrite lookup_insert_ne by congruence. reflexivity.
Defined.

Lemma second_catalog_starves_the_table_at_1001 :
  (exists r,
     processNode (H := en_US_UTC) (VObj order_1001_without_customer) orders =
       Ok r /\
     r !! "customerName" = Some (VStr "Guest")) /\
  (exists r,
     processNode (H := en_US_UTC) (VObj customer_3) customers = Ok r /\
     r !! "displayName" = None /\
     r !! "email" = None).
Proof.
  split.
  - apply (proj1 (second_catalog_starves_the_table (host := en_US_UTC)
                    (format := plain_numbers) order_1001_without_customer)).
    + apply asked_only. vm_compute. reflexivity.
    + apply regular_object. vm_compute. reflexivity.
  - destruct (proj2 (second_catalog_starves_the_table (host := en_US_UTC)
                       (format := plain_numbers) customer_3))
      as (r & Hr & Hname & Hemail & _).
    + apply asked_only. vm_compute. reflexivity.
    + apply regular_object. vm_compute. reflexivity.
    + exists r. auto.
Defined.

End CatalogExamples.

(** ** The store manager: its state *)

Section StoreListFacts.
Import Runtime StoreManager StoreList.

Lemma includes_suffix a p : includes (a +:+ p) p = true.
Proof.
  induction a as [|c a IH].
  - destruct p as [|c p]; [reflexivity|].
    change (includes ("" +:+ String c p) (String c p))
      with (startsWith (String c p) (String c p) || includes p (String c p)).
    rewrite startsWith_refl. reflexivity.
  - change (String c a +:+ p) with (String c (a +:+ p)).
    apply includes_tail, IH.
Qed.

(** The domain [handleSubmit] stores always includes [.myshopify.com],
    and normalizing it again changes nothing. *)
Theorem stored_domain_is_stable (formData : FormData) :
  includes (domain_of formData) ".myshopify.com" = true /\
  domain_of (StoreManager.handleSubmit formData) = domain_of formData /\
  StoreManager.handleSubmit (StoreManager.handleSubmit formData) =
    StoreManager.handleSubmit formData.
Proof.
  assert (includes (domain_of formData) ".myshopify.com" = true) as Hin.
  { unfold domain_of. cbv zeta.
    destruct (includes (shopify_domain formData) ".myshopify.com") eqn:E;
      cbn [negb]; [exact E|].
    rewrite (inner_test_always_passes _ E). cbn [negb]. apply includes_suffix. }
  assert (domain_of (StoreManager.handleSubmit formData) = domain_of formData) as Hd.
  { unfold domain_of at 1. cbv zeta.
    change (shopify_domain (StoreManager.handleSubmit formData))
      with (domain_of formData).
    rewrite Hin. reflexivity. }
  split; [exact Hin|]. split; [exact Hd|].
  unfold StoreManager.handleSubmit at 1. rewrite Hd. reflexivity.
Qed.

(** [handleSubmit] makes one insertion on every path, of the row with the
    normalized domain, and ends with [formLoading] off. When the
    insertion fails nothing else changes: the form keeps what was typed,
    the dialog and the list stay as they were, the list is not fetched
    and one destructive toast with a message is shown. When it succeeds
    the form is emptied, the dialog closed and the list fetched once; a
    failed listing keeps the old list. *)
Theorem handleSubmit_settles (db : Client) (st : State) :
  let row := StoreManager.handleSubmit (formData st) in
  let after := handleSubmit db st in
  formLoading after.1.1 = false /\
  ((insert db row <> Ok None /\
    after.2 = [Insert row] /\
    stores after.1.1 = stores st /\ loading after.1.1 = loading st /\
    formData after.1.1 = formData st /\ dialogOpen after.1.1 = dialogOpen st /\
    exists toast,
      after.1.2 = [toast] /\ variant toast = Some "destructive" /\
      description toast <> "") \/
   (insert db row = Ok None /\
    after.2 = [Insert row; Select] /\
    formData after.1.1 = empty_form /\ dialogOpen after.1.1 = false /\
    loading after.1.1 = false /\
    stores after.1.1 =
      match select db with
      | Ok (data, None) => default [] data
      | _ => stores st
      end /\
    exists toast shown,
      after.1.2 = toast :: shown /\ title toast = "Success" /\
      Forall (fun t => variant t = Some "destructive") shown)).
Proof.
  cbv zeta. unfold handleSubmit.
  assert (forall message : string,
            match message with
            | EmptyString => "Failed to add store"
            | _ => message
            end <> "") as Hmessage.
  { intros [|c message]; discriminate. }
  destruct (insert db (StoreManager.handleSubmit (formData st)))
    as [[message|]|message] eqn:E; simpl.
  - split; [reflexivity|]. left. split; [discriminate|].
    repeat (split; [reflexivity|]). eexists. split; [reflexivity|].
    split; [reflexivity | apply Hmessage].
  - unfold fetchStores.
    destruct (select db) as [[data [e|]]|]; simpl;
      (split; [reflexivity|]); right; repeat (split; [reflexivity|]);
      eexists _, _; (split; [reflexivity|]); (split; [reflexivity|]);
      repeat constructor.
  - split; [reflexivity|]. left. split; [discriminate|].
    repeat (split; [reflexivity|]). eexists. split; [reflexivity|].
    split; [reflexivity | apply Hmessage].
Qed.

End StoreListFacts.
